(** * odata-builder: the filter model, the FilterBuilder and the OData visitor

    A shallow embedding of
      - utils/filter/filter-helper.util.ts  (operator table, value kinds, GUID test),
      - utils/filter/filter-visitor.ts      (ODataFilterVisitor),
      - utils/filter/filter-utils.ts        (type guards, toFilterQuery),
      - builder/filter-builder/filter-builder.ts (FilterBuilder),
    followed by the properties of the specification that concern them. *)

From Stdlib Require Import String Ascii List Bool Arith ZArith Lia DecimalString.
Import ListNotations.
Open Scope string_scope.
Set Warnings "-register-all".

(* ================================================================== *)
(** * Results of operations that may throw *)

(** The [Error] objects the code throws, by the site that throws them.
    Two different sites use the message [Unsupported value type: <typeof>]:
    the classification in [visitBasicFilter] and [formatValue]; they share
    the constructor [UnsupportedValueType]. *)
Inductive error : Type :=
| UnsupportedValueType (typeOf : string)
| InvalidOperator (operator type : string)
| UnsupportedInValueType (typeOf : string)
| UnsupportedDateTransform (name : string)
| UnsupportedFieldReference
| InvalidLambdaFilter
| InvalidLambdaExpression
| InvalidNegatedFilter
| InvalidFilter
| EmptyBuilderUse (method : string)
| CannotNegateEmpty
| CannotGroupEmpty
| InvalidPredicateReturn
| EmptyInValues
| TypeError (message : string)
| RangeError (message : string).

Inductive result (A : Type) : Type :=
| Ok (a : A)
| Throw (e : error).
Arguments Ok {A} a.
Arguments Throw {A} e.

Definition bind {A B : Type} (r : result A) (k : A -> result B) : result B :=
  match r with
  | Ok a => k a
  | Throw e => Throw e
  end.

Notation "x <- r ;; k" := (bind r (fun x => k))
  (at level 61, r at next level, right associativity).

(** [Array.prototype.map] with a callback that may throw: elements are
    visited left to right and the first exception ends the loop. *)
Fixpoint mapM {A B : Type} (f : A -> result B) (l : list A) : result (list B) :=
  match l with
  | [] => Ok []
  | x :: rest => y <- f x ;; ys <- mapM f rest ;; Ok (y :: ys)
  end.

(* ================================================================== *)
(** * Strings

    JavaScript strings are modelled by [string]; a code unit is an [ascii],
    so the model covers the strings whose code units are below 256. *)

(** [Array.prototype.join]. *)
Definition join (sep : string) (l : list string) : string := String.concat sep l.

(** [s.includes(sub)]. *)
Fixpoint includes (sub s : string) : bool :=
  if String.prefix sub s then true
  else match s with
       | EmptyString => false
       | String _ rest => includes sub rest
       end.

(** [list.includes(x)] on an array of strings. *)
Definition arrayIncludes (l : list string) (x : string) : bool :=
  existsb (String.eqb x) l.

Definition apostrophe : ascii := "'"%char.

(** [s.replace(/'/g, "''")]. *)
Fixpoint replaceQuotes (s : string) : string :=
  match s with
  | EmptyString => EmptyString
  | String c rest =>
      if Ascii.eqb c apostrophe
      then String apostrophe (String apostrophe (replaceQuotes rest))
      else String c (replaceQuotes rest)
  end.

(** The number of code units: 65536 in JavaScript, 256 in this embedding,
    whose strings hold the code units below 256. *)
Definition codeUnitLimit : nat := 256.

(** [s.charCodeAt(0)] of a non-empty string and [String.fromCharCode(n)],
    which takes [n] modulo the number of code units.  Below [codeUnitLimit]
    the embedding and JavaScript agree; what is proved of [fromCharCode]
    carries that bound. *)
Definition charCodeAt0 (s : string) : nat :=
  match s with
  | EmptyString => 0
  | String c _ => nat_of_ascii c
  end.

Definition fromCharCode (n : nat) : string :=
  String (ascii_of_nat (n mod codeUnitLimit)) EmptyString.

(** [String(b)] for a boolean. *)
Definition booleanToString (b : bool) : string := if b then "true" else "false".

(* ================================================================== *)
(** * filter-helper.util.ts *)

Definition operatorTypeMap : list (string * list string) :=
  [ ("string", ["eq"; "ne"; "contains"; "startswith"; "endswith";
                "substringof"; "indexof"; "concat"]);
    ("number", ["eq"; "ne"; "lt"; "le"; "gt"; "ge"]);
    ("boolean", ["eq"; "ne"]);
    ("Date", ["eq"; "ne"; "lt"; "le"; "gt"; "ge"]);
    ("Guid", ["eq"; "ne"]);
    ("null", ["eq"; "ne"]) ].

(** [operatorTypeMap] is an object literal, so [operatorTypeMap[type]] also
    finds the members every object inherits from [Object.prototype]. *)
Definition objectPrototypeKeys : list string :=
  [ "constructor"; "hasOwnProperty"; "isPrototypeOf"; "propertyIsEnumerable";
    "toLocaleString"; "toString"; "valueOf"; "__proto__";
    "__defineGetter__"; "__defineSetter__"; "__lookupGetter__";
    "__lookupSetter__" ].

Inductive property (A : Type) : Type :=
| Own (a : A)
| Inherited
| Missing.
Arguments Own {A} a.
Arguments Inherited {A}.
Arguments Missing {A}.

Fixpoint ownProperty {A : Type} (table : list (string * A)) (key : string) : option A :=
  match table with
  | [] => None
  | (k, v) :: rest => if String.eqb k key then Some v else ownProperty rest key
  end.

(** [table[key]] on an object literal. *)
Definition getProperty {A : Type} (table : list (string * A)) (key : string) : property A :=
  match ownProperty table key with
  | Some v => Own v
  | None => if arrayIncludes objectPrototypeKeys key then Inherited else Missing
  end.

(** [isValidOperator]: [operatorTypeMap[type] || []] then [.includes(operator)].
    An inherited member is a function or an object, which is truthy and has
    no [includes] method: the call raises a TypeError. *)
Definition isValidOperator (type operator : string) : result bool :=
  match getProperty operatorTypeMap type with
  | Own validOperators => Ok (arrayIncludes validOperators operator)
  | Missing => Ok (arrayIncludes [] operator)
  | Inherited => Throw (TypeError "validOperators.includes is not a function")
  end.

(** [isGuid]: the regular expression
    [/^[0-9a-f]{8}-[0-9a-f]{4}-[0-9a-f]{4}-[0-9a-f]{4}-[0-9a-f]{12}$/i]. *)
Definition isHexDigit (c : ascii) : bool :=
  let n := nat_of_ascii c in
  (((48 <=? n) && (n <=? 57)) || ((97 <=? n) && (n <=? 102))
   || ((65 <=? n) && (n <=? 70)))%nat.

(** [n] hexadecimal digits, then the rest of the string. *)
Fixpoint hexDigits (n : nat) (s : string) : option string :=
  match n with
  | O => Some s
  | S n' =>
      match s with
      | String c rest => if isHexDigit c then hexDigits n' rest else None
      | EmptyString => None
      end
  end.

Definition hyphen (s : string) : option string :=
  match s with
  | String c rest => if Ascii.eqb c "-"%char then Some rest else None
  | EmptyString => None
  end.

Definition optBind {A B : Type} (o : option A) (k : A -> option B) : option B :=
  match o with
  | Some a => k a
  | None => None
  end.

Definition isGuid (val : string) : bool :=
  match optBind (hexDigits 8 val) (fun r =>
        optBind (hyphen r) (fun r =>
        optBind (hexDigits 4 r) (fun r =>
        optBind (hyphen r) (fun r =>
        optBind (hexDigits 4 r) (fun r =>
        optBind (hyphen r) (fun r =>
        optBind (hexDigits 4 r) (fun r =>
        optBind (hyphen r) (fun r =>
        hexDigits 12 r)))))))) with
  | Some EmptyString => true
  | _ => false
  end.

(* ================================================================== *)
(** * The host: numbers, dates and case folding

    Numbers and [Date] objects only reach the code through built-in
    operations; the embedding takes these operations from the host.
    [JSDate] stands for a [Date] object, whose time value is valid or, for
    an invalid Date such as [new Date(NaN)], not. *)

Inductive Transform : Type :=
| Tolower | Toupper | Trim | Length
| Round | Floor | Ceiling
| Year | Month | Day | Hour | Minute | Second.

Class JSHost : Type := {
  JSNumber : Type;
  JSDate : Type;
  (** [String(n)], also the text of [n] in a template literal *)
  numberToString : JSNumber -> string;
  (** [d.toISOString()]; [None] when [d] is an invalid Date, for which the
      call throws a RangeError *)
  toISOString : JSDate -> option string;
  (** [String(d)], the text of [d] in a template literal *)
  dateToString : JSDate -> string;
  (** [+d] *)
  dateValueOf : JSDate -> JSNumber;
  (** for the six date transforms: the function of the table in
      [applyDateTransforms], applied to [new Date(acc)] *)
  dateTransformFn : Transform -> JSNumber -> JSNumber;
  (** [s.toLowerCase()] *)
  toLowerCase : string -> string
}.

(* ================================================================== *)
(** * query-filter.type.ts: the filter model *)

(** An optional property whose presence is tested with [in]. *)
Inductive optional (A : Type) : Type :=
| Absent
| Undefined
| Present (a : A).
Arguments Absent {A}.
Arguments Undefined {A}.
Arguments Present {A} a.

Section Model.
Context {host : JSHost}.

(** [string | number | boolean | Date | Guid | null]; a [Guid] is a string. *)
Inductive Value : Type :=
| VNull
| VString (s : string)
| VNumber (n : JSNumber)
| VBoolean (b : bool)
| VDate (d : JSDate).

(** An argument of a function descriptor: a literal or a [FieldReference]
    object [{ fieldReference }]. *)
Inductive FunctionArgument : Type :=
| Literal (v : Value)
| FieldReference (fieldReference : string).

Inductive ArithmeticOperator : Type := Add | Sub | Mul | Div | Mod.

(** The [field] of a [date] or [time] descriptor: a [FieldReference] by its
    declared type, a plain string is accepted at run time. *)
Inductive FieldArgument : Type :=
| FieldString (name : string)
| FieldObject (fieldReference : string).

(** [SupportedFunction<T>], one constructor for each [type] tag. *)
Inductive FunctionDefinition : Type :=
| Concat (values : list FunctionArgument)
| Contains (value : FunctionArgument)
| Endswith (value : FunctionArgument)
| Indexof (value : FunctionArgument)
| LengthFn
| Startswith (value : FunctionArgument)
| Substring (start : FunctionArgument) (length : option FunctionArgument)
| Arithmetic (type : ArithmeticOperator) (operand : FunctionArgument)
| Now
| DateFn (field : FieldArgument)
| TimeFn (field : FieldArgument).

(** An object with the properties [field], [operator] and [value]: the
    comparison filters, the string predicates, and (with operator [has]) the
    [HasFilter].  [ignoreCase], [removeQuotes] and [function] are only read
    as [('p' in filter && filter.p)], so an absent and an undefined property
    are both [None]. *)
Record BasicFilter : Type := {
  field : string;
  operator : string;
  value : Value;
  ignoreCase : option bool;
  removeQuotes : option bool;
  function : option FunctionDefinition;
  transform : optional (list Transform)
}.

Inductive Logic : Type := And | Or.
Inductive LambdaOperator : Type := Any | All.

(** [QueryFilter<T> | CombinedFilter<T>]. *)
Inductive QueryFilter : Type :=
| Basic (b : BasicFilter)
| InFilter (field : string) (values : list Value)
| NegatedFilter (filter : QueryFilter)
| LambdaFilter (field : string) (lambdaOperator : LambdaOperator)
               (expression : QueryFilter)
| CombinedFilter (logic : Logic) (filters : list QueryFilter).

(** [{ field, operator: 'has', value }] *)
Definition HasFilter (field value : string) : QueryFilter :=
  Basic {| field := field; operator := "has"; value := VString value;
           ignoreCase := None; removeQuotes := None; function := None;
           transform := Absent |}.

Definition logicName (l : Logic) : string :=
  match l with And => "and" | Or => "or" end.

Definition lambdaOperatorName (o : LambdaOperator) : string :=
  match o with Any => "any" | All => "all" end.

Definition transformName (t : Transform) : string :=
  match t with
  | Tolower => "tolower" | Toupper => "toupper" | Trim => "trim"
  | Length => "length"
  | Round => "round" | Floor => "floor" | Ceiling => "ceiling"
  | Year => "year" | Month => "month" | Day => "day"
  | Hour => "hour" | Minute => "minute" | Second => "second"
  end.

Definition arithmeticOperatorName (o : ArithmeticOperator) : string :=
  match o with
  | Add => "add" | Sub => "sub" | Mul => "mul" | Div => "div" | Mod => "mod"
  end.

(** [func.type] *)
Definition functionType (func : FunctionDefinition) : string :=
  match func with
  | Concat _ => "concat"
  | Contains _ => "contains"
  | Endswith _ => "endswith"
  | Indexof _ => "indexof"
  | LengthFn => "length"
  | Startswith _ => "startswith"
  | Substring _ _ => "substring"
  | Arithmetic o _ => arithmeticOperatorName o
  | Now => "now"
  | DateFn _ => "date"
  | TimeFn _ => "time"
  end.

(** [typeof v] *)
Definition typeOf (v : Value) : string :=
  match v with
  | VNull => "object"
  | VString _ => "string"
  | VNumber _ => "number"
  | VBoolean _ => "boolean"
  | VDate _ => "object"
  end.

(** The text of [v] in a template literal. *)
Definition templateText (v : Value) : string :=
  match v with
  | VNull => "null"
  | VString s => s
  | VNumber n => numberToString n
  | VBoolean b => booleanToString b
  | VDate d => dateToString d
  end.

(** [getValueType]; the last line, [return 'unknown'], is for values
    outside [Value]. *)
Definition getValueType (value : Value) : string :=
  match value with
  | VNull => "null"
  | VDate _ => "Date"
  | VString s => if isGuid s then "Guid" else "string"
  | VNumber _ => "number"
  | VBoolean _ => "boolean"
  end.

(** A property read as [('p' in filter && filter.p)]. *)
Definition truthy (p : option bool) : bool :=
  match p with
  | Some true => true
  | _ => false
  end.


(* ================================================================== *)
(** * filter-visitor.ts: the leaves of [ODataFilterVisitor] *)

(** The call [value.toISOString()]. *)
Definition callToISOString (value : JSDate) : result string :=
  match toISOString value with
  | Some isoDate => Ok isoDate
  | None => Throw (RangeError "Invalid time value")
  end.

(** [formatInValue] *)
Definition formatInValue (value : Value) : result string :=
  match value with
  | VNull => Ok "null"
  | VString s =>
      if isGuid s then Ok s
      else Ok ("'" ++ replaceQuotes s ++ "'")
  | VDate d => callToISOString d
  | VNumber n => Ok (numberToString n)
  | VBoolean b => Ok (booleanToString b)
  end.

(** [getTransformedField] *)
Definition getTransformedField (filter : BasicFilter) : string :=
  let transforms :=
    ((if truthy (ignoreCase filter) then ["tolower"] else [])
     ++ (match transform filter with
         | Present l => map transformName l
         | _ => []
         end))%list in
  fold_left (fun acc transform => transform ++ "(" ++ acc ++ ")")
            transforms (field filter).

(** The table [dateTransforms] of [applyDateTransforms]. *)
Definition dateTransforms (t : Transform) : option (JSNumber -> JSNumber) :=
  match t with
  | Year | Month | Day | Hour | Minute | Second => Some (dateTransformFn t)
  | _ => None
  end.

(** [applyDateTransforms] *)
Definition applyDateTransforms (date : JSDate) (transforms : list Transform)
  : result JSNumber :=
  fold_left
    (fun acc transform =>
       a <- acc ;;
       match dateTransforms transform with
       | Some transformFn => Ok (transformFn a)
       | None => Throw (UnsupportedDateTransform (transformName transform))
       end)
    transforms (Ok (dateValueOf date)).

(** [formatValue] *)
Definition formatValue (value : FunctionArgument) : result string :=
  match value with
  | Literal (VString s) => Ok ("'" ++ replaceQuotes s ++ "'")
  | Literal (VDate d) => callToISOString d
  | Literal (VNumber n) => Ok (numberToString n)
  | Literal (VBoolean b) => Ok (booleanToString b)
  | Literal VNull => Throw (UnsupportedValueType (typeOf VNull))
  | FieldReference _ => Throw (UnsupportedValueType "object")
  end.

(** [resolveField]: the test [('/' in field)] looks for a property named
    [/], which a [FieldReference] object does not have. *)
Definition resolveField (field : FieldArgument) : result string :=
  match field with
  | FieldString name => Ok name
  | FieldObject _ => Throw UnsupportedFieldReference
  end.

(** [createArithmeticHandler(operator)(func, field)] *)
Definition createArithmeticHandler (operator : ArithmeticOperator)
           (operand : FunctionArgument) (field : string) : result string :=
  a <- formatValue operand ;;
  Ok (field ++ " " ++ arithmeticOperatorName operator ++ " " ++ a).

(** [processFunction] *)
Definition processFunction (func : FunctionDefinition) (field : string)
  : result string :=
  match func with
  | Concat values =>
      vs <- mapM formatValue values ;;
      Ok ("concat(" ++ join ", " (field :: vs) ++ ")")
  | Contains value =>
      v <- formatValue value ;; Ok ("contains(" ++ field ++ ", " ++ v ++ ")")
  | Endswith value =>
      v <- formatValue value ;; Ok ("endswith(" ++ field ++ ", " ++ v ++ ")")
  | Indexof value =>
      v <- formatValue value ;; Ok ("indexof(" ++ field ++ ", " ++ v ++ ")")
  | LengthFn => Ok ("length(" ++ field ++ ")")
  | Startswith value =>
      v <- formatValue value ;; Ok ("startswith(" ++ field ++ ", " ++ v ++ ")")
  | Substring start length =>
      let args := start :: match length with Some l => [l] | None => [] end in
      vs <- mapM formatValue args ;;
      Ok ("substring(" ++ field ++ ", " ++ join ", " vs ++ ")")
  | Arithmetic type operand => createArithmeticHandler type operand field
  | Now => Ok "now()"
  | DateFn f => r <- resolveField f ;; Ok ("date(" ++ r ++ ")")
  | TimeFn f => r <- resolveField f ;; Ok ("time(" ++ r ++ ")")
  end.

(** [validateOperator] *)
Definition validateOperator (type operator : string) : result unit :=
  valid <- isValidOperator type operator ;;
  if valid then Ok tt else Throw (InvalidOperator operator type).

Definition booleanPredicates : list string :=
  ["contains"; "startswith"; "endswith"].

(** [{ ...func, value: func.value.toLowerCase() }] when [func] has a string
    [value], else [func]. *)
Definition lowercasedValue (func : FunctionDefinition) : FunctionDefinition :=
  match func with
  | Contains (Literal (VString s)) => Contains (Literal (VString (toLowerCase s)))
  | Endswith (Literal (VString s)) => Endswith (Literal (VString (toLowerCase s)))
  | Indexof (Literal (VString s)) => Indexof (Literal (VString (toLowerCase s)))
  | Startswith (Literal (VString s)) => Startswith (Literal (VString (toLowerCase s)))
  | _ => func
  end.

(** [visitBasicFilter]; the first test, [('value' in filter)], holds for
    every [BasicFilter]. *)
Definition visitBasicFilter (filter : BasicFilter) : result string :=
  match value filter with
  | VNull =>
      leftSide <- match function filter with
                  | Some func => processFunction func (field filter)
                  | None => Ok (getTransformedField filter)
                  end ;;
      Ok (leftSide ++ " " ++ operator filter ++ " null")
  | v =>
      let valueType := getValueType v in
      if String.eqb valueType "unknown"
      then Throw (UnsupportedValueType (typeOf v))
      else
        _ <- validateOperator valueType (operator filter) ;;
        let transformedField := getTransformedField filter in
        match v with
        | VDate d =>
            let plain :=
              leftSide <- match function filter with
                          | Some func => processFunction func (field filter)
                          | None => Ok transformedField
                          end ;;
              isoDate <- callToISOString d ;;
              Ok (leftSide ++ " " ++ operator filter ++ " " ++ isoDate) in
            match transform filter with
            | Absent => plain
            | Undefined =>
                Throw (TypeError "Cannot read properties of undefined (reading 'length')")
            | Present [] => plain
            | Present transforms =>
                transformedValue <- applyDateTransforms d transforms ;;
                Ok (transformedField ++ " " ++ operator filter ++ " "
                    ++ numberToString transformedValue)
            end
        | VString s =>
            let transformedValue :=
              if truthy (ignoreCase filter) then toLowerCase s else s in
            let escapedValue := replaceQuotes transformedValue in
            let value :=
              if truthy (removeQuotes filter) then escapedValue
              else "'" ++ escapedValue ++ "'" in
            match function filter with
            | Some func =>
                let fieldForFunction :=
                  if truthy (ignoreCase filter)
                  then "tolower(" ++ field filter ++ ")"
                  else field filter in
                if arrayIncludes booleanPredicates (functionType func)
                then processFunction func fieldForFunction
                else
                  leftSide <- processFunction func fieldForFunction ;;
                  Ok (leftSide ++ " " ++ operator filter ++ " " ++ value)
            | None =>
                Ok (transformedField ++ " " ++ operator filter ++ " " ++ value)
            end
        | VNumber n =>
            leftSide <- match function filter with
                        | Some func => processFunction func (field filter)
                        | None => Ok transformedField
                        end ;;
            Ok (leftSide ++ " " ++ operator filter ++ " " ++ numberToString n)
        | VBoolean b =>
            let last :=
              Ok (transformedField ++ " " ++ operator filter ++ " "
                  ++ booleanToString b) in
            match function filter with
            | Some func =>
                if arrayIncludes booleanPredicates (functionType func)
                then
                  let fieldForFunction :=
                    if truthy (ignoreCase filter)
                    then "tolower(" ++ field filter ++ ")"
                    else field filter in
                  let funcWithLowercasedValue :=
                    if truthy (ignoreCase filter) then lowercasedValue func
                    else func in
                  processFunction funcWithLowercasedValue fieldForFunction
                else last
            | None => last
            end
        | VNull =>
            (* the last line of the function, with [String(null)] *)
            Ok (transformedField ++ " " ++ operator filter ++ " "
                ++ templateText VNull)
        end
  end.

(** [FilterRenderContext]; the visitor only tests whether
    [context.legacyInOperator] is truthy. *)
Record FilterRenderContext : Type := { legacyInOperator : option bool }.

(** The visitor is constructed with its rendering context. *)
Section ODataFilterVisitor.
Variable context : FilterRenderContext.

(** [visitInFilter] *)
Definition visitInFilter (field : string) (values : list Value) : result string :=
  formattedValues <- mapM formatInValue values ;;
  if truthy (legacyInOperator context)
  then
    let conditions := map (fun v => field ++ " eq " ++ v) formattedValues in
    Ok ("(" ++ join " or " conditions ++ ")")
  else Ok (field ++ " in (" ++ join ", " formattedValues ++ ")").

(** [visitHasFilter] *)
Definition visitHasFilter (filter : BasicFilter) : string :=
  field filter ++ " has " ++ templateText (value filter).

(** [getPrefixedField]; [!prefix] holds for a missing and for an empty
    prefix. *)
Definition getPrefixedField (field : string) (prefix : option string) : string :=
  let fieldStr := field in
  match prefix with
  | None | Some EmptyString => fieldStr
  | Some prefix =>
      if String.eqb fieldStr "s" then prefix
      else if String.eqb fieldStr prefix then fieldStr
      else if String.eqb fieldStr "" then prefix
      else prefix ++ "/" ++ fieldStr
  end.

(** [{ ...filter, field }] *)
Definition withField (filter : BasicFilter) (newField : string) : BasicFilter :=
  {| field := newField; operator := operator filter; value := value filter;
     ignoreCase := ignoreCase filter; removeQuotes := removeQuotes filter;
     function := function filter; transform := transform filter |}.

(** The object [prefixedExpression] of [visitLambdaFilter]: the spread
    copy of [expression] with a new [field] and with [ignoreCase],
    [removeQuotes] and [transform] always present, [undefined] when the
    expression does not have them. *)
Definition prefixedExpression (expression : BasicFilter) (currentParam : string)
  : BasicFilter :=
  {| field := getPrefixedField (field expression) (Some currentParam);
     operator := operator expression;
     value := value expression;
     ignoreCase := ignoreCase expression;
     removeQuotes := removeQuotes expression;
     function := function expression;
     transform := match transform expression with
                  | Absent => Undefined
                  | t => t
                  end |}.

(** The parameter a lambda binds:
    [parentPrefix ? String.fromCharCode(parentPrefix.charCodeAt(0) + 1) : 's'] *)
Definition currentParam (parentPrefix : option string) : string :=
  match parentPrefix with
  | None | Some EmptyString => "s"
  | Some parentPrefix => fromCharCode (charCodeAt0 parentPrefix + 1)
  end.

(** [isHasFilter] on an object with [field], [operator] and [value]. *)
Definition hasOperator (filter : BasicFilter) : bool :=
  String.eqb (operator filter) "has".

(** [visitCombinedFilter], [visitLambdaFilter] and [visitNegatedFilter].
    Each takes the node it is declared for; handed another node,
    [visitCombinedFilter] reads [filter.filters.map] of [undefined], the
    other two reach their own [throw]. *)
Fixpoint visitCombinedFilter (filter : QueryFilter) (currentPrefix : option string)
         {struct filter} : result string :=
  match filter with
  | CombinedFilter logic filters =>
      rendered <-
        (fix map_ (l : list QueryFilter) : result (list string) :=
           match l with
           | [] => Ok []
           | subFilter :: rest =>
               q <- match subFilter with
                    | CombinedFilter _ _ =>
                        visitCombinedFilter subFilter currentPrefix
                    | LambdaFilter _ _ _ =>
                        visitLambdaFilter subFilter currentPrefix
                    | InFilter field values =>
                        visitInFilter (getPrefixedField field currentPrefix) values
                    | NegatedFilter _ => visitNegatedFilter subFilter
                    | Basic b =>
                        let prefixedFilter :=
                          withField b (getPrefixedField (field b) currentPrefix) in
                        if hasOperator b then Ok (visitHasFilter prefixedFilter)
                        else visitBasicFilter prefixedFilter
                    end ;;
               qs <- map_ rest ;;
               Ok (q :: qs)
           end) filters ;;
      let combinedQueries := join (" " ++ logicName logic ++ " ") rendered in
      if includes " " combinedQueries
      then Ok ("(" ++ combinedQueries ++ ")")
      else Ok combinedQueries
  | _ => Throw (TypeError "Cannot read properties of undefined (reading 'map')")
  end

with visitLambdaFilter (filter : QueryFilter) (parentPrefix : option string)
     {struct filter} : result string :=
  match filter with
  | LambdaFilter lambdaField lambdaOperator expression =>
      let currentParam := currentParam parentPrefix in
      let field := getPrefixedField lambdaField parentPrefix in
      let wrap (subQuery : string) :=
        field ++ "/" ++ lambdaOperatorName lambdaOperator
        ++ "(" ++ currentParam ++ ": " ++ subQuery ++ ")" in
      match expression with
      | CombinedFilter _ _ =>
          subQuery <- visitCombinedFilter expression (Some currentParam) ;;
          Ok (wrap subQuery)
      | LambdaFilter _ _ _ =>
          nestedQuery <- visitLambdaFilter expression (Some currentParam) ;;
          Ok (wrap nestedQuery)
      | Basic b =>
          subQuery <- visitBasicFilter (prefixedExpression b currentParam) ;;
          Ok (wrap subQuery)
      | InFilter _ _ | NegatedFilter _ => Throw InvalidLambdaExpression
      end
  | _ => Throw InvalidLambdaFilter
  end

with visitNegatedFilter (filter : QueryFilter) {struct filter} : result string :=
  match filter with
  | NegatedFilter innerFilter =>
      innerQuery <-
        match innerFilter with
        | CombinedFilter _ _ => visitCombinedFilter innerFilter None
        | NegatedFilter _ => visitNegatedFilter innerFilter
        | InFilter field values => visitInFilter field values
        | Basic b =>
            if hasOperator b then Ok (visitHasFilter b) else visitBasicFilter b
        | LambdaFilter _ _ _ => visitLambdaFilter innerFilter None
        end ;;
      Ok ("not (" ++ innerQuery ++ ")")
  | _ => Throw InvalidNegatedFilter
  end.

(** The callback [subFilter => ...] that [visitCombinedFilter] maps over
    [filter.filters], as a function of its own. *)
Definition visitSubFilter (currentPrefix : option string) (subFilter : QueryFilter)
  : result string :=
  match subFilter with
  | CombinedFilter _ _ => visitCombinedFilter subFilter currentPrefix
  | LambdaFilter _ _ _ => visitLambdaFilter subFilter currentPrefix
  | InFilter field values =>
      visitInFilter (getPrefixedField field currentPrefix) values
  | NegatedFilter _ => visitNegatedFilter subFilter
  | Basic b =>
      let prefixedFilter :=
        withField b (getPrefixedField (field b) currentPrefix) in
      if hasOperator b then Ok (visitHasFilter prefixedFilter)
      else visitBasicFilter prefixedFilter
  end.

(** The chain of tests by which [visitNegatedFilter] renders
    [filter.filter]. *)
Definition visitInnerFilter (innerFilter : QueryFilter) : result string :=
  match innerFilter with
  | CombinedFilter _ _ => visitCombinedFilter innerFilter None
  | NegatedFilter _ => visitNegatedFilter innerFilter
  | InFilter field values => visitInFilter field values
  | Basic b =>
      if hasOperator b then Ok (visitHasFilter b) else visitBasicFilter b
  | LambdaFilter _ _ _ => visitLambdaFilter innerFilter None
  end.

End ODataFilterVisitor.

(* ================================================================== *)
(** * filter-utils.ts: type guards and [toFilterQuery] *)

(** Modelled from the spec: [isCombinedFilter] of combined-filter-util.ts,
    which is not among the sources.  A Combined node is the variant that
    carries a [logic] and a list of [filters]; the guard holds for it and
    for no other variant. *)
Definition isCombinedFilter (obj : QueryFilter) : bool :=
  match obj with
  | CombinedFilter _ _ => true
  | _ => false
  end.

(** [field], [operator] and [value] present, [lambdaOperator] absent. *)
Definition isBasicFilter (obj : QueryFilter) : bool :=
  match obj with
  | Basic _ => true
  | _ => false
  end.

(** [isLambdaFilter] of filter-utils.ts, which also inspects the expression.
    (The guard of the same name inside filter-visitor.ts only asks for the
    properties [lambdaOperator] and [expression].) *)
Fixpoint isLambdaFilter (obj : QueryFilter) : bool :=
  match obj with
  | LambdaFilter _ _ expression =>
      isBasicFilter expression || isCombinedFilter expression
      || isLambdaFilter expression
  | _ => false
  end.

Definition isInFilter (obj : QueryFilter) : bool :=
  match obj with
  | InFilter _ _ => true
  | _ => false
  end.

Definition isNegatedFilter (obj : QueryFilter) : bool :=
  match obj with
  | NegatedFilter _ => true
  | _ => false
  end.

Definition isHasFilter (obj : QueryFilter) : bool :=
  match obj with
  | Basic b => hasOperator b
  | _ => false
  end.

(** The body of the reducer of [toFilterQuery]: the rendering of one
    top-level filter. *)
Definition queryPart (context : FilterRenderContext) (curr : QueryFilter)
  : result string :=
  if negb (isCombinedFilter curr || isLambdaFilter curr || isBasicFilter curr
           || isInFilter curr || isNegatedFilter curr || isHasFilter curr)
  then Throw InvalidFilter
  else
    match curr with
    | CombinedFilter _ _ => visitCombinedFilter context curr None
    | LambdaFilter _ _ _ => visitLambdaFilter context curr None
    | InFilter field values => visitInFilter context field values
    | NegatedFilter _ => visitNegatedFilter context curr
    | Basic b =>
        if hasOperator b then Ok (visitHasFilter b) else visitBasicFilter b
    end.

(** [toFilterQuery] *)
Definition toFilterQuery (filters : list QueryFilter)
           (context : FilterRenderContext) : result string :=
  match filters with
  | [] => Ok ""
  | _ =>
      fst (fold_left
             (fun (state : result string * nat) curr =>
                let (prev, index) := state in
                (p <- prev ;;
                 part <- queryPart context curr ;;
                 Ok (p ++ (if (0 <? index)%nat then " and " else "") ++ part),
                 S index))
             filters (Ok "$filter=", 0))
  end.

(* ================================================================== *)
(** * filter-builder.ts: [FilterBuilder] *)

(** [FilterPart<T>]: [logic] is absent on the parts added by [where],
    [not] and [group]. *)
Record FilterPart : Type := {
  logic : option Logic;
  filter : QueryFilter
}.

(** A builder is its read-only array of parts. *)
Record FilterBuilder : Type := { parts : list FilterPart }.

(** [new FilterBuilder<T>()] *)
Definition emptyBuilder : FilterBuilder := {| parts := [] |}.

(** What the predicate of a [FilterInput] returns when called with the
    field proxy: a filter expression carrying [_filter], or anything else. *)
Inductive PredicateResult : Type :=
| Expression (_filter : QueryFilter)
| NotAnExpression.

(** [FilterInput<T>]: a predicate function, given by what it returns, or a
    builder. *)
Inductive FilterInput : Type :=
| Predicate (returns : PredicateResult)
| Builder (builder : FilterBuilder).

(** The loop of [buildWithPrecedence] over [this.parts]; the state is
    [(orGroups, currentAndGroup)]. *)
Definition groupStep (state : list (list QueryFilter) * list QueryFilter)
           (part : FilterPart) : list (list QueryFilter) * list QueryFilter :=
  let (orGroups, currentAndGroup) := state in
  match logic part with
  | Some Or =>
      ((if (0 <? List.length currentAndGroup)%nat
        then orGroups ++ [currentAndGroup]
        else orGroups)%list,
       [filter part])
  | _ => (orGroups, (currentAndGroup ++ [filter part])%list)
  end.

(** [buildWithPrecedence] *)
Definition buildWithPrecedence (this : FilterBuilder) : QueryFilter :=
  let (orGroups0, currentAndGroup) := fold_left groupStep (parts this) ([], []) in
  let orGroups :=
    (if (0 <? List.length currentAndGroup)%nat
     then orGroups0 ++ [currentAndGroup]
     else orGroups0)%list in
  let combinedAndGroups :=
    flat_map (fun group =>
                match group with
                | [first] => [first]
                | _ => [CombinedFilter And group]
                end) orGroups in
  match combinedAndGroups with
  | [first] => first
  | _ => CombinedFilter Or combinedAndGroups
  end.

(** [build] *)
Definition build (this : FilterBuilder) : option QueryFilter :=
  match parts this with
  | [] => None
  | [first] => Some (filter first)
  | _ => Some (buildWithPrecedence this)
  end.

(** [resolveInput]; [null] is [None]. *)
Definition resolveInput (input : FilterInput) : result (option QueryFilter) :=
  match input with
  | Builder builder => Ok (build builder)
  | Predicate (Expression _filter) => Ok (Some _filter)
  | Predicate NotAnExpression => Throw InvalidPredicateReturn
  end.

(** [where] (a reserved word here, hence the underscore; likewise [and], [or], [not]) *)
Definition where_ (this : FilterBuilder) (input : FilterInput) : result FilterBuilder :=
  resolved <- resolveInput input ;;
  match resolved with
  | None => Ok this
  | Some f =>
      Ok {| parts := (parts this ++ [{| logic := None; filter := f |}])%list |}
  end.

(** [and] *)
Definition and_ (this : FilterBuilder) (input : FilterInput) : result FilterBuilder :=
  if (List.length (parts this) =? 0)%nat then Throw (EmptyBuilderUse "and")
  else
    resolved <- resolveInput input ;;
    match resolved with
    | None => Ok this
    | Some f =>
        Ok {| parts := (parts this ++ [{| logic := Some And; filter := f |}])%list |}
    end.

(** [or] *)
Definition or_ (this : FilterBuilder) (input : FilterInput) : result FilterBuilder :=
  if (List.length (parts this) =? 0)%nat then Throw (EmptyBuilderUse "or")
  else
    resolved <- resolveInput input ;;
    match resolved with
    | None => Ok this
    | Some f =>
        Ok {| parts := (parts this ++ [{| logic := Some Or; filter := f |}])%list |}
    end.

(** [not] *)
Definition not_ (this : FilterBuilder) : result FilterBuilder :=
  if (List.length (parts this) =? 0)%nat then Throw (EmptyBuilderUse "not")
  else
    match build this with
    | None => Throw CannotNegateEmpty
    | Some currentFilter =>
        let negatedFilter := NegatedFilter currentFilter in
        Ok {| parts := [{| logic := None; filter := negatedFilter |}] |}
    end.

(** [group]; the receiver [this] is not read. *)
Definition group (this builder : FilterBuilder) : result FilterBuilder :=
  match build builder with
  | None => Throw CannotGroupEmpty
  | Some result => Ok {| parts := [{| logic := None; filter := result |}] |}
  end.

(** [buildArray] and [isEmpty] *)
Definition buildArray (this : FilterBuilder) : list QueryFilter :=
  match build this with
  | Some result => [result]
  | None => []
  end.

Definition isEmpty (this : FilterBuilder) : bool :=
  (List.length (parts this) =? 0)%nat.

End Model.

(* ================================================================== *)
(** * field-proxy.ts: the expressions the field proxy creates *)

Module FieldProxy.
Section Expressions.
Context {host : JSHost}.

(** [ProxyContext]; [fieldPath] is [context.path.join('/')]. *)
Record ProxyContext : Type := {
  path : list string;
  transforms : list Transform;
  ignoreCase : bool;
  removeQuotes : bool;
  func : option FunctionDefinition
}.

(** The context [createFieldProxy] starts from. *)
Definition initialContext : ProxyContext :=
  {| path := []; transforms := []; ignoreCase := false;
     removeQuotes := false; func := None |}.

Definition fieldPath (context : ProxyContext) : string := join "/" (path context).

(** [createFilterExpression]: the optional properties are only set when
    the context has them. *)
Definition createFilterExpression (field operator : string) (value : Value)
           (context : ProxyContext) : QueryFilter :=
  Basic (Build_BasicFilter
           field operator value
           (if ignoreCase context then Some true else None)
           (if removeQuotes context then Some true else None)
           (func context)
           (match transforms context with
            | [] => Absent
            | l => Present l
            end)).

(** [createBooleanPredicateExpression] *)
Definition createBooleanPredicateExpression (field : string)
           (func : FunctionDefinition) (context : ProxyContext) : QueryFilter :=
  Basic (Build_BasicFilter
           field "eq" (VBoolean true)
           (if ignoreCase context then Some true else None)
           None
           (Some func)
           Absent).

(** [createLambdaExpression], [createInFilterExpression] and
    [createHasFilterExpression] *)
Definition createLambdaExpression (field : string) (lambdaOperator : LambdaOperator)
           (innerFilter : QueryFilter) : QueryFilter :=
  LambdaFilter field lambdaOperator innerFilter.

Definition createInFilterExpression (field : string) (values : list Value)
  : QueryFilter :=
  InFilter field values.

Definition createHasFilterExpression (field enumLiteral : string) : QueryFilter :=
  HasFilter field enumLiteral.

(** The terminal operations of a proxy in [context]: the comparisons
    ([operation] is one of eq, ne, gt, ge, lt, le), [isTrue], the string
    predicates, [in], [has] and the quantifiers. *)
Definition comparisonOp (operation : string) (context : ProxyContext)
           (value : Value) : QueryFilter :=
  createFilterExpression (fieldPath context) operation value context.

Definition isTrue (context : ProxyContext) : QueryFilter :=
  createFilterExpression (fieldPath context) "eq" (VBoolean true) context.

Definition contains (context : ProxyContext) (value : string) : QueryFilter :=
  createBooleanPredicateExpression (fieldPath context)
    (Contains (Literal (VString value))) context.

Definition in_ (context : ProxyContext) (values : list Value) : result QueryFilter :=
  match values with
  | [] => Throw EmptyInValues
  | _ => Ok (createInFilterExpression (fieldPath context) values)
  end.

Definition has (context : ProxyContext) (enumLiteral : string) : QueryFilter :=
  createHasFilterExpression (fieldPath context) enumLiteral.

(** [any] and [all]; the predicate is given by the expression it returns
    for the fresh element proxy. *)
Definition quantifier (lambdaOperator : LambdaOperator) (context : ProxyContext)
           (innerExpression : QueryFilter) : QueryFilter :=
  createLambdaExpression (fieldPath context) lambdaOperator innerExpression.

(** Reading the property [prop] of the proxy, when [prop] is not the name
    of an operation. *)
Definition get (context : ProxyContext) (prop : string) : ProxyContext :=
  {| path := (path context ++ [prop])%list; transforms := transforms context;
     ignoreCase := ignoreCase context; removeQuotes := removeQuotes context;
     func := func context |}.

End Expressions.
End FieldProxy.

(* ================================================================== *)
(** * filter-helper.util.ts: [isValidTransform] *)

Definition transformTypeMap : list (string * list string) :=
  [ ("string", ["tolower"; "toupper"; "trim"; "length"]);
    ("number", ["round"; "floor"; "ceiling"]);
    ("Date", ["year"; "month"; "day"; "hour"; "minute"; "second"]);
    ("Guid", ["tolower"]) ].

(** [isValidTransform]; [transforms] is optional, [None] when it is
    undefined.  [transformTypeMap[type] || []] finds inherited members like
    [operatorTypeMap[type]] does; [every] only calls [includes] when there is
    a transform to test. *)
Definition isValidTransform (type : string) (transforms : option (list string))
  : result bool :=
  match transforms with
  | None => Ok true
  | Some ts =>
      match getProperty transformTypeMap type with
      | Own validTransforms => Ok (forallb (arrayIncludes validTransforms) ts)
      | Missing => Ok (forallb (arrayIncludes []) ts)
      | Inherited =>
          match ts with
          | [] => Ok true
          | _ => Throw (TypeError "validTransforms.includes is not a function")
          end
      end
  end.

(* ================================================================== *)
(** * is-query-filter-util.ts and the object syntax of
      [OdataQueryBuilder.filter] *)

Section Validation.
Context {host : JSHost}.

(** The last test of [isQueryFilter], for an object with [field],
    [operator] and [value]. *)
Definition isValidBasicFilter (f : BasicFilter) : result bool :=
  let valueType := getValueType (value f) in
  if String.eqb valueType "unknown" then Ok false
  else
    validOperator <- isValidOperator valueType (operator f) ;;
    if negb validOperator then Ok false
    else
      match transform f with
      | Absent => Ok true
      | Undefined =>
          validTransform <- isValidTransform valueType None ;;
          Ok validTransform
      | Present l =>
          validTransform <-
            isValidTransform valueType (Some (map transformName l)) ;;
          Ok validTransform
      end.

(** [isQueryFilter]: the tests for a lambda, a Membership, a Negation, an
    enum-flag test and a comparison, in this order; a test that does not
    return falls through to the next. *)
Fixpoint isQueryFilter (filter : QueryFilter) : result bool :=
  match filter with
  | LambdaFilter _ _ expression =>
      if isCombinedFilter expression then Ok true else isQueryFilter expression
  | InFilter _ _ => Ok true
  | NegatedFilter inner =>
      accepted <- isQueryFilter inner ;;
      Ok (accepted || isCombinedFilter inner)
  | Basic b =>
      match value b with
      | VString _ =>
          if hasOperator b then Ok true else isValidBasicFilter b
      | _ => isValidBasicFilter b
      end
  | CombinedFilter _ _ => Ok false
  end.

(** The errors of the object syntax of [OdataQueryBuilder.filter]. *)
Inductive FilterInputError : Type :=
| InvalidOperatorInput (operator type : string)
| InvalidFilterInput
| OperatorLookupFailed (e : error).

(** The body of the loop of [OdataQueryBuilder.filter] over the filter
    objects it is given: [None] when the object is accepted. *)
Definition checkFilterInput (filter : QueryFilter) : option FilterInputError :=
  if isInFilter filter then None
  else if isNegatedFilter filter then None
  else if isHasFilter filter then None
  else if isBasicFilter filter then
    match filter with
    | Basic b =>
        let valueType := getValueType (value b) in
        match isValidOperator valueType (operator b) with
        | Ok true => None
        | Ok false => Some (InvalidOperatorInput (operator b) valueType)
        | Throw e => Some (OperatorLookupFailed e)
        end
    | _ => None
    end
  else if isLambdaFilter filter then None
  else if negb (isCombinedFilter filter) then Some InvalidFilterInput
  else None.

(** The loop itself: the error of the first object that is not accepted. *)
Fixpoint checkFilterInputs (filters : list QueryFilter) : option FilterInputError :=
  match filters with
  | [] => None
  | filter :: rest =>
      match checkFilterInput filter with
      | Some e => Some e
      | None => checkFilterInputs rest
      end
  end.

End Validation.

(* ================================================================== *)
(** * field-proxy.ts: property access on the proxy *)

Module ProxyAccess.
Import FieldProxy.

Definition COMPARISON_OPS : list string :=
  ["eq"; "ne"; "gt"; "ge"; "lt"; "le"; "in"; "has"].
Definition STRING_PREDICATES : list string := ["contains"; "startswith"; "endswith"].
Definition STRING_FUNCTIONS : list string := ["length"; "indexof"; "substring"; "concat"].
Definition STRING_TRANSFORMS : list string := ["tolower"; "toupper"; "trim"].
Definition NUMBER_TRANSFORMS : list string := ["round"; "floor"; "ceiling"].
Definition DATE_TRANSFORMS : list string :=
  ["year"; "month"; "day"; "hour"; "minute"; "second"].
Definition ARITHMETIC_OPS : list string := ["add"; "sub"; "mul"; "div"; "mod"].
Definition MODIFIERS : list string := ["ignoreCase"; "removeQuotes"].
Definition ARRAY_OPS : list string := ["any"; "all"].
Definition BOOLEAN_SHORTCUTS : list string := ["isTrue"; "isFalse"].

(** The members of the set [ALL_OPERATIONS]. *)
Definition ALL_OPERATIONS : list string :=
  (COMPARISON_OPS ++ STRING_PREDICATES ++ STRING_FUNCTIONS ++ STRING_TRANSFORMS
   ++ NUMBER_TRANSFORMS ++ DATE_TRANSFORMS ++ ARITHMETIC_OPS ++ MODIFIERS
   ++ ARRAY_OPS ++ BOOLEAN_SHORTCUTS)%list.

Section Access.
Context {host : JSHost}.

(** What the [get] trap of the proxy returns for a string property: the
    operation of that name, or a proxy one segment further down the path. *)
Inductive Access : Type :=
| Operation (operation : string) (context : ProxyContext)
| Field (context : ProxyContext).

Definition proxyGet (context : ProxyContext) (prop : string) : Access :=
  if arrayIncludes ALL_OPERATIONS prop then Operation prop context
  else Field (get context prop).

(** The operations of [createOperation] that return a proxy again.  A
    transform (tolower, toupper, trim, round, floor, ceiling, year, month,
    day, hour, minute, second) is appended to [transforms]; a string function
    (length, indexof, substring, concat) or an arithmetic operation replaces
    [func]; a modifier sets its flag. *)
Definition transformOperation (context : ProxyContext) (operation : Transform)
  : ProxyContext :=
  {| path := path context;
     transforms := (transforms context ++ [operation])%list;
     ignoreCase := ignoreCase context; removeQuotes := removeQuotes context;
     func := func context |}.

Definition functionOperation (context : ProxyContext) (f : FunctionDefinition)
  : ProxyContext :=
  {| path := path context; transforms := transforms context;
     ignoreCase := ignoreCase context; removeQuotes := removeQuotes context;
     func := Some f |}.

Definition ignoreCaseOperation (context : ProxyContext) : ProxyContext :=
  {| path := path context; transforms := transforms context;
     ignoreCase := true; removeQuotes := removeQuotes context;
     func := func context |}.

Definition removeQuotesOperation (context : ProxyContext) : ProxyContext :=
  {| path := path context; transforms := transforms context;
     ignoreCase := ignoreCase context; removeQuotes := true;
     func := func context |}.

(** A chain of property reads [x.p1.p2...pn] that stays on proxies: [None]
    as soon as a read returns an operation. *)
Fixpoint readPath (context : ProxyContext) (props : list string)
  : option ProxyContext :=
  match props with
  | [] => Some context
  | prop :: rest =>
      match proxyGet context prop with
      | Field next => readPath next rest
      | Operation _ _ => None
      end
  end.

End Access.
End ProxyAccess.

(* ================================================================== *)
(** * search-expression-builder.ts: [SearchExpressionBuilder] *)

Module Search.

(** The white space and line terminators [String.prototype.trim] removes,
    among the code units below 256. *)
Definition isWhiteSpace (c : ascii) : bool :=
  let n := nat_of_ascii c in
  ((n =? 9) || (n =? 10) || (n =? 11) || (n =? 12) || (n =? 13) || (n =? 32)
   || (n =? 160))%nat.

Fixpoint trimStart (s : string) : string :=
  match s with
  | EmptyString => EmptyString
  | String c rest => if isWhiteSpace c then trimStart rest else s
  end.

Fixpoint trimEnd (s : string) : string :=
  match s with
  | EmptyString => EmptyString
  | String c rest =>
      match trimEnd rest with
      | EmptyString => if isWhiteSpace c then EmptyString else String c EmptyString
      | kept => String c kept
      end
  end.

(** [s.trim()] *)
Definition trim (s : string) : string := trimEnd (trimStart s).

(** [SearchExpressionPart]: a string (a term or one of the words [AND],
    [OR], [NOT]), [{ phrase }] or [{ expression }]. *)
Inductive SearchExpressionPart : Type :=
| Word (s : string)
| Phrase (phrase : string)
| Expression (expression : list SearchExpressionPart).

Inductive SearchError : Type :=
| TermEmpty
| PhraseEmpty
| SearchTermRejected.

Inductive built (A : Type) : Type :=
| Built (a : A)
| Failed (e : SearchError).
Arguments Built {A} a.
Arguments Failed {A} e.

(** The builder is its read-only array of parts. *)
Record SearchExpressionBuilder : Type := { parts : list SearchExpressionPart }.

Definition newBuilder : SearchExpressionBuilder := {| parts := [] |}.

Section Builder.
(** [createSearchTerm] of search.utils.ts is not among the sources: it is a
    parameter, [None] when it throws. *)
Variable createSearchTerm : string -> option string.

(** [term] *)
Definition term (this : SearchExpressionBuilder) (t : string)
  : built SearchExpressionBuilder :=
  let trimmedTerm := trim t in
  match trimmedTerm with
  | EmptyString => Failed TermEmpty
  | _ =>
      match createSearchTerm trimmedTerm with
      | Some searchTerm =>
          Built {| parts := (parts this ++ [Word searchTerm])%list |}
      | None => Failed SearchTermRejected
      end
  end.

End Builder.

(** [phrase] *)
Definition phrase (this : SearchExpressionBuilder) (p : string)
  : built SearchExpressionBuilder :=
  let trimmedPhrase := trim p in
  match trimmedPhrase with
  | EmptyString => Failed PhraseEmpty
  | _ => Built {| parts := (parts this ++ [Phrase trimmedPhrase])%list |}
  end.

(** [and] and [or] *)
Definition and_ (this : SearchExpressionBuilder) : SearchExpressionBuilder :=
  {| parts := (parts this ++ [Word "AND"])%list |}.

Definition or_ (this : SearchExpressionBuilder) : SearchExpressionBuilder :=
  {| parts := (parts this ++ [Word "OR"])%list |}.

(** [build] *)
Definition build (this : SearchExpressionBuilder) : list SearchExpressionPart :=
  parts this.

(** [not] and [group] *)
Definition not_ (this expressionBuilder : SearchExpressionBuilder)
  : SearchExpressionBuilder :=
  {| parts := (parts this
               ++ [Expression (Word "NOT" :: build expressionBuilder)])%list |}.

Definition group (this builder : SearchExpressionBuilder) : SearchExpressionBuilder :=
  {| parts := (parts this ++ [Expression (build builder)])%list |}.

Definition doubleQuote : string := String (ascii_of_nat 34) EmptyString.

(** [stringifyPart]; its last line, the [throw], is for values outside
    [SearchExpressionPart]. *)
Fixpoint stringifyPart (part : SearchExpressionPart) : string :=
  match part with
  | Word s => s
  | Phrase phrase => doubleQuote ++ phrase ++ doubleQuote
  | Expression expression =>
      "(" ++ join " " (List.map stringifyPart expression) ++ ")"
  end.

(** [toString] *)
Definition toString (this : SearchExpressionBuilder) : string :=
  join " " (List.map stringifyPart (parts this)).

End Search.

(* ================================================================== *)
(** * odata-query-builder.ts: [OdataQueryBuilder] *)

Module QueryBuilder.

(** [encodeURIComponent] on strings whose code units are below 256: the
    letters, the digits and [- _ . ! ~ * ' ( )] stay, every other character
    becomes the bytes of its UTF-8 encoding, each as [%] and two upper-case
    hexadecimal digits. *)
Definition isUnreserved (c : ascii) : bool :=
  let n := nat_of_ascii c in
  (((48 <=? n) && (n <=? 57)) || ((65 <=? n) && (n <=? 90))
   || ((97 <=? n) && (n <=? 122)))%nat
  || arrayIncludes ["-"; "_"; "."; "!"; "~"; "*"; "'"; "("; ")"]
       (String c EmptyString).

Definition hexDigit (n : nat) : ascii :=
  ascii_of_nat (if (n <? 10)%nat then 48 + n else 55 + n).

Definition percentByte (byte : nat) : string :=
  String "%"%char
    (String (hexDigit (byte / 16)) (String (hexDigit (byte mod 16)) EmptyString)).

Definition encodeCodeUnit (c : ascii) : string :=
  let n := nat_of_ascii c in
  if isUnreserved c then String c EmptyString
  else if (n <? 128)%nat then percentByte n
  else percentByte (192 + n / 64) ++ percentByte (128 + n mod 64).

Fixpoint encodeURIComponent (s : string) : string :=
  match s with
  | EmptyString => EmptyString
  | String c rest => encodeCodeUnit c ++ encodeURIComponent rest
  end.

(** [s.startsWith(p)], [s.slice(n)] and [s.substring(n)] for [n >= 0]. *)
Definition startsWith (p s : string) : bool := String.prefix p s.

Fixpoint slice (n : nat) (s : string) : string :=
  match n, s with
  | O, _ => s
  | S n', String _ rest => slice n' rest
  | S _, EmptyString => EmptyString
  end.

Definition countEntitiesQuery : string := "/$count".

Section Builder.
Context {host : JSHost}.

(** The members of the select, expand and orderBy sets, and the generators
    of top-utils.ts, skip-utils.ts, select-utils.ts, expand-util.ts,
    orderby-utils.ts and [createSearchTerm] of search.utils.ts are not among
    the sources: they are parameters, as is the truth value of a number. *)
Variables SelectField ExpandField OrderByDescriptor : Type.
Variable numberIsTruthy : JSNumber -> bool.
Variable toTopQuery toSkipQuery : JSNumber -> result string.
Variable toSelectQuery : list SelectField -> result string.
Variable toExpandQuery : list ExpandField -> result string.
Variable toOrderByQuery : list OrderByDescriptor -> result string.
Variable createSearchTerm : string -> option string.

(** [QueryComponents]; a set is given by its members in insertion order,
    which is what [Array.from] returns. *)
Record QueryComponents : Type := {
  count : option string;
  filter : option (list QueryFilter);
  top : option JSNumber;
  skip : option JSNumber;
  select : option (list SelectField);
  orderBy : option (list OrderByDescriptor);
  expand : option (list ExpandField);
  search : option string
}.

Record OdataQueryBuilder : Type := {
  queryComponents : QueryComponents;
  filterContext : FilterRenderContext
}.

(** [new OdataQueryBuilder(options)] *)
Definition newBuilder (legacyInOperator : option bool) : OdataQueryBuilder :=
  {| queryComponents :=
       {| count := None; filter := None; top := None; skip := None;
          select := None; orderBy := None; expand := None; search := None |};
     filterContext := Build_FilterRenderContext legacyInOperator |}.

(** [count]: the first call decides. *)
Definition setCount (components : QueryComponents) (value : string)
  : QueryComponents :=
  {| count := Some value; filter := filter components; top := top components;
     skip := skip components; select := select components;
     orderBy := orderBy components; expand := expand components;
     search := search components |}.

Definition count_ (this : OdataQueryBuilder) (countEntities : bool)
  : OdataQueryBuilder :=
  match count (queryComponents this) with
  | Some (String _ _) => this
  | _ =>
      {| queryComponents :=
           setCount (queryComponents this)
                    (if countEntities then countEntitiesQuery else "$count=true");
         filterContext := filterContext this |}
  end.

(** [search]: a string or a [SearchExpressionBuilder]; [None] when
    [createSearchTerm] throws. *)
Inductive SearchInput : Type :=
| SearchText (text : string)
| SearchExpression (builder : Search.SearchExpressionBuilder).

Definition setSearch (components : QueryComponents) (value : option string)
  : QueryComponents :=
  {| count := count components; filter := filter components;
     top := top components; skip := skip components;
     select := select components; orderBy := orderBy components;
     expand := expand components; search := value |}.

Definition search_ (this : OdataQueryBuilder) (searchExpression : SearchInput)
  : option OdataQueryBuilder :=
  match searchExpression with
  | SearchText EmptyString =>
      Some {| queryComponents := setSearch (queryComponents this) None;
              filterContext := filterContext this |}
  | SearchText text =>
      match createSearchTerm text with
      | Some searchTerm =>
          Some {| queryComponents :=
                    setSearch (queryComponents this) (Some searchTerm);
                  filterContext := filterContext this |}
      | None => None
      end
  | SearchExpression builder =>
      Some {| queryComponents :=
                setSearch (queryComponents this) (Some (Search.toString builder));
              filterContext := filterContext this |}
  end.

(** One round of the loop of [toQuery]: nothing is added for a component
    that is missing or falsy, or whose generated text is empty. *)
Definition queryStringPart {A : Type} (component : option A)
           (isTruthy : A -> bool) (queryGenerator : A -> result string)
  : result (list string) :=
  match component with
  | None => Ok []
  | Some c =>
      if negb (isTruthy c) then Ok []
      else
        queryPart <- queryGenerator c ;;
        match queryPart with
        | EmptyString => Ok []
        | _ => Ok [queryPart]
        end
  end.

Definition nonEmpty (s : string) : bool :=
  match s with
  | EmptyString => false
  | _ => true
  end.

(** [toQuery]: the components in the order of the keys of
    [queryGeneratorMap]. *)
Definition toQuery (this : OdataQueryBuilder) : result string :=
  let components := queryComponents this in
  p1 <- queryStringPart (count components) nonEmpty (fun c => Ok c) ;;
  p2 <- queryStringPart (filter components) (fun _ => true)
          (fun c => toFilterQuery c (filterContext this)) ;;
  p3 <- queryStringPart (top components) numberIsTruthy toTopQuery ;;
  p4 <- queryStringPart (skip components) numberIsTruthy toSkipQuery ;;
  p5 <- queryStringPart (select components) (fun _ => true) toSelectQuery ;;
  p6 <- queryStringPart (expand components) (fun _ => true) toExpandQuery ;;
  p7 <- queryStringPart (orderBy components) (fun _ => true) toOrderByQuery ;;
  p8 <- queryStringPart (search components) nonEmpty
          (fun c => Ok ("$search=" ++ encodeURIComponent c)) ;;
  let queryStringParts := (p1 ++ p2 ++ p3 ++ p4 ++ p5 ++ p6 ++ p7 ++ p8)%list in
  let queryString := join "&" queryStringParts in
  if startsWith "/$count" queryString
  then
    let remainingQueryString := slice (String.length "/$count") queryString in
    if (0 <? String.length remainingQueryString)%nat
    then Ok ("/$count?" ++ slice 1 remainingQueryString)
    else Ok "/$count"
  else
    Ok (if (0 <? String.length queryString)%nat then "?" ++ queryString else "").

End Builder.
End QueryBuilder.

(* ================================================================== *)
(** * A host with integer numbers and UTC dates

    Used to run the embedding on concrete trees.  Numbers are NaN and the
    integers that [String] prints in plain decimal notation; a date is the
    number it is made from, milliseconds since the epoch or NaN, and the
    host clock is UTC. *)

Module UTCHost.

Definition zToString (z : Z) : string :=
  DecimalString.NilZero.string_of_int (Z.to_int z).

(** [z] in decimal, padded with zeros on the left to [width] digits. *)
Fixpoint zeros (n : nat) : string :=
  match n with
  | O => EmptyString
  | S n' => String "0"%char (zeros n')
  end.

Definition padded (width : nat) (z : Z) : string :=
  let digits := zToString z in
  zeros (width - String.length digits) ++ digits.

Definition msPerDay : Z := 86400000.

Definition dayOf (t : Z) : Z := (t / msPerDay)%Z.
Definition msOfDay (t : Z) : Z := (t mod msPerDay)%Z.

(** Year, month (1-12) and day of the month of a day number, in the
    proleptic Gregorian calendar; day 0 is 1970-01-01. *)
Definition civil (days : Z) : Z * Z * Z :=
  (let z := days + 719468 in
   let era := z / 146097 in
   let doe := z - era * 146097 in
   let yoe := (doe - doe / 1460 + doe / 36524 - doe / 146096) / 365 in
   let y := yoe + era * 400 in
   let doy := doe - (365 * yoe + yoe / 4 - yoe / 100) in
   let mp := (5 * doy + 2) / 153 in
   let d := doy - (153 * mp + 2) / 5 + 1 in
   let m := if mp <? 10 then mp + 3 else mp - 9 in
   (if m <=? 2 then y + 1 else y, m, d))%Z.

Definition utcYear (t : Z) : Z := fst (fst (civil (dayOf t))).
Definition utcMonth (t : Z) : Z := snd (fst (civil (dayOf t))).
Definition utcDate (t : Z) : Z := snd (civil (dayOf t)).
Definition utcHours (t : Z) : Z := (msOfDay t / 3600000)%Z.
Definition utcMinutes (t : Z) : Z := ((msOfDay t / 60000) mod 60)%Z.
Definition utcSeconds (t : Z) : Z := ((msOfDay t / 1000) mod 60)%Z.
Definition utcMilliseconds (t : Z) : Z := (msOfDay t mod 1000)%Z.

Definition isoYear (y : Z) : string :=
  if ((0 <=? y) && (y <=? 9999))%Z then padded 4 y
  else if (y <? 0)%Z then "-" ++ padded 6 (- y)
  else "+" ++ padded 6 y.

Definition isoString (t : Z) : string :=
  isoYear (utcYear t) ++ "-" ++ padded 2 (utcMonth t) ++ "-"
  ++ padded 2 (utcDate t) ++ "T" ++ padded 2 (utcHours t) ++ ":"
  ++ padded 2 (utcMinutes t) ++ ":" ++ padded 2 (utcSeconds t) ++ "."
  ++ padded 3 (utcMilliseconds t) ++ "Z".

Definition dayName (t : Z) : string :=
  nth (Z.to_nat ((dayOf t + 4) mod 7))
      ["Sun"; "Mon"; "Tue"; "Wed"; "Thu"; "Fri"; "Sat"] "".

Definition monthName (t : Z) : string :=
  nth (Z.to_nat (utcMonth t - 1))
      ["Jan"; "Feb"; "Mar"; "Apr"; "May"; "Jun";
       "Jul"; "Aug"; "Sep"; "Oct"; "Nov"; "Dec"] "".

(** [Date.prototype.toString] with the time zone UTC. *)
Definition dateString (t : Z) : string :=
  let y := utcYear t in
  dayName t ++ " " ++ monthName t ++ " " ++ padded 2 (utcDate t) ++ " "
  ++ (if (y <? 0)%Z then "-" ++ padded 6 (- y) else padded 4 y) ++ " "
  ++ padded 2 (utcHours t) ++ ":" ++ padded 2 (utcMinutes t) ++ ":"
  ++ padded 2 (utcSeconds t) ++ " GMT+0000 (Coordinated Universal Time)".

(** The numbers of this host: the integers, and NaN.  An integer stands
    for itself where a number is expected. *)
Inductive number : Type :=
| Finite (z : Z)
| NaN.
Coercion Finite : Z >-> number.

Definition numberText (n : number) : string :=
  match n with
  | Finite z => zToString z
  | NaN => "NaN"
  end.

(** A Date is given by the number [new Date(n)] is made from; its time
    value is [n] when [n] is at most 8.64e15 in absolute value and NaN
    otherwise, which makes it an invalid Date. *)
Definition timeClip (n : number) : number :=
  match n with
  | Finite t => if (Z.abs t <=? 8640000000000000)%Z then Finite t else NaN
  | NaN => NaN
  end.

Definition utcField (t : Transform) (acc : Z) : Z :=
  match t with
  | Year => utcYear acc
  | Month => utcMonth acc
  | Day => utcDate acc
  | Hour => utcHours acc
  | Minute => utcMinutes acc
  | Second => utcSeconds acc
  | _ => acc
  end.

Definition lowerChar (c : ascii) : ascii :=
  let n := nat_of_ascii c in
  if ((65 <=? n) && (n <=? 90))%nat then ascii_of_nat (n + 32) else c.

(** [toLowerCase] on strings of ASCII characters. *)
Fixpoint lower (s : string) : string :=
  match s with
  | EmptyString => EmptyString
  | String c rest => String (lowerChar c) (lower rest)
  end.

#[export] Instance utcHost : JSHost := {|
  JSNumber := number;
  JSDate := number;
  numberToString := numberText;
  toISOString := fun d => match timeClip d with
                          | Finite t => Some (isoString t)
                          | NaN => None
                          end;
  dateToString := fun d => match timeClip d with
                           | Finite t => dateString t
                           | NaN => "Invalid Date"
                           end;
  dateValueOf := timeClip;
  dateTransformFn := fun t acc => match timeClip acc with
                                  | Finite time => Finite (utcField t time)
                                  | NaN => NaN
                                  end;
  toLowerCase := lower
|}.

End UTCHost.

(** Trees used in the concrete runs below, on the UTC host. *)
Module Sample.
Import UTCHost FieldProxy.

Definition defaultContext : FilterRenderContext := {| legacyInOperator := None |}.
Definition legacyContext : FilterRenderContext := {| legacyInOperator := Some true |}.

(** [x.<name>] *)
Definition at_ (name : string) : ProxyContext := get initialContext name.

(** [x => x.name.eq('John')], [x => x.age.gt(18)], [x => x.isAdmin.isTrue()] *)
Definition nameEqJohn : QueryFilter := comparisonOp "eq" (at_ "name") (VString "John").
Definition ageGt18 : QueryFilter := comparisonOp "gt" (at_ "age") (VNumber 18%Z).
Definition isAdminTrue : QueryFilter := isTrue (at_ "isAdmin").

(** [x => x.name.eq("O'Brien")], as the record the visitor receives *)
Definition nameEqOBrien : BasicFilter :=
  Build_BasicFilter "name" "eq" (VString "O'Brien") None None None Absent.

(** [x => x.deletedAt.gt(null)], as the record the visitor receives *)
Definition deletedAtGtNull : BasicFilter :=
  Build_BasicFilter "deletedAt" "gt" VNull None None None Absent.

(** [{ field: 'name', operator: 'eq', value: null,
       function: { type: 'contains', value: { fieldReference: 'nickname' } } }] *)
Definition containsReferenceEqNull : BasicFilter :=
  Build_BasicFilter "name" "eq" VNull None None
                    (Some (Contains (FieldReference "nickname"))) Absent.

(** [x => x.a.any(p => p.b.all(q => q.c.any(r => r.s.eq('x'))))] *)
Definition threeQuantifiers : QueryFilter :=
  quantifier Any (at_ "a")
    (quantifier All (at_ "b")
       (quantifier Any (at_ "c") (comparisonOp "eq" (at_ "s") (VString "x")))).

(** The filter object [{ field: 'items', lambdaOperator: 'any', expression:
    { logic: 'and', filters: [{ type: 'not', filter: name eq 'x' }, a eq 1] } }] *)
Definition anyItemNotNamedX : QueryFilter :=
  LambdaFilter "items" Any
    (CombinedFilter And
       [NegatedFilter (comparisonOp "eq" (at_ "name") (VString "x"));
        comparisonOp "eq" (at_ "a") (VNumber 1%Z)]).

(** [s eq new Date('2024-01-15T10:30:00.000Z')], as the record the visitor
    receives *)
Definition elementEqDate : BasicFilter :=
  Build_BasicFilter "s" "eq" (VDate 1705314600000%Z) None None None Absent.

(** [x => x.name.removeQuotes().eq("O'Brien")], as the record the visitor
    receives *)
Definition nameEqOBrienBare : BasicFilter :=
  Build_BasicFilter "name" "eq" (VString "O'Brien") None (Some true) None Absent.


(** The values of a Membership: a string, a GUID, a number, a boolean, a
    Date and [null]. *)
Definition mixedValues : list Value :=
  [VString "O'Reilly"; VString "123e4567-e89b-12d3-a456-426614174000";
   VNumber 42%Z; VBoolean true; VDate 1705314600000%Z; VNull].

(** [createdAt eq new Date(NaN)], as the record the visitor receives *)
Definition createdAtEqInvalidDate : BasicFilter :=
  Build_BasicFilter "createdAt" "eq" (VDate NaN) None None None Absent.

(** [new FilterBuilder().where(x => x.name.eq('John')).and(x => x.age.gt(18))] *)
Definition johnAndAdult : FilterBuilder :=
  {| parts := [ {| logic := None; filter := nameEqJohn |};
                {| logic := Some And; filter := ageGt18 |} ] |}.

(** A GUID in its canonical form. *)
Definition canonicalGuid : string := "123e4567-e89b-12d3-a456-426614174000".

(** [x.address.city], and [x => x.address.city.tolower().trim().eq('Bonn')] *)
Definition addressCity : ProxyContext := get (at_ "address") "city".

(** [{ field: 'name', operator: 'eq', value: 4, function: { type: 'length' },
       transform: ['tolower'] }] *)
Definition lengthOfLoweredName : BasicFilter :=
  Build_BasicFilter "name" "eq" (VNumber 4%Z) None None (Some LengthFn)
                    (Present [Tolower]).

(** The parts of
    [new SearchExpressionBuilder().term('coffee').and().term('organic')] *)
Definition coffeeAndOrganic : Search.SearchExpressionBuilder :=
  Search.Build_SearchExpressionBuilder
    [Search.Word "coffee"; Search.Word "AND"; Search.Word "organic"].

(** The text [toFilterQuery] gives a filter on its own in the default
    context, empty when it throws. *)
Definition renderedAlone (f : QueryFilter) : string :=
  match queryPart defaultContext f with
  | Ok text => text
  | Throw _ => ""
  end.

End Sample.

(* ================================================================== *)
(** * Definitions used to state the properties *)

(** The operator table in the words of the specification: string with eq,
    ne, contains, startswith, endswith, indexof, concat; number and Date
    with eq, ne, lt, le, gt, ge; boolean, Guid and null with eq, ne. *)
Definition specOperatorTable (kind operator : string) : bool :=
  if String.eqb kind "string"
  then arrayIncludes ["eq"; "ne"; "contains"; "startswith"; "endswith";
                      "indexof"; "concat"] operator
  else if String.eqb kind "number" || String.eqb kind "Date"
  then arrayIncludes ["eq"; "ne"; "lt"; "le"; "gt"; "ge"] operator
  else if String.eqb kind "boolean" || String.eqb kind "Guid"
          || String.eqb kind "null"
  then arrayIncludes ["eq"; "ne"] operator
  else false.

(** The same table with [substringof] added to the operators of string. *)
Definition specOperatorTableWithSubstringof (kind operator : string) : bool :=
  if String.eqb kind "string"
  then arrayIncludes ["eq"; "ne"; "contains"; "startswith"; "endswith";
                      "substringof"; "indexof"; "concat"] operator
  else specOperatorTable kind operator.

(** Occurrences of the character [c] in [s]. *)
Fixpoint countChar (c : ascii) (s : string) : nat :=
  match s with
  | EmptyString => 0
  | String c' rest => (if Ascii.eqb c' c then 1 else 0) + countChar c rest
  end.

(** Reading [s] from the left: the number of doubled apostrophes, and
    whether every apostrophe met is the first of a doubled one. *)
Fixpoint countPairs (s : string) : nat :=
  match s with
  | String c1 ((String c2 rest) as tail) =>
      if Ascii.eqb c1 apostrophe && Ascii.eqb c2 apostrophe
      then S (countPairs rest)
      else countPairs tail
  | _ => 0
  end.

Fixpoint allPaired (s : string) : bool :=
  match s with
  | EmptyString => true
  | String c1 tail =>
      if Ascii.eqb c1 apostrophe
      then match tail with
           | String c2 rest => Ascii.eqb c2 apostrophe && allPaired rest
           | EmptyString => false
           end
      else allPaired tail
  end.

(** Undoing the doubling: reading [s] from the left, two apostrophes in a
    row become one. *)
Fixpoint unescape (s : string) : string :=
  match s with
  | String c1 ((String c2 rest) as tail) =>
      if Ascii.eqb c1 apostrophe && Ascii.eqb c2 apostrophe
      then String apostrophe (unescape rest)
      else String c1 (unescape tail)
  | _ => s
  end.

Section Literals.
Context {host : JSHost}.

(** [text] is the literal of [v] in the words of the specification: for a
    string of the GUID pattern the string itself; for any other string a
    body in single quotes, in which every apostrophe is one of a doubled
    pair, which has as many pairs as the string has apostrophes and which
    is the string again once the doubling is undone; a number or boolean
    raw; a Date as its ISO timestamp; [null] as [null]. *)
Definition isLiteralOf (v : Value) (text : string) : Prop :=
  match v with
  | VNull => text = "null"
  | VString s =>
      if isGuid s then text = s
      else exists body : string,
          text = "'" ++ body ++ "'"
          /\ allPaired body = true
          /\ countPairs body = countChar apostrophe s
          /\ unescape body = s
  | VNumber n => text = numberToString n
  | VBoolean b => text = if b then "true" else "false"
  | VDate d => toISOString d = Some text
  end.

End Literals.



Section Nesting.
Context {host : JSHost}.



End Nesting.

(** Every character of [s] passes [test]. *)
Fixpoint allChars (test : ascii -> bool) (s : string) : bool :=
  match s with
  | EmptyString => true
  | String c rest => test c && allChars test rest
  end.

(** A character a GUID is made of. *)
Definition isGuidChar (c : ascii) : bool := isHexDigit c || Ascii.eqb c "-"%char.

(** Calls of transforms around a field, the outermost first. *)
Fixpoint callsAround (outermostFirst : list Transform) (field : string) : string :=
  match outermostFirst with
  | [] => field
  | t :: inner => transformName t ++ "(" ++ callsAround inner field ++ ")"
  end.

Section Updates.
Context {host : JSHost}.

(** The filter with its [transform] property replaced. *)
Definition setTransform (filter : BasicFilter)
           (t : optional (list Transform)) : BasicFilter :=
  Build_BasicFilter (field filter) (operator filter) (value filter)
                    (ignoreCase filter) (removeQuotes filter)
                    (function filter) t.

End Updates.

Section Occurrences.
Context {host : JSHost}.

(** A Membership node occurs in the tree. *)
Fixpoint hasMembership (f : QueryFilter) : bool :=
  match f with
  | Basic _ => false
  | InFilter _ _ => true
  | NegatedFilter inner => hasMembership inner
  | LambdaFilter _ _ expression => hasMembership expression
  | CombinedFilter _ filters => existsb hasMembership filters
  end.

End Occurrences.

(** The first and the last character of a string. *)
Definition firstChar (s : string) : option ascii :=
  match s with
  | EmptyString => None
  | String c _ => Some c
  end.

Fixpoint lastChar (s : string) : option ascii :=
  match s with
  | EmptyString => None
  | String c EmptyString => Some c
  | String _ rest => lastChar rest
  end.

(** What [toString] of a search builder puts before the part added to it:
    nothing for the first part, else the text so far and a space. *)
Definition lead (this : Search.SearchExpressionBuilder) : string :=
  match Search.parts this with
  | [] => ""
  | _ => Search.toString this ++ " "
  end.

(** The text of a conjunction and of a disjunction of two or more rendered
    members: the members joined and put in parentheses; a single member
    stands for itself. *)
Definition andText {A : Type} (render : A -> string) (group : list A) : string :=
  match group with
  | [x] => render x
  | _ => "(" ++ join " and " (map render group) ++ ")"
  end.

Definition orText (texts : list string) : string :=
  match texts with
  | [text] => text
  | _ => "(" ++ join " or " texts ++ ")"
  end.

(** The query string made of the parts of a query: nothing for no part,
    else [?] and the parts joined with [&]. *)
Definition questionJoin (queryParts : list string) : string :=
  match queryParts with
  | [] => ""
  | _ => "?" ++ join "&" queryParts
  end.

(** The renderings that follow the first one in the text of
    [toFilterQuery], each after [ and ]. *)
Fixpoint andParts (texts : list string) : string :=
  match texts with
  | [] => ""
  | text :: rest => " and " ++ text ++ andParts rest
  end.

Section Semantics.
Context {host : JSHost}.

(** The groups [buildWithPrecedence] has collected in a state of its loop,
    the conjunction being read included. *)
Definition closeGroups (state : list (list QueryFilter) * list QueryFilter)
  : list (list QueryFilter) :=
  let (orGroups, currentAndGroup) := state in
  (if (0 <? List.length currentAndGroup)%nat
   then orGroups ++ [currentAndGroup]
   else orGroups)%list.

(** The node for the members of one conjunction, and the node for the
    conjunctions of one disjunction: a single member stands for itself. *)
Definition andNode (group : list QueryFilter) : QueryFilter :=
  match group with
  | [first] => first
  | _ => CombinedFilter And group
  end.

Definition orNode (nodes : list QueryFilter) : QueryFilter :=
  match nodes with
  | [first] => first
  | _ => CombinedFilter Or nodes
  end.

(** The parts joined with [or]. *)
Definition countOr (rest : list FilterPart) : nat :=
  List.length (List.filter (fun part => match logic part with
                                        | Some Or => true
                                        | _ => false
                                        end) rest).

(** The truth of a tree, given the truth of the nodes that are not
    Combined. *)
Variable holds : QueryFilter -> bool.

Fixpoint evalTree (f : QueryFilter) : bool :=
  match f with
  | CombinedFilter And filters => forallb evalTree filters
  | CombinedFilter Or filters => existsb evalTree filters
  | other => holds other
  end.

(** The truth of a chain [a1 op2 a2 op3 a3 ...] read from the left with AND
    binding tighter than OR; [current] is the truth of the conjunction being
    read and [rest] the parts still to come. *)
Fixpoint evalChain (current : bool) (rest : list FilterPart) : bool :=
  match rest with
  | [] => current
  | part :: rest' =>
      match logic part with
      | Some Or => current || evalChain (evalTree (filter part)) rest'
      | _ => evalChain (current && evalTree (filter part)) rest'
      end
  end.

End Semantics.

(* ================================================================== *)
(** * Properties *)

Section Properties.
Context {host : JSHost}.

(** ** Strings *)

Lemma prefix_append (s t : string) : String.prefix s (s ++ t) = true.
Proof.
  induction s as [|c s IH]; simpl.
  - destruct t; reflexivity.
  - destruct (ascii_dec c c) as [_|n]; [exact IH | contradiction].
Qed.

Lemma includes_prefix (sub s : string) :
  String.prefix sub s = true -> includes sub s = true.
Proof. intros H. destruct s; simpl in *; rewrite H; reflexivity. Qed.

Lemma includes_append (sub a b : string) : includes sub (a ++ sub ++ b) = true.
Proof.
  induction a as [|c a IH].
  - change ("" ++ sub ++ b) with (sub ++ b).
    apply includes_prefix, prefix_append.
  - change (String c a ++ sub ++ b) with (String c (a ++ sub ++ b)).
    simpl. rewrite IH.
    match goal with |- (if ?test then _ else _) = _ => destruct test end;
      reflexivity.
Qed.

Lemma join_two (sep x y : string) (l : list string) :
  join sep (x :: y :: l) = x ++ sep ++ join sep (y :: l).
Proof. reflexivity. Qed.

Lemma append_assoc (a b c : string) : (a ++ b) ++ c = a ++ b ++ c.
Proof. induction a; simpl; congruence. Qed.

(** Joining two or more strings with [ and ] or [ or ] leaves a space. *)
Lemma joined_includes_space (l : Logic) (rendered : list string) :
  2 <= List.length rendered ->
  includes " " (join (" " ++ logicName l ++ " ") rendered) = true.
Proof.
  destruct rendered as [|x [|y rest]]; simpl List.length; try lia.
  intros _. rewrite join_two.
  change (" " ++ logicName l ++ " ") with (String " "%char (logicName l ++ " ")).
  change (String " "%char (logicName l ++ " ") ++ join _ (y :: rest))
    with (" " ++ ((logicName l ++ " ") ++ join (String " "%char (logicName l ++ " ")) (y :: rest))).
  apply includes_append.
Qed.

(** ** The visitor, unfolded *)

Lemma mapM_length {A B : Type} (f : A -> result B) (l : list A) (out : list B) :
  mapM f l = Ok out -> List.length out = List.length l.
Proof.
  revert out. induction l as [|x l IH]; simpl; intros out H.
  - injection H as <-. reflexivity.
  - destruct (f x); simpl in H; [|discriminate].
    destruct (mapM f l); simpl in H; [|discriminate].
    injection H as <-. simpl. f_equal. apply IH. reflexivity.
Qed.

Lemma visitCombinedFilter_unfold context logic filters currentPrefix :
  visitCombinedFilter context (CombinedFilter logic filters) currentPrefix =
  (rendered <- mapM (visitSubFilter context currentPrefix) filters ;;
   let combinedQueries := join (" " ++ logicName logic ++ " ") rendered in
   if includes " " combinedQueries
   then Ok ("(" ++ combinedQueries ++ ")")
   else Ok combinedQueries).
Proof.
  simpl. f_equal.
  induction filters as [|subFilter rest IH]; [reflexivity|].
  simpl. rewrite IH. destruct subFilter; reflexivity.
Qed.

Lemma visitNegatedFilter_unfold context innerFilter :
  visitNegatedFilter context (NegatedFilter innerFilter) =
  (innerQuery <- visitInnerFilter context innerFilter ;;
   Ok ("not (" ++ innerQuery ++ ")")).
Proof. destruct innerFilter; reflexivity. Qed.

Lemma withField_same (b : BasicFilter) : withField b (field b) = b.
Proof. destruct b; reflexivity. Qed.

(** A filter that [toFilterQuery] renders on its own renders to the same
    text as a child of a top-level Combined node and inside a Negation. *)
Lemma queryPart_visitSubFilter context curr text :
  queryPart context curr = Ok text ->
  visitSubFilter context None curr = Ok text.
Proof.
  unfold queryPart.
  destruct curr as [b| | | |]; [destruct b|..]; simpl; try (intros H; exact H).
  destruct (_ || _); simpl; [intros H; exact H | discriminate].
Qed.

Lemma queryPart_visitInnerFilter context curr text :
  queryPart context curr = Ok text ->
  visitInnerFilter context curr = Ok text.
Proof.
  unfold queryPart. destruct curr as [b| | | |]; simpl; try (intros H; exact H).
  destruct (_ || _); simpl; [intros H; exact H | discriminate].
Qed.

(** ** FilterBuilder: precedence *)

Lemma includes_right (sub a b : string) :
  includes sub b = true -> includes sub (a ++ b) = true.
Proof.
  intros H. induction a as [|c a IH]; [exact H|].
  change (String c a ++ b) with (String c (a ++ b)). simpl. rewrite IH.
  match goal with |- (if ?test then _ else _) = _ => destruct test end;
    reflexivity.
Qed.

Lemma includes_cons (sub s : string) (c : ascii) :
  includes sub s = true -> includes sub (String c s) = true.
Proof. apply (includes_right sub (String c EmptyString) s). Qed.

Lemma prefix_left (sub a b : string) :
  String.prefix sub a = true -> String.prefix sub (a ++ b) = true.
Proof.
  revert a. induction sub as [|c sub IH]; intros a H.
  - destruct (a ++ b); reflexivity.
  - destruct a as [|c' a]; simpl in H; [discriminate|].
    simpl. destruct (ascii_dec c c'); [apply IH, H | discriminate].
Qed.

Lemma includes_left (sub a b : string) :
  includes sub a = true -> includes sub (a ++ b) = true.
Proof.
  induction a as [|c a IH]; intros H.
  - simpl in H. destruct sub; [|discriminate].
    destruct b; reflexivity.
  - cbn [includes] in H.
    destruct (String.prefix sub (String c a)) eqn:E.
    + apply includes_prefix. apply (prefix_left sub (String c a) b E).
    + change (String c a ++ b) with (String c (a ++ b)). cbn [includes].
      rewrite (IH H).
      match goal with |- (if ?test then _ else _) = _ => destruct test end;
        reflexivity.
Qed.

Lemma includes_space_between (l r : string) : includes " " (l ++ " " ++ r) = true.
Proof. apply includes_append. Qed.

Lemma includes_space_and (x y : string) : includes " " (x ++ " and " ++ y) = true.
Proof. apply (includes_append " " x ("and " ++ y)). Qed.

Lemma includes_space_or (x y : string) : includes " " (x ++ " or " ++ y) = true.
Proof. apply (includes_append " " x ("or " ++ y)). Qed.

(** C1. AND binds tighter than OR.  For conditions [a], [b], [c] that render
    on their own to [ra], [rb], [rc]: [where(a).and(b).or(c)] builds the tree
    Combined(or, [Combined(and, [a, b]), c]), which renders to
    [((ra and rb) or rc)]; and [where(a).and(b).and(c)] builds the single
    node Combined(and, [a, b, c]). *)
Theorem and_binds_tighter_than_or
        (context : FilterRenderContext) (a b c : QueryFilter) (ra rb rc : string) :
  queryPart context a = Ok ra ->
  queryPart context b = Ok rb ->
  queryPart context c = Ok rc ->
  (b1 <- where_ emptyBuilder (Predicate (Expression a)) ;;
   b2 <- and_ b1 (Predicate (Expression b)) ;;
   b3 <- or_ b2 (Predicate (Expression c)) ;;
   Ok (build b3))
  = Ok (Some (CombinedFilter Or [CombinedFilter And [a; b]; c]))
  /\ queryPart context (CombinedFilter Or [CombinedFilter And [a; b]; c])
     = Ok ("((" ++ ra ++ " and " ++ rb ++ ") or " ++ rc ++ ")")
  /\ (b1 <- where_ emptyBuilder (Predicate (Expression a)) ;;
      b2 <- and_ b1 (Predicate (Expression b)) ;;
      b3 <- and_ b2 (Predicate (Expression c)) ;;
      Ok (build b3))
     = Ok (Some (CombinedFilter And [a; b; c])).
Proof.
  intros Ha Hb Hc. split; [reflexivity | split; [| reflexivity]].
  apply queryPart_visitSubFilter in Ha, Hb, Hc.
  unfold queryPart. cbn [isCombinedFilter orb negb].
  rewrite visitCombinedFilter_unfold.
  cbn [mapM]. cbn [visitSubFilter]. rewrite visitCombinedFilter_unfold.
  cbn [mapM]. rewrite Ha, Hb, Hc. cbn [bind logicName].
  change (join (" " ++ "and" ++ " ") [ra; rb]) with (ra ++ " and " ++ rb).
  rewrite includes_space_and. cbn [bind].
  change (join (" " ++ "or" ++ " ") ["(" ++ (ra ++ " and " ++ rb) ++ ")"; rc])
    with (("(" ++ (ra ++ " and " ++ rb) ++ ")") ++ " or " ++ rc).
  rewrite includes_space_or.
  f_equal. cbn [append]. f_equal. f_equal.
  rewrite !append_assoc. reflexivity.
Qed.

(** ** Combined nodes *)

(** C2 (as amended). A Combined node joins the renderings of its children
    with [ and ] or [ or ] and wraps the joined string in parentheses exactly
    when that string contains a space.  With two or more children it always
    does; with a single child the joined string is the child's own text, so
    the parentheses depend on that text alone. *)
Theorem combined_wrapped_when_joined_has_space
        (context : FilterRenderContext) (logic : Logic)
        (filters : list QueryFilter) (currentPrefix : option string)
        (rendered : list string) :
  mapM (visitSubFilter context currentPrefix) filters = Ok rendered ->
  let joined := join (" " ++ logicName logic ++ " ") rendered in
  visitCombinedFilter context (CombinedFilter logic filters) currentPrefix
  = Ok (if includes " " joined then "(" ++ joined ++ ")" else joined)
  /\ (2 <= List.length filters -> includes " " joined = true)
  /\ (forall child, filters = [child] ->
      visitSubFilter context currentPrefix child = Ok joined).
Proof.
  intros Hmap joined. split; [|split].
  - rewrite visitCombinedFilter_unfold, Hmap. cbn [bind].
    fold joined. destruct (includes " " joined); reflexivity.
  - intros Hlen. apply joined_includes_space.
    rewrite (mapM_length _ _ _ Hmap). exact Hlen.
  - intros child ->. cbn [mapM] in Hmap.
    destruct (visitSubFilter context currentPrefix child) as [text|e];
      cbn [bind] in Hmap; [|discriminate].
    injection Hmap as <-. reflexivity.
Qed.

(** ** The operator table *)

Lemma eqb_false_sym (a b : string) : a <> b -> String.eqb b a = false.
Proof. intros H. apply String.eqb_neq. congruence. Qed.

(** C3 (as amended). For every kind that does not name a member inherited
    from [Object.prototype], [isValidOperator] returns a boolean without
    throwing, and the boolean is true exactly for the pairs of the table:
    string with eq, ne, contains, startswith, endswith, substringof, indexof,
    concat; number and Date with eq, ne, lt, le, gt, ge; boolean, Guid and
    null with eq, ne; false for every other pair, unknown kinds included. *)
Theorem isValidOperator_table (kind operator : string) :
  arrayIncludes objectPrototypeKeys kind = false ->
  isValidOperator kind operator
  = Ok (specOperatorTableWithSubstringof kind operator).
Proof.
  intros Hproto.
  unfold isValidOperator, getProperty, specOperatorTableWithSubstringof,
    specOperatorTable.
  destruct (String.eqb_spec kind "string") as [->|N1]; [reflexivity|].
  destruct (String.eqb_spec kind "number") as [->|N2]; [reflexivity|].
  destruct (String.eqb_spec kind "boolean") as [->|N3]; [reflexivity|].
  destruct (String.eqb_spec kind "Date") as [->|N4]; [reflexivity|].
  destruct (String.eqb_spec kind "Guid") as [->|N5]; [reflexivity|].
  destruct (String.eqb_spec kind "null") as [->|N6]; [reflexivity|].
  cbn [operatorTypeMap ownProperty].
  rewrite (eqb_false_sym _ _ N1), (eqb_false_sym _ _ N2), (eqb_false_sym _ _ N3),
    (eqb_false_sym _ _ N4), (eqb_false_sym _ _ N5), (eqb_false_sym _ _ N6).
  rewrite Hproto. reflexivity.
Qed.

(** X5. A kind that names a member of [Object.prototype], such as
    [constructor] or [toString], makes [isValidOperator] throw a TypeError
    whatever the operator is: the member is found in place of an operator
    list and has no [includes] method. *)
Theorem isValidOperator_throws_on_inherited_kind (kind operator : string) :
  arrayIncludes objectPrototypeKeys kind = true ->
  isValidOperator kind operator
  = Throw (TypeError "validOperators.includes is not a function").
Proof.
  intros H. unfold arrayIncludes, objectPrototypeKeys in H. cbn [existsb] in H.
  repeat (apply orb_true_iff in H;
          destruct H as [H|H];
          [apply String.eqb_eq in H; subst kind; reflexivity|]).
  discriminate H.
Qed.

(** ** Comparison with [null] *)

Lemma formatValue_throws (value : FunctionArgument) (e : error) :
  formatValue value = Throw e ->
  e = UnsupportedValueType "object" \/ e = RangeError "Invalid time value".
Proof.
  destruct value as [[|s|n|b|d]|]; simpl; intros H; try discriminate;
    try (injection H as <-; left; reflexivity).
  unfold callToISOString in H. destruct (toISOString d); [discriminate|].
  injection H as <-. right. reflexivity.
Qed.

Lemma mapM_formatValue_throws (values : list FunctionArgument) (e : error) :
  mapM formatValue values = Throw e ->
  e = UnsupportedValueType "object" \/ e = RangeError "Invalid time value".
Proof.
  induction values as [|v rest IH]; simpl; [discriminate|].
  destruct (formatValue v) eqn:Ev; cbn [bind].
  - destruct (mapM formatValue rest); cbn [bind]; [discriminate|].
    intros H. injection H as <-. apply IH. reflexivity.
  - intros H. injection H as <-. apply (formatValue_throws _ _ Ev).
Qed.

Lemma unformatted_argument (e : error) :
  e = UnsupportedValueType "object" \/ e = RangeError "Invalid time value" ->
  e = UnsupportedValueType "object" \/ e = UnsupportedFieldReference
  \/ e = RangeError "Invalid time value".
Proof. intros [->| ->]; [left | right; right]; reflexivity. Qed.

(** [processFunction] only fails on an argument it cannot format, which is
    [null], a field reference or an invalid Date, or on a field reference it
    cannot resolve. *)
Lemma processFunction_throws (func : FunctionDefinition) (field : string) (e : error) :
  processFunction func field = Throw e ->
  e = UnsupportedValueType "object" \/ e = UnsupportedFieldReference
  \/ e = RangeError "Invalid time value".
Proof.
  destruct func as [vs|v|v|v| |v|st len|ty v| |f|f]; simpl; intros H;
    try discriminate.
  - destruct (mapM formatValue vs) eqn:E; cbn [bind] in H; [discriminate|].
    injection H as <-. apply unformatted_argument, (mapM_formatValue_throws _ _ E).
  - destruct (formatValue v) eqn:E; cbn [bind] in H; [discriminate|].
    injection H as <-. apply unformatted_argument, (formatValue_throws _ _ E).
  - destruct (formatValue v) eqn:E; cbn [bind] in H; [discriminate|].
    injection H as <-. apply unformatted_argument, (formatValue_throws _ _ E).
  - destruct (formatValue v) eqn:E; cbn [bind] in H; [discriminate|].
    injection H as <-. apply unformatted_argument, (formatValue_throws _ _ E).
  - destruct (formatValue v) eqn:E; cbn [bind] in H; [discriminate|].
    injection H as <-. apply unformatted_argument, (formatValue_throws _ _ E).
  - apply unformatted_argument.
    apply (mapM_formatValue_throws
             (st :: match len with Some l => [l] | None => [] end)).
    cbn [mapM].
    match type of H with bind ?m _ = _ => destruct m end;
      cbn [bind] in H; [discriminate | injection H as <-; reflexivity].
  - unfold createArithmeticHandler in H.
    destruct (formatValue v) eqn:E; cbn [bind] in H; [discriminate|].
    injection H as <-. apply unformatted_argument, (formatValue_throws _ _ E).
  - destruct f; simpl in H; [discriminate|]. injection H as <-.
    right. left. reflexivity.
  - destruct f; simpl in H; [discriminate|]. injection H as <-.
    right. left. reflexivity.
Qed.

(** C4 (as amended). For a Comparison node whose value is [null] the visitor
    neither classifies the value nor validates the operator.  Without a
    function descriptor it renders [<transformed-field> <operator> null] for
    every operator; with one it renders [<function call> <operator> null]
    whenever the function call renders.  It raises no
    invalid-operator-for-type error, and the only errors it can raise are
    those of rendering the function descriptor. *)
Theorem null_comparison_is_not_classified (filter : BasicFilter) :
  value filter = VNull ->
  (function filter = None ->
   visitBasicFilter filter
   = Ok (getTransformedField filter ++ " " ++ operator filter ++ " null"))
  /\ (forall func leftSide,
         function filter = Some func ->
         processFunction func (field filter) = Ok leftSide ->
         visitBasicFilter filter
         = Ok (leftSide ++ " " ++ operator filter ++ " null"))
  /\ (forall e,
         visitBasicFilter filter = Throw e ->
         (exists func, function filter = Some func
                       /\ processFunction func (field filter) = Throw e)
         /\ (forall op type, e <> InvalidOperator op type)).
Proof.
  intros Hnull. unfold visitBasicFilter. rewrite Hnull.
  split; [|split].
  - intros ->. reflexivity.
  - intros func leftSide -> ->. reflexivity.
  - intros e. destruct (function filter) as [func|]; cbn [bind]; [|discriminate].
    destruct (processFunction func (field filter)) eqn:E; cbn [bind];
      [discriminate|].
    intros H. injection H as <-. split.
    + exists func. split; [reflexivity | exact E].
    + intros op type ->.
      destruct (processFunction_throws _ _ _ E) as [H|[H|H]]; discriminate H.
Qed.

(** ** FilterBuilder: [not], builder inputs and [group] *)

Lemma build_none_iff_empty (b : FilterBuilder) : build b = None <-> parts b = [].
Proof.
  unfold build. destruct (parts b) as [|p [|q rest]]; split; intros H;
    try reflexivity; discriminate.
Qed.

Lemma queryPart_negated context inner text :
  queryPart context inner = Ok text ->
  queryPart context (NegatedFilter inner) = Ok ("not (" ++ text ++ ")").
Proof.
  intros H. apply queryPart_visitInnerFilter in H.
  unfold queryPart. cbn [isCombinedFilter isLambdaFilter isBasicFilter
                         isInFilter isNegatedFilter isHasFilter orb negb].
  rewrite visitNegatedFilter_unfold, H. reflexivity.
Qed.

(** C5. On a non-empty builder [b], [not()] returns a builder whose only
    part is the Negation of [b.build()], the whole expression accumulated so
    far.  A Negation renders as [not (] + the rendering of the wrapped tree
    + [)] whatever the variant of the wrapped tree, a Negation included.  On
    an empty builder [not()] fails. *)
Theorem not_wraps_the_built_tree (b : FilterBuilder) :
  parts b <> [] ->
  (exists tree,
      build b = Some tree
      /\ not_ b
         = Ok {| parts := [{| logic := None; filter := NegatedFilter tree |}] |})
  /\ (forall context inner text,
         visitInnerFilter context inner = Ok text ->
         visitNegatedFilter context (NegatedFilter inner)
         = Ok ("not (" ++ text ++ ")"))
  /\ (forall context inner text,
         queryPart context inner = Ok text ->
         queryPart context (NegatedFilter inner) = Ok ("not (" ++ text ++ ")")
         /\ queryPart context (NegatedFilter (NegatedFilter inner))
            = Ok ("not (not (" ++ text ++ "))"))
  /\ not_ emptyBuilder = Throw (EmptyBuilderUse "not").
Proof.
  intros Hne. split; [|split; [|split]].
  - destruct b as [ps]. cbn [parts] in Hne.
    destruct ps as [|p [|q rest]]; [contradiction| |];
      eexists; split; reflexivity.
  - intros context inner text H.
    rewrite visitNegatedFilter_unfold, H. reflexivity.
  - intros context inner text H. split.
    + apply queryPart_negated, H.
    + rewrite (queryPart_negated context (NegatedFilter inner) _
                 (queryPart_negated _ _ _ H)).
      f_equal. rewrite !append_assoc. reflexivity.
  - reflexivity.
Qed.

(** C9. Given another builder as input, [where], [and] and [or] splice in the
    tree the inner builder builds; an empty inner builder leaves the outer
    builder as it is, without an error.  [and] and [or] on an empty outer
    builder fail with the empty-builder error whatever the input is, also
    for an input that would itself be rejected; [where] never fails for a
    builder input, on an empty outer builder or any other. *)
Theorem builder_input_is_spliced_or_ignored (this inner : FilterBuilder) :
  where_ this (Builder inner)
  = Ok (match build inner with
        | Some tree =>
            {| parts := parts this ++ [{| logic := None; filter := tree |}] |}
        | None => this
        end)
  /\ and_ this (Builder inner)
     = (if isEmpty this then Throw (EmptyBuilderUse "and")
        else Ok (match build inner with
                 | Some tree =>
                     {| parts := parts this
                                 ++ [{| logic := Some And; filter := tree |}] |}
                 | None => this
                 end))
  /\ or_ this (Builder inner)
     = (if isEmpty this then Throw (EmptyBuilderUse "or")
        else Ok (match build inner with
                 | Some tree =>
                     {| parts := parts this
                                 ++ [{| logic := Some Or; filter := tree |}] |}
                 | None => this
                 end))
  /\ (build inner = None <-> parts inner = [])
  /\ (forall input,
         and_ emptyBuilder input = Throw (EmptyBuilderUse "and")
         /\ or_ emptyBuilder input = Throw (EmptyBuilderUse "or")).
Proof.
  split; [|split; [|split; [|split]]].
  - unfold where_, resolveInput. cbn [bind]. destruct (build inner); reflexivity.
  - unfold and_, isEmpty, resolveInput.
    destruct (List.length (parts this) =? 0)%nat; [reflexivity|].
    cbn [bind]. destruct (build inner); reflexivity.
  - unfold or_, isEmpty, resolveInput.
    destruct (List.length (parts this) =? 0)%nat; [reflexivity|].
    cbn [bind]. destruct (build inner); reflexivity.
  - apply build_none_iff_empty.
  - intros input. split; reflexivity.
Qed.

(** C10. [group(inner)] fails when [inner] builds to nothing, that is when
    [inner] is empty; otherwise it returns a builder with exactly one part,
    the tree [inner] builds.  The receiving builder plays no part in the
    result: whatever it had accumulated is dropped. *)
Theorem group_keeps_only_the_inner_tree (this inner : FilterBuilder) :
  group this inner
  = match build inner with
    | None => Throw CannotGroupEmpty
    | Some tree => Ok {| parts := [{| logic := None; filter := tree |}] |}
    end
  /\ (build inner = None <-> parts inner = [])
  /\ (forall other, group other inner = group this inner)
  /\ (forall grouped,
         group this inner = Ok grouped ->
         List.length (parts grouped) = 1 /\ build grouped = build inner).
Proof.
  split; [reflexivity | split; [apply build_none_iff_empty | split]].
  - reflexivity.
  - intros grouped. unfold group. destruct (build inner) as [tree|];
      [|discriminate].
    intros H. injection H as <-. split; reflexivity.
Qed.

(** ** Membership *)

Lemma countPairs_skip (c : ascii) (s : string) :
  Ascii.eqb c apostrophe = false -> countPairs (String c s) = countPairs s.
Proof.
  intros H. destruct s as [|c2 rest]; [reflexivity|].
  cbn [countPairs]. rewrite H. reflexivity.
Qed.

Lemma countPairs_replaceQuotes (s : string) :
  countPairs (replaceQuotes s) = countChar apostrophe s.
Proof.
  induction s as [|c rest IH]; [reflexivity|].
  cbn [replaceQuotes countChar].
  destruct (Ascii.eqb c apostrophe) eqn:E.
  - cbn [countPairs]. rewrite Ascii.eqb_refl. cbn [andb]. rewrite IH. reflexivity.
  - rewrite (countPairs_skip _ _ E). exact IH.
Qed.

Lemma allPaired_replaceQuotes (s : string) : allPaired (replaceQuotes s) = true.
Proof.
  induction s as [|c rest IH]; [reflexivity|].
  cbn [replaceQuotes].
  destruct (Ascii.eqb c apostrophe) eqn:E.
  - cbn [allPaired]. rewrite Ascii.eqb_refl. cbn [andb]. exact IH.
  - cbn [allPaired]. rewrite E. exact IH.
Qed.

Lemma unescape_replaceQuotes (s : string) : unescape (replaceQuotes s) = s.
Proof.
  induction s as [|c rest IH]; [reflexivity|].
  cbn [replaceQuotes].
  destruct (Ascii.eqb c apostrophe) eqn:E.
  - apply Ascii.eqb_eq in E. subst c.
    cbn [unescape]. rewrite Ascii.eqb_refl. cbn [andb]. rewrite IH. reflexivity.
  - destruct (replaceQuotes rest) as [|c2 r] eqn:Er.
    + cbn [unescape] in IH |- *. rewrite <- IH. reflexivity.
    + cbn [unescape]. rewrite E. cbn [andb].
      change (String c (unescape (String c2 r)) = String c rest).
      rewrite IH. reflexivity.
Qed.

Lemma formatInValue_literal (v : Value) (text : string) :
  formatInValue v = Ok text -> isLiteralOf v text.
Proof.
  destruct v as [|s|n|b|d]; cbn [formatInValue isLiteralOf]; intros H.
  - injection H as <-. reflexivity.
  - destruct (isGuid s); injection H as <-; [reflexivity|].
    exists (replaceQuotes s). split; [reflexivity|].
    split; [apply allPaired_replaceQuotes|].
    split; [apply countPairs_replaceQuotes | apply unescape_replaceQuotes].
  - injection H as <-. reflexivity.
  - injection H as <-. destruct b; reflexivity.
  - unfold callToISOString in H.
    destruct (toISOString d); [injection H as <-; reflexivity | discriminate H].
Qed.

Lemma mapM_formatInValue (values : list Value) :
  (forall d, In (VDate d) values -> toISOString d <> None) ->
  exists texts : list string,
    mapM formatInValue values = Ok texts /\ Forall2 isLiteralOf values texts.
Proof.
  induction values as [|v rest IH]; intros Hvalid.
  - exists []. split; [reflexivity | constructor].
  - destruct IH as (texts & Hrest & Hliterals).
    { intros d Hin. apply Hvalid. right. exact Hin. }
    assert (Hv : exists text, formatInValue v = Ok text).
    { destruct v as [|s|n|b|d]; cbn [formatInValue]; try (eexists; reflexivity).
      - destruct (isGuid s); eexists; reflexivity.
      - unfold callToISOString.
        destruct (toISOString d) eqn:Ed; [eexists; reflexivity|].
        exfalso. apply (Hvalid d); [left; reflexivity | exact Ed]. }
    destruct Hv as [text Hv]. exists (text :: texts). split.
    + cbn [mapM]. rewrite Hv, Hrest. reflexivity.
    + constructor; [apply formatInValue_literal, Hv | exact Hliterals].
Qed.

(** C6 (as amended). A Membership node with field [f] and literals
    [v1..vn], none of them an invalid Date, renders as [f in (t1, t2, ...)]
    by default and as [(f eq t1 or f eq t2 or ...)] in legacy mode, over the
    same texts [t1..tn] in both modes.  Each text is the literal of its
    value: a string in single quotes with its apostrophes doubled, a string
    of the GUID pattern bare, a number or boolean raw, a Date as its ISO
    timestamp, [null] as [null]. *)
Theorem membership_renders_in_both_modes (f : string) (values : list Value) :
  (forall d, In (VDate d) values -> toISOString d <> None) ->
  exists texts : list string,
    Forall2 isLiteralOf values texts
    /\ forall context : FilterRenderContext,
         visitInFilter context f values
         = Ok (if truthy (legacyInOperator context)
               then "(" ++ join " or " (map (fun text => f ++ " eq " ++ text) texts)
                    ++ ")"
               else f ++ " in (" ++ join ", " texts ++ ")").
Proof.
  intros Hvalid.
  destruct (mapM_formatInValue values Hvalid) as (texts & Hmap & Hliterals).
  exists texts. split; [exact Hliterals|].
  intros context. unfold visitInFilter. rewrite Hmap. cbn [bind].
  destruct (truthy (legacyInOperator context)); reflexivity.
Qed.

(** ** Lambda parameters *)











(** ** Escaping of string values *)

Lemma validateOperator_string_eq (s : string) :
  validateOperator (getValueType (VString s)) "eq" = Ok tt.
Proof. cbn [getValueType]. destruct (isGuid s); reflexivity. Qed.

Lemma getValueType_string_known (s : string) :
  String.eqb (getValueType (VString s)) "unknown" = false.
Proof. cbn [getValueType]. destruct (isGuid s); reflexivity. Qed.

(** C8 (as amended). Escaping is total.  For every string [s], an [eq]
    Comparison with value [s] escapes [s] (under [ignoreCase], [s] in lower
    case) by doubling its apostrophes: the escaped text has as many doubled
    apostrophes as the string has apostrophes, no apostrophe in it stands
    alone, and undoing the doubling gives the string back.  Without a
    function descriptor, and with one that is not a string predicate, the
    rendering ends in [ eq ] and the escaped text, in single quotes unless
    [removeQuotes] is set and bare when it is; with a string predicate the
    rendering is the function call and the value is not written.  A string
    argument of a function is written by [formatValue] in single quotes with
    the same doubling. *)
Theorem string_escaping_is_total (filter : BasicFilter) (s : string) :
  value filter = VString s ->
  operator filter = "eq" ->
  exists escaped : string,
    allPaired escaped = true
    /\ countPairs escaped
       = countChar apostrophe
           (if truthy (ignoreCase filter) then toLowerCase s else s)
    /\ unescape escaped
       = (if truthy (ignoreCase filter) then toLowerCase s else s)
    /\ (function filter = None ->
        visitBasicFilter filter
        = Ok (getTransformedField filter ++ " eq "
              ++ (if truthy (removeQuotes filter) then escaped
                  else "'" ++ escaped ++ "'")))
    /\ (forall func,
           function filter = Some func ->
           arrayIncludes booleanPredicates (functionType func) = false ->
           visitBasicFilter filter
           = (leftSide <- processFunction func
                            (if truthy (ignoreCase filter)
                             then "tolower(" ++ field filter ++ ")"
                             else field filter) ;;
              Ok (leftSide ++ " eq "
                  ++ (if truthy (removeQuotes filter) then escaped
                      else "'" ++ escaped ++ "'"))))
    /\ (forall func,
           function filter = Some func ->
           arrayIncludes booleanPredicates (functionType func) = true ->
           visitBasicFilter filter
           = processFunction func
               (if truthy (ignoreCase filter)
                then "tolower(" ++ field filter ++ ")"
                else field filter))
    /\ (forall argument,
           exists body : string,
             formatValue (Literal (VString argument)) = Ok ("'" ++ body ++ "'")
             /\ allPaired body = true
             /\ countPairs body = countChar apostrophe argument
             /\ unescape body = argument).
Proof.
  intros Hv Ho.
  exists (replaceQuotes (if truthy (ignoreCase filter) then toLowerCase s else s)).
  split; [apply allPaired_replaceQuotes|].
  split; [apply countPairs_replaceQuotes|].
  split; [apply unescape_replaceQuotes|].
  assert (Hvisit :
            visitBasicFilter filter
            = match function filter with
              | Some func =>
                  if arrayIncludes booleanPredicates (functionType func)
                  then processFunction func
                         (if truthy (ignoreCase filter)
                          then "tolower(" ++ field filter ++ ")"
                          else field filter)
                  else
                    leftSide <- processFunction func
                                  (if truthy (ignoreCase filter)
                                   then "tolower(" ++ field filter ++ ")"
                                   else field filter) ;;
                    Ok (leftSide ++ " eq "
                        ++ (if truthy (removeQuotes filter)
                            then replaceQuotes
                                   (if truthy (ignoreCase filter)
                                    then toLowerCase s else s)
                            else "'" ++ replaceQuotes
                                          (if truthy (ignoreCase filter)
                                           then toLowerCase s else s) ++ "'"))
              | None =>
                  Ok (getTransformedField filter ++ " eq "
                      ++ (if truthy (removeQuotes filter)
                          then replaceQuotes
                                 (if truthy (ignoreCase filter)
                                  then toLowerCase s else s)
                          else "'" ++ replaceQuotes
                                        (if truthy (ignoreCase filter)
                                         then toLowerCase s else s) ++ "'"))
              end).
  { unfold visitBasicFilter. rewrite Hv, Ho.
    rewrite getValueType_string_known, validateOperator_string_eq.
    reflexivity. }
  split; [|split; [|split]].
  - intros Hf. rewrite Hvisit, Hf. reflexivity.
  - intros func Hf Hp. rewrite Hvisit, Hf, Hp. reflexivity.
  - intros func Hf Hp. rewrite Hvisit, Hf, Hp. reflexivity.
  - intros argument. exists (replaceQuotes argument).
    split; [reflexivity|].
    split; [apply allPaired_replaceQuotes|].
    split; [apply countPairs_replaceQuotes | apply unescape_replaceQuotes].
Qed.

(** ** Further properties of the builder and the visitor *)

Lemma fold_groupStep_and (rest : list QueryFilter)
      (orGroups : list (list QueryFilter)) (currentAndGroup : list QueryFilter) :
  fold_left groupStep
            (map (fun f => {| logic := Some And; filter := f |}) rest)
            (orGroups, currentAndGroup)
  = (orGroups, (currentAndGroup ++ rest)%list).
Proof.
  revert currentAndGroup.
  induction rest as [|f rest IH]; intros currentAndGroup; cbn [map fold_left].
  - rewrite app_nil_r. reflexivity.
  - cbn [groupStep logic filter]. rewrite IH, <- app_assoc. reflexivity.
Qed.

(** X1. Any number of conditions joined by [and] build one flat [and] group:
    the parts of [where(a1).and(a2)...and(an)], for n >= 2, build
    Combined(and, [a1, ..., an]). *)
Theorem and_chain_builds_one_flat_group (first second : QueryFilter)
        (rest : list QueryFilter) :
  build {| parts := {| logic := None; filter := first |}
                    :: map (fun f => {| logic := Some And; filter := f |})
                           (second :: rest) |}
  = Some (CombinedFilter And (first :: second :: rest)).
Proof.
  unfold build. cbn [parts map]. f_equal.
  unfold buildWithPrecedence. cbn [parts fold_left].
  cbn [groupStep logic filter app].
  rewrite fold_groupStep_and. reflexivity.
Qed.

(** X2. A Negation below a Combined node is rendered without the prefix of
    the enclosing lambda: its text is the same under every prefix, so the
    fields inside it are not rewritten for the lambda's parameter and a
    lambda inside it binds [s] again. *)
Theorem negation_ignores_the_lambda_prefix
        (context : FilterRenderContext) (inner : QueryFilter)
        (prefix other : option string) :
  visitSubFilter context prefix (NegatedFilter inner)
  = visitSubFilter context other (NegatedFilter inner)
  /\ visitSubFilter context prefix (NegatedFilter inner)
     = (innerQuery <- visitInnerFilter context inner ;;
        Ok ("not (" ++ innerQuery ++ ")"))
  /\ (forall f o e,
         visitInnerFilter context (LambdaFilter f o e)
         = visitLambdaFilter context (LambdaFilter f o e) None).
Proof.
  split; [reflexivity|]. split; [|reflexivity].
  cbn [visitSubFilter]. apply visitNegatedFilter_unfold.
Qed.

(** X3. Directly inside a lambda, a comparison with a Date value and no
    [transform] property fails with a TypeError: the copy made for it always
    carries a [transform] property, undefined here, whose [length] is read. *)
Theorem date_comparison_inside_lambda_throws
        (context : FilterRenderContext) (f : string) (o : LambdaOperator)
        (b : BasicFilter) (d : JSDate) (parentPrefix : option string) :
  value b = VDate d ->
  transform b = Absent ->
  isValidOperator "Date" (operator b) = Ok true ->
  visitLambdaFilter context (LambdaFilter f o (Basic b)) parentPrefix
  = Throw (TypeError "Cannot read properties of undefined (reading 'length')").
Proof.
  intros Hv Ht Hop.
  cbn [visitLambdaFilter]. unfold visitBasicFilter.
  cbn [value operator transform prefixedExpression].
  rewrite Hv, Ht. cbn [getValueType String.eqb Ascii.eqb Bool.eqb].
  unfold validateOperator. rewrite Hop. reflexivity.
Qed.

(** X4. Directly inside a lambda only a comparison, a Combined node or
    another lambda renders: a Membership or a Negation is rejected as an
    invalid expression, and an enum-flag test with a string literal is
    rejected by the operator table. *)
Theorem lambda_rejects_membership_negation_and_has
        (context : FilterRenderContext) (f : string) (o : LambdaOperator)
        (parentPrefix : option string) :
  (forall field values,
      visitLambdaFilter context (LambdaFilter f o (InFilter field values))
                        parentPrefix
      = Throw InvalidLambdaExpression)
  /\ (forall inner,
         visitLambdaFilter context (LambdaFilter f o (NegatedFilter inner))
                           parentPrefix
         = Throw InvalidLambdaExpression)
  /\ (forall field literal,
         visitLambdaFilter context (LambdaFilter f o (HasFilter field literal))
                           parentPrefix
         = Throw (InvalidOperator "has" (if isGuid literal then "Guid" else "string"))).
Proof.
  split; [reflexivity | split; [reflexivity|]].
  intros field literal. cbn [visitLambdaFilter HasFilter].
  unfold visitBasicFilter. cbn [value operator prefixedExpression getValueType].
  destruct (isGuid literal); reflexivity.
Qed.

(** ** Which renderings contain a space *)

Lemma bind_Ok {A B : Type} (m : result A) (k : A -> result B) (b : B) :
  bind m k = Ok b -> exists a, m = Ok a /\ k a = Ok b.
Proof. destruct m as [a|e]; simpl; [eauto | discriminate]. Qed.

Ltac ok_inv :=
  repeat match goal with
         | H : bind _ _ = Ok _ |- _ =>
             apply bind_Ok in H; destruct H as [? [? H]]
         | H : Ok _ = Ok _ |- _ => injection H as H; subst
         | H : Throw _ = Ok _ |- _ => discriminate H
         end.

Lemma predicate_call_has_space (func : FunctionDefinition) (field text : string) :
  arrayIncludes booleanPredicates (functionType func) = true ->
  processFunction func field = Ok text ->
  includes " " text = true.
Proof.
  intros Hp H.
  destruct func as [vs|v|v|v| |v|st len|ty v| |f|f]; try discriminate Hp;
    cbn [processFunction] in H; ok_inv.
  - apply (includes_right " " "contains(" _).
    apply (includes_right " " field _). apply (includes_append " " "," _).
  - apply (includes_right " " "endswith(" _).
    apply (includes_right " " field _). apply (includes_append " " "," _).
  - apply (includes_right " " "startswith(" _).
    apply (includes_right " " field _). apply (includes_append " " "," _).
  - destruct ty; discriminate Hp.
Qed.

Lemma functionType_lowercasedValue (func : FunctionDefinition) :
  functionType (lowercasedValue func) = functionType func.
Proof. destruct func as [|[[]|]|[[]|]|[[]|]| |[[]|]| | | | |]; reflexivity. Qed.

Lemma visitBasicFilter_has_space (filter : BasicFilter) (text : string) :
  visitBasicFilter filter = Ok text -> includes " " text = true.
Proof.
  unfold visitBasicFilter. intros H.
  destruct (value filter) as [|s|n|b|d].
  - ok_inv. apply includes_space_between.
  - destruct (String.eqb _ "unknown"); [discriminate|]. ok_inv.
    destruct (function filter) as [func|].
    + destruct (arrayIncludes booleanPredicates (functionType func)) eqn:Ep.
      * apply (predicate_call_has_space _ _ _ Ep H).
      * ok_inv. apply includes_space_between.
    + ok_inv. apply includes_space_between.
  - destruct (String.eqb _ "unknown"); [discriminate|]. ok_inv.
    apply includes_space_between.
  - destruct (String.eqb _ "unknown"); [discriminate|]. ok_inv.
    destruct (function filter) as [func|].
    + destruct (arrayIncludes booleanPredicates (functionType func)) eqn:Ep.
      * destruct (truthy (ignoreCase filter)).
        -- rewrite <- functionType_lowercasedValue in Ep.
           apply (predicate_call_has_space _ _ _ Ep H).
        -- apply (predicate_call_has_space _ _ _ Ep H).
      * ok_inv. apply includes_space_between.
    + ok_inv. apply includes_space_between.
  - destruct (String.eqb _ "unknown"); [discriminate|]. ok_inv.
    destruct (transform filter) as [| |[|t ts]]; ok_inv;
      apply includes_space_between.
Qed.

Lemma join_head_includes (sub sep x : string) (l : list string) :
  includes sub x = true -> includes sub (join sep (x :: l)) = true.
Proof.
  intros H. destruct l as [|y l]; [exact H|].
  rewrite join_two. apply includes_left, H.
Qed.

Lemma visitInFilter_has_space context (f : string) (values : list Value)
      (text : string) :
  visitInFilter context f values = Ok text ->
  values <> [] \/ truthy (legacyInOperator context) = false ->
  includes " " text = true.
Proof.
  unfold visitInFilter. intros H Hnonempty. ok_inv.
  destruct (truthy (legacyInOperator context)); ok_inv.
  - destruct Hnonempty as [Hne|]; [|discriminate].
    destruct values as [|v values]; [contradiction|].
    cbn [mapM] in H0. ok_inv. cbn [map].
    apply (includes_right " " "(" _). apply includes_left.
    apply join_head_includes. apply includes_space_between.
  - apply includes_space_between.
Qed.

(** X6. Every rendered child of a Combined node that is not itself a
    Combined node contains a space (an empty Membership in legacy mode, which
    renders as [()], is the one exception), so a Combined node with one such
    child is rendered in parentheses. *)
Theorem single_child_is_wrapped
        (context : FilterRenderContext) (logic : Logic) (child : QueryFilter)
        (currentPrefix : option string) (text : string) :
  visitSubFilter context currentPrefix child = Ok text ->
  isCombinedFilter child = false ->
  (forall f, child <> InFilter f []) ->
  includes " " text = true
  /\ visitCombinedFilter context (CombinedFilter logic [child]) currentPrefix
     = Ok ("(" ++ text ++ ")").
Proof.
  intros H Hc Hin.
  assert (Hs : includes " " text = true).
  { destruct child as [b|f values|inner|f o e|l fs]; cbn [visitSubFilter] in H.
    - destruct (hasOperator b).
      + ok_inv. unfold visitHasFilter. apply includes_space_between.
      + apply (visitBasicFilter_has_space _ _ H).
    - apply (visitInFilter_has_space _ _ _ _ H). left.
      destruct values; [exfalso; apply (Hin f); reflexivity | discriminate].
    - rewrite visitNegatedFilter_unfold in H. ok_inv.
      apply (includes_append " " "not" _).
    - destruct e as [b|f' values|inner|f' o' e'|l fs];
        cbn [visitLambdaFilter] in H; ok_inv;
        apply includes_right, includes_cons, includes_right, includes_cons,
              includes_right;
        apply (includes_append " " ":" _).
    - discriminate Hc. }
  split; [exact Hs|].
  rewrite visitCombinedFilter_unfold. cbn [mapM]. rewrite H. cbn [bind].
  change (join (" " ++ logicName logic ++ " ") [text]) with text.
  rewrite Hs. reflexivity.
Qed.

End Properties.

(* ================================================================== *)
(** * Concrete runs on the UTC host *)

Import UTCHost Sample.

(** C1 at [name eq 'John'], [age gt 18], [isAdmin eq true]. *)
Lemma and_binds_tighter_than_or_run :
  queryPart defaultContext nameEqJohn = Ok "name eq 'John'"
  /\ queryPart defaultContext ageGt18 = Ok "age gt 18"
  /\ queryPart defaultContext isAdminTrue = Ok "isAdmin eq true"
  /\ queryPart defaultContext
       (CombinedFilter Or [CombinedFilter And [nameEqJohn; ageGt18]; isAdminTrue])
     = Ok "((name eq 'John' and age gt 18) or isAdmin eq true)".
Proof.
  split; [reflexivity|]. split; [reflexivity|]. split; [reflexivity|].
  exact (proj1 (proj2 (and_binds_tighter_than_or
                         defaultContext nameEqJohn ageGt18 isAdminTrue
                         "name eq 'John'" "age gt 18" "isAdmin eq true"
                         eq_refl eq_refl eq_refl))).
Defined.

(** C2 as amended, at a Combined node with two children. *)
Lemma combined_wrapped_when_joined_has_space_run :
  mapM (visitSubFilter defaultContext None) [nameEqJohn; ageGt18]
  = Ok ["name eq 'John'"; "age gt 18"]
  /\ visitCombinedFilter defaultContext
       (CombinedFilter And [nameEqJohn; ageGt18]) None
     = Ok "(name eq 'John' and age gt 18)".
Proof.
  split; [reflexivity|].
  exact (proj1 (combined_wrapped_when_joined_has_space
                  defaultContext And [nameEqJohn; ageGt18] None
                  ["name eq 'John'"; "age gt 18"] eq_refl)).
Defined.

(** C2 as stated fails: a Combined node with the single child
    [name eq 'John'] joins nothing, and is rendered in parentheses. *)
Lemma single_child_combined_is_parenthesized :
  visitSubFilter defaultContext None nameEqJohn = Ok "name eq 'John'"
  /\ visitCombinedFilter defaultContext (CombinedFilter And [nameEqJohn]) None
     = Ok "(name eq 'John')".
Proof. split; reflexivity. Qed.

(** C3 as amended, at kind [Date]. *)
Lemma isValidOperator_table_run :
  arrayIncludes objectPrototypeKeys "Date" = false
  /\ isValidOperator "Date" "ge" = Ok true
  /\ isValidOperator "Date" "contains" = Ok false.
Proof.
  split; [reflexivity|]. split.
  - exact (isValidOperator_table "Date" "ge" eq_refl).
  - exact (isValidOperator_table "Date" "contains" eq_refl).
Defined.

(** C3 as stated fails: [substringof] is not among the operators the claim
    lists for string, and [isValidOperator] accepts it. *)
Lemma substringof_is_valid_for_string :
  specOperatorTable "string" "substringof" = false
  /\ isValidOperator "string" "substringof" = Ok true.
Proof. split; reflexivity. Qed.

(** X5 at the kind [constructor]. *)
Lemma isValidOperator_throws_on_inherited_kind_run :
  arrayIncludes objectPrototypeKeys "constructor" = true
  /\ isValidOperator "constructor" "eq"
     = Throw (TypeError "validOperators.includes is not a function").
Proof.
  split; [reflexivity|].
  exact (isValidOperator_throws_on_inherited_kind "constructor" "eq" eq_refl).
Defined.

(** C4 as amended, at [deletedAt gt null]: [gt] is not an operator of the
    kind null, and the comparison renders. *)
Lemma null_comparison_is_not_classified_run :
  value deletedAtGtNull = VNull
  /\ isValidOperator "null" "gt" = Ok false
  /\ visitBasicFilter deletedAtGtNull = Ok "deletedAt gt null".
Proof.
  split; [reflexivity|]. split; [reflexivity|].
  exact (proj1 (null_comparison_is_not_classified deletedAtGtNull eq_refl) eq_refl).
Defined.

(** C4 as stated fails: a Comparison with value [null] whose function
    descriptor takes a field reference does not render, and the error is the
    one with the message [Unsupported value type]. *)
Lemma null_comparison_with_field_reference_throws :
  value containsReferenceEqNull = VNull
  /\ visitBasicFilter containsReferenceEqNull
     = Throw (UnsupportedValueType "object").
Proof. split; reflexivity. Qed.

(** C5 at [where(name eq 'John').and(age gt 18).not()]. *)
Lemma not_wraps_the_built_tree_run :
  parts johnAndAdult <> []
  /\ not_ johnAndAdult
     = Ok {| parts :=
               [{| logic := None;
                   filter := NegatedFilter (CombinedFilter And [nameEqJohn; ageGt18]) |}] |}
  /\ queryPart defaultContext (NegatedFilter (CombinedFilter And [nameEqJohn; ageGt18]))
     = Ok "not ((name eq 'John' and age gt 18))".
Proof.
  assert (Hne : parts johnAndAdult <> []) by discriminate.
  split; [exact Hne|].
  destruct (not_wraps_the_built_tree johnAndAdult Hne)
    as [[tree [Hbuild Hnot]] [_ [Hrender _]]].
  injection Hbuild as <-.
  split; [exact Hnot|].
  exact (proj1 (Hrender defaultContext (CombinedFilter And [nameEqJohn; ageGt18])
                        "(name eq 'John' and age gt 18)" eq_refl)).
Defined.

(** C6 as amended, at a list with a literal of every kind. *)
Lemma membership_renders_in_both_modes_run :
  (forall d, In (VDate d) mixedValues -> toISOString d <> None)
  /\ visitInFilter defaultContext "x" mixedValues
     = Ok ("x in ('O''Reilly', 123e4567-e89b-12d3-a456-426614174000, 42, true, "
           ++ "2024-01-15T10:30:00.000Z, null)")
  /\ visitInFilter legacyContext "x" [VString "O'Reilly"; VNumber 42%Z]
     = Ok "(x eq 'O''Reilly' or x eq 42)"
  /\ exists texts : list string,
       Forall2 isLiteralOf mixedValues texts
       /\ forall context : FilterRenderContext,
            visitInFilter context "x" mixedValues
            = Ok (if truthy (legacyInOperator context)
                  then "(" ++ join " or "
                                (map (fun text => "x" ++ " eq " ++ text) texts)
                       ++ ")"
                  else "x" ++ " in (" ++ join ", " texts ++ ")").
Proof.
  assert (Hvalid : forall d, In (VDate d) mixedValues -> toISOString d <> None).
  { intros d [H|[H|[H|[H|[H|[H|[]]]]]]]; try discriminate H.
    injection H as <-. discriminate. }
  split; [exact Hvalid|]. split; [reflexivity|]. split; [reflexivity|].
  exact (membership_renders_in_both_modes "x" mixedValues Hvalid).
Defined.

(** C6 as stated fails: a Membership whose literal is an invalid Date does
    not render in either mode; [toISOString] throws a RangeError. *)
Lemma membership_with_invalid_date_throws :
  [VDate NaN] <> []
  /\ visitInFilter defaultContext "createdAt" [VDate NaN]
     = Throw (RangeError "Invalid time value")
  /\ visitInFilter legacyContext "createdAt" [VDate NaN]
     = Throw (RangeError "Invalid time value").
Proof. split; [discriminate|]. split; reflexivity. Qed.



(** C8 as amended, at the value [O'Brien]. *)
Lemma string_escaping_is_total_run :
  value nameEqOBrien = VString "O'Brien"
  /\ operator nameEqOBrien = "eq"
  /\ visitBasicFilter nameEqOBrien = Ok "name eq 'O''Brien'"
  /\ countPairs "O''Brien" = 1
  /\ unescape "O''Brien" = "O'Brien"
  /\ exists escaped : string,
       allPaired escaped = true
       /\ countPairs escaped = countChar apostrophe "O'Brien"
       /\ unescape escaped = "O'Brien"
       /\ visitBasicFilter nameEqOBrien
          = Ok ("name" ++ " eq " ++ "'" ++ escaped ++ "'").
Proof.
  do 5 (split; [reflexivity|]).
  destruct (string_escaping_is_total nameEqOBrien "O'Brien" eq_refl eq_refl)
    as (escaped & Hpaired & Hcount & Hunescape & Hplain & _).
  exists escaped.
  split; [exact Hpaired|]. split; [exact Hcount|]. split; [exact Hunescape|].
  exact (Hplain eq_refl).
Defined.

(** C8 as stated fails: with [removeQuotes] the rendering of an [eq]
    Comparison with the value [O'Brien] holds the escaped text bare, and no
    quoted literal. *)
Lemma bare_value_is_not_a_quoted_literal :
  value nameEqOBrienBare = VString "O'Brien"
  /\ operator nameEqOBrienBare = "eq"
  /\ visitBasicFilter nameEqOBrienBare = Ok "name eq O''Brien"
  /\ includes "'O''Brien'" "name eq O''Brien" = false.
Proof. repeat split. Qed.

(** X2 at [items/any(...)] over [not (name eq 'x') and a eq 1]: the field
    [a] is rewritten to [s/a], the field [name] inside the Negation is not. *)
Lemma negation_ignores_the_lambda_prefix_run :
  queryPart defaultContext anyItemNotNamedX
  = Ok "items/any(s: (not (name eq 'x') and s/a eq 1))".
Proof. reflexivity. Qed.

(** X3 at [dates/any(s: s eq <date>)]; outside a lambda the same comparison
    renders. *)
Lemma date_comparison_inside_lambda_throws_run :
  value elementEqDate = VDate 1705314600000%Z
  /\ transform elementEqDate = Absent
  /\ isValidOperator "Date" (operator elementEqDate) = Ok true
  /\ visitBasicFilter elementEqDate = Ok "s eq 2024-01-15T10:30:00.000Z"
  /\ visitLambdaFilter defaultContext
       (LambdaFilter "dates" Any (Basic elementEqDate)) None
     = Throw (TypeError "Cannot read properties of undefined (reading 'length')").
Proof.
  do 4 (split; [reflexivity|]).
  exact (date_comparison_inside_lambda_throws
           defaultContext "dates" Any elementEqDate 1705314600000%Z None
           eq_refl eq_refl eq_refl).
Defined.

(** X6 at the single child [name eq 'John']. *)
Lemma single_child_is_wrapped_run :
  visitSubFilter defaultContext None nameEqJohn = Ok "name eq 'John'"
  /\ isCombinedFilter nameEqJohn = false
  /\ (forall f, nameEqJohn <> InFilter f [])
  /\ visitCombinedFilter defaultContext (CombinedFilter Or [nameEqJohn]) None
     = Ok "(name eq 'John')".
Proof.
  assert (Hin : forall f, nameEqJohn <> InFilter f []) by discriminate.
  split; [reflexivity|]. split; [reflexivity|]. split; [exact Hin|].
  exact (proj2 (single_child_is_wrapped defaultContext Or nameEqJohn None
                  "name eq 'John'" eq_refl eq_refl Hin)).
Defined.

(* ================================================================== *)
(** * Properties of the builder's grouping *)

Section Grouping.
Context {host : JSHost}.

Lemma flat_map_andNode (groups : list (list QueryFilter)) :
  flat_map (fun group => match group with
                         | [first] => [first]
                         | _ => [CombinedFilter And group]
                         end) groups
  = map andNode groups.
Proof.
  induction groups as [|g gs IH]; [reflexivity|].
  cbn [flat_map map]. rewrite IH.
  destruct g as [|x [|y r]]; reflexivity.
Qed.

Lemma buildWithPrecedence_groups (b : FilterBuilder) :
  buildWithPrecedence b
  = orNode (map andNode (closeGroups (fold_left groupStep (parts b) ([], [])))).
Proof.
  unfold buildWithPrecedence, closeGroups.
  destruct (fold_left groupStep (parts b) ([], [])) as [og cur].
  rewrite flat_map_andNode. reflexivity.
Qed.

Lemma groupStep_first (first : FilterPart) :
  groupStep ([], []) first = ([], [filter first]).
Proof.
  unfold groupStep. destruct (logic first) as [[|]|]; reflexivity.
Qed.

Lemma build_groups (first : FilterPart) (rest : list FilterPart) :
  build {| parts := first :: rest |}
  = Some (orNode (map andNode
            (closeGroups (fold_left groupStep rest ([], [filter first]))))).
Proof.
  unfold build. cbn [parts].
  destruct rest as [|second rest]; [reflexivity|].
  rewrite buildWithPrecedence_groups. cbn [parts fold_left].
  rewrite groupStep_first. reflexivity.
Qed.

Lemma groupStep_nonempty (orGroups : list (list QueryFilter)) (x : QueryFilter)
      (cur : list QueryFilter) (part : FilterPart) :
  groupStep (orGroups, x :: cur) part
  = match logic part with
    | Some Or => ((orGroups ++ [x :: cur])%list, [filter part])
    | _ => (orGroups, ((x :: cur) ++ [filter part])%list)
    end.
Proof.
  unfold groupStep. destruct (logic part) as [[|]|]; reflexivity.
Qed.

Lemma closeGroups_fold (rest : list FilterPart) :
  forall (orGroups : list (list QueryFilter)) (current : list QueryFilter),
    current <> [] ->
    let groups := closeGroups (fold_left groupStep rest (orGroups, current)) in
    concat groups = (concat orGroups ++ current ++ map filter rest)%list
    /\ (Forall (fun g => g <> []) orGroups -> Forall (fun g => g <> []) groups)
    /\ List.length groups = List.length orGroups + 1 + countOr rest.
Proof.
  induction rest as [|part rest IH]; intros orGroups current Hcur.
  - cbn [fold_left closeGroups map]. destruct current as [|x cur]; [congruence|].
    cbn [List.length Nat.ltb Nat.leb]. repeat split.
    + rewrite concat_app. cbn [concat]. rewrite !app_nil_r. reflexivity.
    + intros H. apply Forall_app. split; [exact H|].
      constructor; [discriminate | constructor].
    + rewrite length_app. cbn. unfold countOr. cbn. lia.
  - cbn [fold_left]. destruct current as [|x cur]; [congruence|].
    rewrite groupStep_nonempty.
    destruct (logic part) as [[|]|] eqn:Elogic.
    + specialize (IH orGroups ((x :: cur) ++ [filter part])%list).
      destruct IH as (Hc & Hn & Hl); [destruct cur; discriminate|].
      repeat split.
      * rewrite Hc. cbn [map]. rewrite <- !app_assoc. reflexivity.
      * exact Hn.
      * rewrite Hl. unfold countOr. cbn [List.filter]. rewrite Elogic. reflexivity.
    + specialize (IH (orGroups ++ [x :: cur])%list [filter part]).
      destruct IH as (Hc & Hn & Hl); [discriminate|].
      repeat split.
      * rewrite Hc. rewrite concat_app. cbn [concat map].
        rewrite !app_nil_r, <- !app_assoc. reflexivity.
      * intros H. apply Hn. apply Forall_app. split; [exact H|].
        constructor; [discriminate | constructor].
      * rewrite Hl, length_app. unfold countOr. cbn [List.filter List.length].
        rewrite Elogic. cbn [List.length]. lia.
    + specialize (IH orGroups ((x :: cur) ++ [filter part])%list).
      destruct IH as (Hc & Hn & Hl); [destruct cur; discriminate|].
      repeat split.
      * rewrite Hc. cbn [map]. rewrite <- !app_assoc. reflexivity.
      * exact Hn.
      * rewrite Hl. unfold countOr. cbn [List.filter]. rewrite Elogic. reflexivity.
Qed.

(** X7.  Whatever parts a non-empty builder holds, [build] returns the
    disjunction of conjunctions [orNode (map andNode groups)] of groups that
    are non-empty, that hold the parts' filters once each and in the order
    they were added, and of which there is one more than there are parts
    joined with [or]: no condition is lost, repeated or moved, and a
    Combined node is only created for two or more members. *)
Theorem build_keeps_every_condition_in_order
        (first : FilterPart) (rest : list FilterPart) :
  exists groups : list (list QueryFilter),
    build {| parts := first :: rest |} = Some (orNode (map andNode groups))
    /\ concat groups = map filter (first :: rest)
    /\ Forall (fun g => g <> []) groups
    /\ List.length groups = S (countOr rest).
Proof.
  exists (closeGroups (fold_left groupStep rest ([], [filter first]))).
  destruct (closeGroups_fold rest [] [filter first]) as (Hc & Hn & Hl);
    [discriminate|].
  split; [apply build_groups|].
  split; [exact Hc|].
  split; [apply Hn; constructor|].
  rewrite Hl. cbn [List.length]. lia.
Qed.

Section Truth.
Variable holds : QueryFilter -> bool.

Lemma evalTree_andNode (group : list QueryFilter) :
  evalTree holds (andNode group) = forallb (evalTree holds) group.
Proof.
  destruct group as [|x [|y r]]; cbn [andNode]; try reflexivity.
  cbn [forallb]. rewrite andb_true_r. reflexivity.
Qed.

Lemma evalTree_orNode (nodes : list QueryFilter) :
  evalTree holds (orNode nodes) = existsb (evalTree holds) nodes.
Proof.
  destruct nodes as [|x [|y r]]; cbn [orNode]; try reflexivity.
  cbn [existsb]. rewrite orb_false_r. reflexivity.
Qed.

Lemma existsb_andNode (groups : list (list QueryFilter)) :
  existsb (evalTree holds) (map andNode groups)
  = existsb (forallb (evalTree holds)) groups.
Proof.
  induction groups as [|g gs IH]; [reflexivity|].
  cbn [map existsb]. rewrite evalTree_andNode, IH. reflexivity.
Qed.

Lemma closeGroups_truth (rest : list FilterPart) :
  forall (orGroups : list (list QueryFilter)) (current : list QueryFilter),
    current <> [] ->
    existsb (forallb (evalTree holds))
            (closeGroups (fold_left groupStep rest (orGroups, current)))
    = existsb (forallb (evalTree holds)) orGroups
      || evalChain holds (forallb (evalTree holds) current) rest.
Proof.
  induction rest as [|part rest IH]; intros orGroups current Hcur;
    (destruct current as [|x cur]; [congruence|]).
  - cbn [fold_left closeGroups evalChain List.length Nat.ltb Nat.leb].
    rewrite existsb_app. cbn [existsb]. rewrite orb_false_r. reflexivity.
  - cbn [fold_left evalChain]. rewrite groupStep_nonempty.
    destruct (logic part) as [[|]|].
    + rewrite IH by (destruct cur; discriminate).
      rewrite forallb_app. cbn [forallb]. rewrite andb_true_r. reflexivity.
    + rewrite IH by discriminate.
      rewrite existsb_app. cbn [existsb forallb].
      rewrite orb_false_r, andb_true_r, orb_assoc. reflexivity.
    + rewrite IH by (destruct cur; discriminate).
      rewrite forallb_app. cbn [forallb]. rewrite andb_true_r. reflexivity.
Qed.

(** X8.  For every non-empty sequence of parts and every truth assignment
    to the conditions, the tree [build] returns is true exactly when the
    chain of parts is, read from the left with AND binding tighter than OR
    (the logic of the first part is not read). *)
Theorem build_reads_and_before_or (first : FilterPart) (rest : list FilterPart) :
  exists tree : QueryFilter,
    build {| parts := first :: rest |} = Some tree
    /\ evalTree holds tree
       = evalChain holds (evalTree holds (filter first)) rest.
Proof.
  eexists. split; [apply build_groups|].
  rewrite evalTree_orNode, existsb_andNode, closeGroups_truth by discriminate.
  cbn [existsb forallb orb]. rewrite andb_true_r. reflexivity.
Qed.

End Truth.

End Grouping.

(* ================================================================== *)
(** * Properties of [toFilterQuery] *)

Section FilterQuery.
Context {host : JSHost}.
Variable context : FilterRenderContext.

Lemma append_empty_r (s : string) : s ++ "" = s.
Proof.
  induction s as [|c s IH]; [reflexivity|]. cbn. rewrite IH. reflexivity.
Qed.

Lemma join_andParts (text : string) (texts : list string) :
  join " and " (text :: texts) = text ++ andParts texts.
Proof.
  revert text. induction texts as [|t ts IH]; intros text.
  - cbn. symmetry. apply append_empty_r.
  - change (join " and " (text :: t :: ts))
      with (text ++ " and " ++ join " and " (t :: ts)).
    rewrite IH. reflexivity.
Qed.

Lemma reduce_thrown (filters : list QueryFilter) (e : error) (index : nat) :
  fst (fold_left
         (fun (state : result string * nat) curr =>
            let (prev, index) := state in
            (p <- prev ;;
             part <- queryPart context curr ;;
             Ok (p ++ (if (0 <? index)%nat then " and " else "") ++ part),
             S index))
         filters (Throw e, index))
  = Throw e.
Proof.
  revert index. induction filters as [|f fs IH]; intros index; [reflexivity|].
  cbn [fold_left bind]. apply IH.
Qed.

Lemma reduce_later (filters : list QueryFilter) :
  forall (prev : string) (index : nat),
    fst (fold_left
           (fun (state : result string * nat) curr =>
              let (prev, index) := state in
              (p <- prev ;;
               part <- queryPart context curr ;;
               Ok (p ++ (if (0 <? index)%nat then " and " else "") ++ part),
               S index))
           filters (Ok prev, S index))
    = texts <- mapM (queryPart context) filters ;; Ok (prev ++ andParts texts).
Proof.
  induction filters as [|f fs IH]; intros prev index.
  - cbn. rewrite append_empty_r. reflexivity.
  - cbn [fold_left mapM]. cbn [bind Nat.ltb Nat.leb].
    destruct (queryPart context f) as [part|e].
    + cbn [bind]. rewrite IH.
      destruct (mapM (queryPart context) fs) as [texts|e]; [|reflexivity].
      cbn [bind andParts]. rewrite !append_assoc. reflexivity.
    + cbn [bind]. apply reduce_thrown.
Qed.

(** X9.  [toFilterQuery] returns the empty text for no filter; for one or
    more it renders them from the left, throws what the first filter that
    fails throws, and otherwise returns [$filter=] followed by the renderings
    joined with [ and ]; a top-level filter is never parenthesized for
    being one of several. *)
Theorem toFilterQuery_joins_the_renderings (filters : list QueryFilter) :
  toFilterQuery filters context
  = match filters with
    | [] => Ok ""
    | _ =>
        texts <- mapM (queryPart context) filters ;;
        Ok ("$filter=" ++ join " and " texts)
    end.
Proof.
  destruct filters as [|f fs]; [reflexivity|].
  unfold toFilterQuery. cbn [fold_left mapM]. cbn [bind Nat.ltb Nat.leb].
  destruct (queryPart context f) as [part|e].
  - cbn [bind]. rewrite reduce_later.
    destruct (mapM (queryPart context) fs) as [texts|e]; [|reflexivity].
    cbn [bind]. rewrite join_andParts, !append_assoc. reflexivity.
  - cbn [bind]. apply reduce_thrown.
Qed.

End FilterQuery.

(* ================================================================== *)
(** * Properties of the literals *)

Section LiteralProperties.
Context {host : JSHost}.

Lemma hexDigits_shape (n : nat) :
  forall s r : string,
    hexDigits n s = Some r ->
    String.length s = n + String.length r
    /\ (allChars isGuidChar r = true -> allChars isGuidChar s = true).
Proof.
  induction n as [|n IH]; intros s r H.
  - injection H as <-. split; [reflexivity | exact (fun H => H)].
  - destruct s as [|c s]; [discriminate|]. cbn [hexDigits] in H.
    destruct (isHexDigit c) eqn:Ec; [|discriminate].
    destruct (IH s r H) as [Hl Ha]. split.
    + cbn [String.length]. rewrite Hl. reflexivity.
    + intros Hr. cbn [allChars]. unfold isGuidChar at 1. rewrite Ec.
      exact (Ha Hr).
Qed.

Lemma hyphen_shape (s r : string) :
  hyphen s = Some r ->
  String.length s = 1 + String.length r
  /\ (allChars isGuidChar r = true -> allChars isGuidChar s = true).
Proof.
  destruct s as [|c s]; [discriminate|]. cbn [hyphen].
  destruct (Ascii.eqb c "-") eqn:Ec; [|discriminate].
  intros H. injection H as <-. split; [reflexivity|].
  intros Hr. cbn [allChars]. unfold isGuidChar at 1. rewrite Ec, orb_true_r.
  exact Hr.
Qed.

Ltac guid_step H r E :=
  match type of H with
  | match optBind ?m _ with _ => _ end = true =>
      destruct m as [r|] eqn:E; [cbn [optBind] in H | discriminate H]
  end.

Lemma isGuid_shape (s : string) :
  isGuid s = true ->
  String.length s = 36 /\ allChars isGuidChar s = true.
Proof.
  unfold isGuid. intros H.
  guid_step H r1 E1. guid_step H r2 E2. guid_step H r3 E3. guid_step H r4 E4.
  guid_step H r5 E5. guid_step H r6 E6. guid_step H r7 E7. guid_step H r8 E8.
  destruct (hexDigits 12 r8) as [[|c r9]|] eqn:E9; try discriminate H.
  destruct (hexDigits_shape _ _ _ E1) as [L1 A1].
  destruct (hyphen_shape _ _ E2) as [L2 A2].
  destruct (hexDigits_shape _ _ _ E3) as [L3 A3].
  destruct (hyphen_shape _ _ E4) as [L4 A4].
  destruct (hexDigits_shape _ _ _ E5) as [L5 A5].
  destruct (hyphen_shape _ _ E6) as [L6 A6].
  destruct (hexDigits_shape _ _ _ E7) as [L7 A7].
  destruct (hyphen_shape _ _ E8) as [L8 A8].
  destruct (hexDigits_shape _ _ _ E9) as [L9 A9].
  split.
  - cbn [String.length] in L9. lia.
  - apply A1, A2, A3, A4, A5, A6, A7, A8, A9. reflexivity.
Qed.

Lemma length_append (a b : string) :
  String.length (a ++ b) = String.length a + String.length b.
Proof.
  induction a as [|c a IH]; [reflexivity|]. cbn. rewrite IH. reflexivity.
Qed.

Lemma replaceQuotes_guid_chars (s : string) :
  allChars isGuidChar s = true -> replaceQuotes s = s.
Proof.
  induction s as [|c s IH]; [reflexivity|]. cbn [allChars replaceQuotes].
  intros H. apply andb_true_iff in H. destruct H as [Hc Hs].
  destruct (Ascii.eqb c apostrophe) eqn:Ec.
  - apply Ascii.eqb_eq in Ec. subst c. discriminate Hc.
  - rewrite (IH Hs). reflexivity.
Qed.

(** X10.  A string classified as a GUID has 36 characters, all of them
    hexadecimal digits or hyphens: it holds no apostrophe, space, comma or
    parenthesis, so the bare text Membership gives it is one token, and no
    longer string around it (braces, quotes, white space) is a GUID. *)
Theorem guid_is_36_hex_digits_and_hyphens (s : string) :
  getValueType (VString s) = "Guid" ->
  String.length s = 36
  /\ allChars isGuidChar s = true
  /\ formatInValue (VString s) = Ok s
  /\ forall before after : string,
       before ++ after <> "" ->
       getValueType (VString (before ++ s ++ after)) = "string".
Proof.
  unfold getValueType. destruct (isGuid s) eqn:Eg; [intros _ | discriminate].
  destruct (isGuid_shape s Eg) as [Hl Ha].
  split; [exact Hl|]. split; [exact Ha|]. split.
  - cbn [formatInValue]. rewrite Eg. reflexivity.
  - intros before after Hne.
    destruct (isGuid (before ++ s ++ after)) eqn:Eg'; [|reflexivity].
    exfalso. destruct (isGuid_shape _ Eg') as [Hl' _].
    rewrite !length_append in Hl'.
    destruct before as [|c b]; cbn [String.length] in Hl'; [|lia].
    destruct after as [|c a]; cbn [String.length] in Hl'; [|lia].
    apply Hne. reflexivity.
Qed.

Lemma replaceQuotes_injective (s1 : string) :
  forall s2 : string, replaceQuotes s1 = replaceQuotes s2 -> s1 = s2.
Proof.
  induction s1 as [|c1 s1 IH]; intros [|c2 s2]; cbn [replaceQuotes].
  - reflexivity.
  - destruct (Ascii.eqb c2 apostrophe); discriminate.
  - destruct (Ascii.eqb c1 apostrophe); discriminate.
  - destruct (Ascii.eqb c1 apostrophe) eqn:E1;
      destruct (Ascii.eqb c2 apostrophe) eqn:E2; intros H.
    + apply Ascii.eqb_eq in E1, E2. subst c1 c2.
      injection H as H. f_equal. apply IH. exact H.
    + injection H as Hc H. subst c2. discriminate E2.
    + injection H as Hc H. subst c1. discriminate E1.
    + injection H as Hc H. subst c2. f_equal. apply IH. exact H.
Qed.

Lemma quoted_is_no_guid (s : string) : isGuid ("'" ++ s) = false.
Proof. reflexivity. Qed.

Lemma append_injective_r (a b c : string) : a ++ c = b ++ c -> a = b.
Proof.
  revert b. induction a as [|x a IH]; intros [|y b] H.
  - reflexivity.
  - exfalso. apply (f_equal String.length) in H.
    cbn [append String.length] in H. rewrite length_append in H. lia.
  - exfalso. apply (f_equal String.length) in H.
    cbn [append String.length] in H. rewrite length_append in H. lia.
  - cbn in H. injection H as Hc H. subst y. f_equal. apply IH. exact H.
Qed.

(** X11.  Different strings never share a literal: the text [formatInValue]
    gives a string in a Membership list, and the text [formatValue] gives a
    string argument of a function, determine the string. *)
Theorem string_literals_determine_the_string (s1 s2 : string) :
  (formatInValue (VString s1) = formatInValue (VString s2) -> s1 = s2)
  /\ (formatValue (Literal (VString s1)) = formatValue (Literal (VString s2))
      -> s1 = s2).
Proof.
  split.
  - cbn [formatInValue].
    destruct (isGuid s1) eqn:E1; destruct (isGuid s2) eqn:E2; intros H;
      injection H as H.
    + exact H.
    + subst s1. exfalso.
      assert (Hq : true = false) by (rewrite <- E1; apply quoted_is_no_guid).
      discriminate Hq.
    + subst s2. exfalso.
      assert (Hq : true = false) by (rewrite <- E2; apply quoted_is_no_guid).
      discriminate Hq.
    + apply append_injective_r in H.
      apply replaceQuotes_injective. exact H.
  - cbn [formatValue]. intros H. injection H as H.
    apply append_injective_r in H. apply replaceQuotes_injective. exact H.
Qed.

End LiteralProperties.

(* ================================================================== *)
(** * Properties of the field proxy *)

Section ProxyProperties.
Context {host : JSHost}.

Lemma readPath_from (props : list string) :
  forall context : FieldProxy.ProxyContext,
    ProxyAccess.readPath context props
    = if forallb (fun prop => negb (arrayIncludes ProxyAccess.ALL_OPERATIONS prop))
                 props
      then Some {| FieldProxy.path := (FieldProxy.path context ++ props)%list;
                   FieldProxy.transforms := FieldProxy.transforms context;
                   FieldProxy.ignoreCase := FieldProxy.ignoreCase context;
                   FieldProxy.removeQuotes := FieldProxy.removeQuotes context;
                   FieldProxy.func := FieldProxy.func context |}
      else None.
Proof.
  induction props as [|prop rest IH]; intros context.
  - cbn [ProxyAccess.readPath forallb]. rewrite app_nil_r.
    destruct context; reflexivity.
  - cbn [ProxyAccess.readPath forallb]. unfold ProxyAccess.proxyGet.
    destruct (arrayIncludes ProxyAccess.ALL_OPERATIONS prop); [reflexivity|].
    cbn [negb andb]. rewrite IH. cbn [FieldProxy.get FieldProxy.path
      FieldProxy.transforms FieldProxy.ignoreCase FieldProxy.removeQuotes
      FieldProxy.func].
    rewrite <- app_assoc. reflexivity.
Qed.

(** X12.  Reading the properties [props] one after the other from a fresh
    proxy gives the proxy of the path [props], with nothing else set, when
    none of them is the name of an operation; when one is, the read returns
    that operation instead of a field, so a field named like an operation
    (length, year, day, in, has, any, all, trim, add, ...) cannot be
    addressed. *)
Theorem operation_names_are_not_fields (props : list string) :
  ProxyAccess.readPath FieldProxy.initialContext props
  = if existsb (arrayIncludes ProxyAccess.ALL_OPERATIONS) props
    then None
    else Some {| FieldProxy.path := props; FieldProxy.transforms := [];
                 FieldProxy.ignoreCase := false; FieldProxy.removeQuotes := false;
                 FieldProxy.func := None |}.
Proof.
  rewrite readPath_from. cbn [FieldProxy.initialContext FieldProxy.path
    FieldProxy.transforms FieldProxy.ignoreCase FieldProxy.removeQuotes
    FieldProxy.func app].
  induction props as [|prop rest IH]; [reflexivity|].
  cbn [forallb existsb].
  destruct (arrayIncludes ProxyAccess.ALL_OPERATIONS prop); [reflexivity|].
  cbn [negb andb orb].
  destruct (forallb _ rest); destruct (existsb _ rest);
    try discriminate IH; reflexivity.
Qed.

Lemma transformOperations_context (ts : list Transform) :
  forall context : FieldProxy.ProxyContext,
    fold_left ProxyAccess.transformOperation ts context
    = {| FieldProxy.path := FieldProxy.path context;
         FieldProxy.transforms := (FieldProxy.transforms context ++ ts)%list;
         FieldProxy.ignoreCase := FieldProxy.ignoreCase context;
         FieldProxy.removeQuotes := FieldProxy.removeQuotes context;
         FieldProxy.func := FieldProxy.func context |}.
Proof.
  induction ts as [|t ts IH]; intros context.
  - cbn [fold_left]. rewrite app_nil_r. destruct context; reflexivity.
  - cbn [fold_left]. rewrite IH. unfold ProxyAccess.transformOperation.
    cbn [FieldProxy.path FieldProxy.transforms FieldProxy.ignoreCase
         FieldProxy.removeQuotes FieldProxy.func].
    rewrite <- app_assoc. reflexivity.
Qed.

Lemma fold_left_calls (names : list Transform) (field : string) :
  fold_left (fun acc transform => transform ++ "(" ++ acc ++ ")")
            (map transformName names) field
  = callsAround (rev names) field.
Proof.
  revert field. induction names as [|t ts IH] using rev_ind; intros field.
  - reflexivity.
  - rewrite map_app, fold_left_app, rev_app_distr. cbn [map fold_left rev app].
    cbn [callsAround]. rewrite IH. reflexivity.
Qed.

(** X13.  A comparison made through the proxy renders its transforms in
    call order: for the proxy of a path, [.t1()...tn().eq(s)] with a string
    [s] renders as [tn(...t1(path)...) eq 's'], the transform called last
    outermost; the visitor accepts every transform name on a string. *)
Theorem proxy_transforms_wrap_in_call_order
        (context : FilterRenderContext) (props : list string)
        (proxy : FieldProxy.ProxyContext) (ts : list Transform) (s : string) :
  ProxyAccess.readPath FieldProxy.initialContext props = Some proxy ->
  queryPart context
    (FieldProxy.comparisonOp "eq"
       (fold_left ProxyAccess.transformOperation ts proxy) (VString s))
  = Ok (callsAround (rev ts) (join "/" props)
        ++ " eq '" ++ replaceQuotes s ++ "'").
Proof.
  rewrite readPath_from.
  destruct (forallb _ props); [|discriminate].
  intros H. injection H as <-.
  rewrite transformOperations_context.
  cbn [FieldProxy.initialContext FieldProxy.path FieldProxy.transforms
       FieldProxy.ignoreCase FieldProxy.removeQuotes FieldProxy.func app].
  unfold FieldProxy.comparisonOp, FieldProxy.createFilterExpression,
    FieldProxy.fieldPath.
  cbn [FieldProxy.path FieldProxy.transforms FieldProxy.ignoreCase
       FieldProxy.removeQuotes FieldProxy.func].
  unfold queryPart.
  cbn [isCombinedFilter isLambdaFilter isBasicFilter orb negb hasOperator
       operator String.eqb Ascii.eqb Bool.eqb].
  unfold visitBasicFilter. cbn [value operator function ignoreCase removeQuotes].
  rewrite getValueType_string_known, validateOperator_string_eq.
  cbn [bind truthy]. unfold getTransformedField.
  cbn [ignoreCase truthy field app].
  rewrite <- fold_left_calls.
  destruct ts as [|t ts]; reflexivity.
Qed.

(** X14.  A string predicate made through the proxy renders only the
    path, the predicate's argument and the [ignoreCase] modifier: the
    transforms, the function and the [removeQuotes] modifier set on the proxy
    before [contains] is called do not reach the query. *)
Theorem string_predicate_drops_the_transforms
        (context : FilterRenderContext) (proxy : FieldProxy.ProxyContext)
        (v : string) :
  queryPart context (FieldProxy.contains proxy v)
  = Ok (if FieldProxy.ignoreCase proxy
        then "contains(tolower(" ++ FieldProxy.fieldPath proxy ++ "), '"
             ++ replaceQuotes (toLowerCase v) ++ "')"
        else "contains(" ++ FieldProxy.fieldPath proxy ++ ", '"
             ++ replaceQuotes v ++ "')").
Proof.
  unfold FieldProxy.contains, FieldProxy.createBooleanPredicateExpression.
  unfold queryPart.
  cbn [isCombinedFilter isLambdaFilter isBasicFilter orb negb hasOperator
       operator String.eqb Ascii.eqb Bool.eqb].
  unfold visitBasicFilter. cbn [value operator function ignoreCase field].
  destruct (FieldProxy.ignoreCase proxy); cbn; rewrite ?append_assoc; reflexivity.
Qed.

End ProxyProperties.

(* ================================================================== *)
(** * Properties of [visitBasicFilter] *)

Section BasicFilterProperties.
Context {host : JSHost}.

(** X15.  A comparison with a function descriptor renders without its
    transforms: when the value is a string, a number or [null], or a boolean
    tested by a string predicate, the text is the same whatever the
    [transform] property holds. *)
Theorem function_hides_the_transforms
        (filter : BasicFilter) (func : FunctionDefinition)
        (t : optional (list Transform)) :
  function filter = Some func ->
  (forall d, value filter <> VDate d) ->
  (forall b, value filter = VBoolean b ->
             arrayIncludes booleanPredicates (functionType func) = true) ->
  visitBasicFilter (setTransform filter t) = visitBasicFilter filter.
Proof.
  intros Hf Hd Hb. unfold visitBasicFilter, setTransform.
  cbn [value function field operator ignoreCase removeQuotes transform].
  rewrite Hf.
  destruct (value filter) as [|s|n|b|d] eqn:Ev.
  - reflexivity.
  - destruct (String.eqb (getValueType (VString s)) "unknown"); [reflexivity|].
    destruct (validateOperator _ _); reflexivity.
  - destruct (String.eqb (getValueType (VNumber n)) "unknown"); [reflexivity|].
    destruct (validateOperator _ _); reflexivity.
  - rewrite (Hb b eq_refl).
    destruct (String.eqb (getValueType (VBoolean b)) "unknown"); [reflexivity|].
    destruct (validateOperator _ _); reflexivity.
  - exfalso. exact (Hd d eq_refl).
Qed.

End BasicFilterProperties.

(* ================================================================== *)
(** * Properties of the validators *)

Section ValidatorProperties.
Context {host : JSHost}.

Lemma fold_dateTransforms_thrown (transforms : list Transform) (e : error) :
  fold_left
    (fun acc transform =>
       a <- acc ;;
       match dateTransforms transform with
       | Some transformFn => Ok (transformFn a)
       | None => Throw (UnsupportedDateTransform (transformName transform))
       end)
    transforms (Throw e)
  = Throw e.
Proof.
  induction transforms as [|t ts IH]; [reflexivity|]. cbn [fold_left bind]. exact IH.
Qed.

Lemma isValidTransform_Date (transforms : list Transform) :
  isValidTransform "Date" (Some (map transformName transforms))
  = Ok (forallb (fun t => match dateTransforms t with
                          | Some _ => true
                          | None => false
                          end) transforms).
Proof.
  unfold isValidTransform. cbn [getProperty ownProperty transformTypeMap String.eqb
    Ascii.eqb Bool.eqb].
  f_equal. induction transforms as [|t ts IH]; [reflexivity|].
  cbn [map forallb]. rewrite IH. destruct t; reflexivity.
Qed.

Lemma applyDateTransforms_from (transforms : list Transform) :
  forall a : JSNumber,
    match fold_left
            (fun acc transform =>
               a <- acc ;;
               match dateTransforms transform with
               | Some transformFn => Ok (transformFn a)
               | None => Throw (UnsupportedDateTransform (transformName transform))
               end)
            transforms (Ok a) with
    | Ok _ => true
    | Throw _ => false
    end
    = forallb (fun t => match dateTransforms t with
                        | Some _ => true
                        | None => false
                        end) transforms.
Proof.
  induction transforms as [|t ts IH]; intros a; [reflexivity|].
  cbn [fold_left forallb bind].
  destruct (dateTransforms t) as [fn|].
  - cbn [andb]. apply IH.
  - rewrite fold_dateTransforms_thrown. reflexivity.
Qed.

(** X16.  The two tables of date transforms agree: [applyDateTransforms]
    applies a list of transforms to a date without throwing exactly when
    [isValidTransform] accepts the list for the kind Date. *)
Theorem date_transform_tables_agree (date : JSDate) (transforms : list Transform) :
  isValidTransform "Date" (Some (map transformName transforms))
  = Ok (match applyDateTransforms date transforms with
        | Ok _ => true
        | Throw _ => false
        end).
Proof.
  rewrite isValidTransform_Date. unfold applyDateTransforms.
  rewrite applyDateTransforms_from. reflexivity.
Qed.

Lemma validateOperator_accepted (type operator : string) :
  isValidOperator type operator = Ok true -> validateOperator type operator = Ok tt.
Proof. unfold validateOperator. intros ->. reflexivity. Qed.

Lemma isValidBasicFilter_accepted (b : BasicFilter) :
  isValidBasicFilter b = Ok true ->
  isValidOperator (getValueType (value b)) (operator b) = Ok true
  /\ match transform b with
     | Present l =>
         isValidTransform (getValueType (value b)) (Some (map transformName l))
         = Ok true
     | _ => True
     end.
Proof.
  unfold isValidBasicFilter.
  destruct (String.eqb (getValueType (value b)) "unknown"); [discriminate|].
  destruct (isValidOperator (getValueType (value b)) (operator b)) as [[|]|e];
    cbn [bind negb]; try discriminate.
  destruct (transform b) as [| |l]; intros H; split; try reflexivity; try exact I.
  destruct (isValidTransform _ _) as [[|]|e]; cbn [bind] in H;
    try discriminate; reflexivity.
Qed.

Lemma plain_comparison_renders (b : BasicFilter) :
  isValidBasicFilter b = Ok true ->
  function b = None ->
  transform b <> Undefined ->
  (forall d, value b = VDate d ->
             transform b = Absent \/ transform b = Present [] ->
             toISOString d <> None) ->
  exists text : string, visitBasicFilter b = Ok text.
Proof.
  intros Hv Hf Ht Hd. destruct (isValidBasicFilter_accepted b Hv) as [Ho Htr].
  unfold visitBasicFilter. rewrite Hf.
  destruct (value b) as [|s|n|bo|d] eqn:Ev.
  - eexists. reflexivity.
  - rewrite getValueType_string_known, (validateOperator_accepted _ _ Ho).
    eexists. reflexivity.
  - rewrite (validateOperator_accepted _ _ Ho). eexists. reflexivity.
  - rewrite (validateOperator_accepted _ _ Ho). eexists. reflexivity.
  - rewrite (validateOperator_accepted _ _ Ho).
    cbn [getValueType String.eqb Ascii.eqb Bool.eqb bind].
    specialize (Hd d eq_refl). unfold callToISOString.
    destruct (transform b) as [| |[|t ts]].
    + destruct (toISOString d); [eexists; reflexivity|].
      exfalso. apply Hd; [left|]; reflexivity.
    + exfalso. apply Ht. reflexivity.
    + destruct (toISOString d); [eexists; reflexivity|].
      exfalso. apply Hd; [right|]; reflexivity.
    + cbn [getValueType] in Htr.
      rewrite isValidTransform_Date, <- (applyDateTransforms_from (t :: ts) (dateValueOf d)) in Htr.
      fold (applyDateTransforms d (t :: ts)) in Htr.
      destruct (applyDateTransforms d (t :: ts)) as [a|e]; [|discriminate Htr].
      eexists. reflexivity.
Qed.

Lemma invalid_date_comparison_throws (b : BasicFilter) (d : JSDate) :
  isValidBasicFilter b = Ok true ->
  function b = None ->
  value b = VDate d ->
  toISOString d = None ->
  transform b = Absent \/ transform b = Present [] ->
  visitBasicFilter b = Throw (RangeError "Invalid time value").
Proof.
  intros Hv Hf Hd Hiso Ht. destruct (isValidBasicFilter_accepted b Hv) as [Ho _].
  unfold visitBasicFilter. rewrite Hf, Hd. rewrite Hd in Ho.
  rewrite (validateOperator_accepted _ _ Ho).
  cbn [getValueType String.eqb Ascii.eqb Bool.eqb bind].
  unfold callToISOString. rewrite Hiso.
  destruct Ht as [-> | ->]; reflexivity.
Qed.

Lemma accepted_comparison_is_valid (b : BasicFilter) :
  isQueryFilter (Basic b) = Ok true ->
  hasOperator b = false ->
  isValidBasicFilter b = Ok true.
Proof.
  intros Hq Eh. cbn [isQueryFilter] in Hq. rewrite Eh in Hq.
  destruct (value b); exact Hq.
Qed.

Lemma accepted_date_has_no_has_operator (b : BasicFilter) (d : JSDate) :
  isQueryFilter (Basic b) = Ok true -> value b = VDate d -> hasOperator b = false.
Proof.
  intros Hq Hd. destruct (hasOperator b) eqn:Eh; [|reflexivity].
  cbn [isQueryFilter] in Hq. rewrite Hd in Hq.
  unfold isValidBasicFilter in Hq. rewrite Hd in Hq.
  unfold hasOperator in Eh. apply String.eqb_eq in Eh. rewrite Eh in Hq.
  discriminate Hq.
Qed.

(** X17.  A comparison without a function descriptor that [isQueryFilter]
    accepts, and whose [transform] property is not present with the value
    undefined, is rendered by [toFilterQuery] unless it has to write the ISO
    timestamp of an invalid Date: it renders when its value is no Date, when
    its value is a Date that has an ISO timestamp, and when its value is any
    Date compared through one or more transforms; for an invalid Date
    without transforms the RangeError of [toISOString] is passed on. *)
Theorem accepted_plain_comparison_renders
        (context : FilterRenderContext) (b : BasicFilter) :
  isQueryFilter (Basic b) = Ok true ->
  function b = None ->
  transform b <> Undefined ->
  ((forall d, value b = VDate d ->
              transform b = Absent \/ transform b = Present [] ->
              toISOString d <> None) ->
   exists text : string,
     toFilterQuery [Basic b] context = Ok ("$filter=" ++ text))
  /\ (forall d, value b = VDate d ->
                toISOString d = None ->
                transform b = Absent \/ transform b = Present [] ->
                toFilterQuery [Basic b] context
                = Throw (RangeError "Invalid time value")).
Proof.
  intros Hq Hf Ht. split.
  - intros Hd.
    assert (Hpart : exists text, queryPart context (Basic b) = Ok text).
    { unfold queryPart.
      cbn [isCombinedFilter isLambdaFilter isBasicFilter orb negb].
      destruct (hasOperator b) eqn:Eh; [eexists; reflexivity|].
      apply plain_comparison_renders; [|exact Hf|exact Ht|exact Hd].
      apply accepted_comparison_is_valid; assumption. }
    destruct Hpart as [text Hpart]. exists text.
    unfold toFilterQuery. cbn [fold_left fst]. rewrite Hpart. reflexivity.
  - intros d Hd Hiso Htr.
    assert (Eh := accepted_date_has_no_has_operator b d Hq Hd).
    unfold toFilterQuery. cbn [fold_left fst]. unfold queryPart.
    cbn [isCombinedFilter isLambdaFilter isBasicFilter orb negb].
    rewrite Eh.
    rewrite (invalid_date_comparison_throws b d
               (accepted_comparison_is_valid b Hq Eh) Hf Hd Hiso Htr).
    reflexivity.
Qed.

(** X18.  The object syntax of [OdataQueryBuilder.filter] is stricter on
    [null] than the renderer: a comparison with the value [null] and an
    operator other than eq, ne and has is rejected there as an invalid
    operator for the type null, while [toFilterQuery] renders the same
    object. *)
Theorem null_comparison_is_rejected_by_the_object_syntax
        (context : FilterRenderContext) (b : BasicFilter) :
  value b = VNull ->
  function b = None ->
  arrayIncludes ["eq"; "ne"; "has"] (operator b) = false ->
  checkFilterInput (Basic b) = Some (InvalidOperatorInput (operator b) "null")
  /\ toFilterQuery [Basic b] context
     = Ok ("$filter=" ++ getTransformedField b ++ " " ++ operator b ++ " null").
Proof.
  intros Hv Hf Ho.
  assert (Hhas : hasOperator b = false).
  { unfold hasOperator. cbn [arrayIncludes existsb] in Ho.
    apply orb_false_iff in Ho. destruct Ho as [_ Ho].
    apply orb_false_iff in Ho. destruct Ho as [_ Ho].
    apply orb_false_iff in Ho. destruct Ho as [Ho _].
    exact Ho. }
  split.
  - unfold checkFilterInput.
    cbn [isInFilter isNegatedFilter isHasFilter isBasicFilter].
    rewrite Hhas, Hv. cbn [getValueType].
    unfold isValidOperator. cbn [getProperty ownProperty operatorTypeMap
      String.eqb Ascii.eqb Bool.eqb].
    cbn [arrayIncludes existsb] in Ho |- *.
    apply orb_false_iff in Ho. destruct Ho as [H1 Ho].
    apply orb_false_iff in Ho. destruct Ho as [H2 _].
    rewrite H1, H2. reflexivity.
  - unfold toFilterQuery. cbn [fold_left fst]. unfold queryPart.
    cbn [isCombinedFilter isLambdaFilter isBasicFilter orb negb].
    rewrite Hhas. unfold visitBasicFilter. rewrite Hv, Hf. reflexivity.
Qed.

End ValidatorProperties.

(* ================================================================== *)
(** * Properties of the builder's methods and of the rendering context *)

Section MethodProperties.
Context {host : JSHost}.

Lemma groupStep_where_is_and (state : list (list QueryFilter) * list QueryFilter)
      (f : QueryFilter) :
  groupStep state {| logic := None; filter := f |}
  = groupStep state {| logic := Some And; filter := f |}.
Proof. destruct state. reflexivity. Qed.

(** X19.  On a builder that already holds a condition, [where] is [and]:
    both methods return or throw the same for the same input, up to the
    builder they return, and whatever parts are added after them the two
    builders build the same tree. *)
Theorem where_after_the_first_condition_is_and
        (this : FilterBuilder) (input : FilterInput) (more : list FilterPart) :
  parts this <> [] ->
  (b <- where_ this input ;; Ok (build {| parts := (parts b ++ more)%list |}))
  = (b <- and_ this input ;; Ok (build {| parts := (parts b ++ more)%list |})).
Proof.
  intros Hne. unfold where_, and_.
  destruct (parts this) as [|first rest] eqn:Eparts; [congruence|].
  cbn [List.length Nat.eqb].
  destruct (resolveInput input) as [[f|]|e]; cbn [bind]; try reflexivity.
  f_equal. cbn [parts app].
  rewrite !build_groups. do 3 f_equal.
  rewrite !fold_left_app. cbn [fold_left].
  rewrite groupStep_where_is_and. reflexivity.
Qed.

Lemma QueryFilter_tree_ind (P : QueryFilter -> Prop) :
  (forall b, P (Basic b)) ->
  (forall f values, P (InFilter f values)) ->
  (forall inner, P inner -> P (NegatedFilter inner)) ->
  (forall f o expression, P expression -> P (LambdaFilter f o expression)) ->
  (forall l filters, Forall P filters -> P (CombinedFilter l filters)) ->
  forall f, P f.
Proof.
  intros HB HI HN HL HC. fix IH 1. intros [b|f values|inner|f o expression|l filters].
  - apply HB.
  - apply HI.
  - apply HN, IH.
  - apply HL, IH.
  - apply HC. induction filters as [|x rest IHrest]; constructor.
    + apply IH.
    + exact IHrest.
Qed.

Lemma visitLambdaFilter_unfold context f o expression parentPrefix :
  visitLambdaFilter context (LambdaFilter f o expression) parentPrefix
  = let wrap (subQuery : string) :=
      getPrefixedField f parentPrefix ++ "/" ++ lambdaOperatorName o
      ++ "(" ++ currentParam parentPrefix ++ ": " ++ subQuery ++ ")" in
    match expression with
    | CombinedFilter _ _ =>
        subQuery <- visitCombinedFilter context expression
                      (Some (currentParam parentPrefix)) ;;
        Ok (wrap subQuery)
    | LambdaFilter _ _ _ =>
        nestedQuery <- visitLambdaFilter context expression
                         (Some (currentParam parentPrefix)) ;;
        Ok (wrap nestedQuery)
    | Basic b =>
        subQuery <- visitBasicFilter
                      (prefixedExpression b (currentParam parentPrefix)) ;;
        Ok (wrap subQuery)
    | InFilter _ _ | NegatedFilter _ => Throw InvalidLambdaExpression
    end.
Proof. destruct expression; reflexivity. Qed.

Lemma visitors_ignore_the_context (c1 c2 : FilterRenderContext) (f : QueryFilter) :
  hasMembership f = false ->
  (forall prefix, visitCombinedFilter c1 f prefix = visitCombinedFilter c2 f prefix)
  /\ (forall prefix, visitLambdaFilter c1 f prefix = visitLambdaFilter c2 f prefix)
  /\ visitNegatedFilter c1 f = visitNegatedFilter c2 f.
Proof.
  induction f as [b|fd values|inner IH|fd o expression IH|l filters IH]
    using QueryFilter_tree_ind; intros Hm.
  - repeat split.
  - discriminate Hm.
  - cbn [hasMembership] in Hm. specialize (IH Hm). destruct IH as (IC & IL & IN).
    split; [reflexivity|]. split; [reflexivity|].
    rewrite !visitNegatedFilter_unfold. f_equal.
    destruct inner as [b|fd values|inner'|fd o expression|l filters];
      cbn [visitInnerFilter].
    + reflexivity.
    + discriminate Hm.
    + exact IN.
    + apply IL.
    + apply IC.
  - cbn [hasMembership] in Hm. specialize (IH Hm). destruct IH as (IC & IL & IN).
    split; [reflexivity|]. split; [|reflexivity].
    intros prefix. rewrite !visitLambdaFilter_unfold. cbv zeta.
    destruct expression as [b|fd' values|inner'|fd' o' expression'|l filters];
      try reflexivity.
    + rewrite IL. reflexivity.
    + rewrite IC. reflexivity.
  - cbn [hasMembership] in Hm.
    split; [|split; reflexivity].
    intros prefix. rewrite !visitCombinedFilter_unfold. f_equal.
    induction filters as [|x rest IHrest]; [reflexivity|].
    cbn [existsb] in Hm. apply orb_false_iff in Hm. destruct Hm as [Hx Hrest].
    inversion IH as [|? ? Px Prest]; subst.
    cbn [mapM]. rewrite (IHrest Prest Hrest). f_equal.
    destruct (Px Hx) as (IC & IL & IN).
    destruct x as [b|fd values|inner'|fd o expression|l' filters'];
      cbn [visitSubFilter].
    + reflexivity.
    + discriminate Hx.
    + exact IN.
    + apply IL.
    + apply IC.
Qed.

Lemma queryPart_ignores_the_context (c1 c2 : FilterRenderContext) (f : QueryFilter) :
  hasMembership f = false -> queryPart c1 f = queryPart c2 f.
Proof.
  intros Hm. destruct (visitors_ignore_the_context c1 c2 f Hm) as (IC & IL & IN).
  unfold queryPart.
  destruct (negb _); [reflexivity|].
  destruct f as [b|fd values|inner|fd o expression|l filters].
  - reflexivity.
  - discriminate Hm.
  - exact IN.
  - apply IL.
  - apply IC.
Qed.

Lemma mapM_queryPart_ignores_the_context
      (c1 c2 : FilterRenderContext) (filters : list QueryFilter) :
  existsb hasMembership filters = false ->
  mapM (queryPart c1) filters = mapM (queryPart c2) filters.
Proof.
  induction filters as [|f rest IH]; [reflexivity|].
  cbn [existsb mapM]. intros Hm. apply orb_false_iff in Hm. destruct Hm as [Hf Hrest].
  rewrite (queryPart_ignores_the_context c1 c2 f Hf), (IH Hrest). reflexivity.
Qed.

(** X20.  The rendering context only reaches Membership nodes: a tree in
    which no Membership node occurs is rendered by [toFilterQuery] to the
    same text, or fails with the same exception, under every context. *)
Theorem context_only_matters_for_membership
        (c1 c2 : FilterRenderContext) (filters : list QueryFilter) :
  existsb hasMembership filters = false ->
  toFilterQuery filters c1 = toFilterQuery filters c2.
Proof.
  intros Hm. destruct filters as [|f rest]; [reflexivity|].
  cbn [existsb] in Hm. apply orb_false_iff in Hm. destruct Hm as [Hf Hrest].
  unfold toFilterQuery. cbn [fold_left]. cbn [bind Nat.ltb Nat.leb].
  rewrite (queryPart_ignores_the_context c1 c2 f Hf).
  destruct (queryPart c2 f) as [part|e]; cbn [bind].
  - rewrite !reduce_later, (mapM_queryPart_ignores_the_context c1 c2 rest Hrest).
    reflexivity.
  - rewrite !reduce_thrown. reflexivity.
Qed.

Lemma mapM_rendered {A : Type} (f : A -> result string) (render : A -> string)
      (l : list A) :
  (forall x, In x l -> f x = Ok (render x)) ->
  mapM f l = Ok (map render l).
Proof.
  induction l as [|x l IH]; intros H; [reflexivity|].
  cbn [mapM map]. rewrite (H x (or_introl eq_refl)). cbn [bind].
  rewrite IH by (intros y Hy; apply H; right; exact Hy). reflexivity.
Qed.

Lemma mapM_map {A B C : Type} (g : A -> B) (f : B -> result C) (l : list A) :
  mapM f (map g l) = mapM (fun x => f (g x)) l.
Proof.
  induction l as [|x l IH]; [reflexivity|]. cbn [map mapM]. rewrite IH. reflexivity.
Qed.

Lemma combined_renders (context : FilterRenderContext) (l : Logic)
      (render : QueryFilter -> string) (filters : list QueryFilter) :
  2 <= List.length filters ->
  (forall x, In x filters -> visitSubFilter context None x = Ok (render x)) ->
  visitCombinedFilter context (CombinedFilter l filters) None
  = Ok ("(" ++ join (" " ++ logicName l ++ " ") (map render filters) ++ ")").
Proof.
  intros Hlen H. rewrite visitCombinedFilter_unfold.
  rewrite (mapM_rendered _ render filters H). cbn [bind]. cbv zeta.
  rewrite joined_includes_space by (rewrite length_map; exact Hlen).
  reflexivity.
Qed.

Lemma andNode_renders (context : FilterRenderContext)
      (render : QueryFilter -> string) (group : list QueryFilter) :
  group <> [] ->
  (forall x, In x group -> queryPart context x = Ok (render x)) ->
  queryPart context (andNode group) = Ok (andText render group).
Proof.
  intros Hne H. destruct group as [|x [|y r]]; [congruence| |].
  - apply H. left. reflexivity.
  - cbn [andNode andText]. unfold queryPart. cbn [isCombinedFilter orb negb].
    apply (combined_renders context And render (x :: y :: r)).
    + cbn [List.length]. lia.
    + intros z Hz. apply queryPart_visitSubFilter, H, Hz.
Qed.

(** X23.  A chain of conditions that each render on their own always
    renders once built: the tree of the builder renders to the texts of its
    conjunctions joined with [ or ], each conjunction being the texts of its
    members joined with [ and ]; every conjunction and the disjunction of two
    or more members stand in parentheses, a single member stands bare. *)
Theorem built_chain_renders
        (context : FilterRenderContext) (render : QueryFilter -> string)
        (first : FilterPart) (rest : list FilterPart) :
  (forall part, In part (first :: rest) ->
                queryPart context (filter part) = Ok (render (filter part))) ->
  exists (tree : QueryFilter) (groups : list (list QueryFilter)),
    build {| parts := first :: rest |} = Some tree
    /\ concat groups = map filter (first :: rest)
    /\ List.length groups = S (countOr rest)
    /\ queryPart context tree = Ok (orText (map (andText render) groups)).
Proof.
  intros Hparts.
  pose (groups := closeGroups (fold_left groupStep rest ([], [filter first]))).
  destruct (closeGroups_fold rest [] [filter first]) as (Hc & Hn & Hl);
    [discriminate|].
  fold groups in Hc, Hn, Hl. specialize (Hn (Forall_nil _)).
  cbn [concat app] in Hc.
  assert (Hmember : forall g, In g groups ->
            forall x, In x g -> queryPart context x = Ok (render x)).
  { intros g Hg x Hx.
    assert (Hin : In x (map filter (first :: rest))).
    { change (filter first :: map filter rest)
        with (map filter (first :: rest)) in Hc.
      rewrite <- Hc. apply in_concat. exists g. split; assumption. }
    apply in_map_iff in Hin. destruct Hin as (part & <- & Hpart).
    apply Hparts, Hpart. }
  assert (Hgroup : forall g, In g groups ->
            queryPart context (andNode g) = Ok (andText render g)).
  { intros g Hg. apply andNode_renders.
    - rewrite Forall_forall in Hn. apply Hn, Hg.
    - apply Hmember, Hg. }
  exists (orNode (map andNode groups)), groups.
  split; [apply build_groups|]. split; [exact Hc|].
  split; [rewrite Hl; cbn [List.length]; lia|].
  destruct groups as [|g1 [|g2 gs]].
  - cbn [List.length] in Hl. lia.
  - cbn [map orNode orText]. apply Hgroup. left. reflexivity.
  - cbn [map orNode orText]. unfold queryPart. cbn [isCombinedFilter orb negb].
    change (andNode g1 :: andNode g2 :: map andNode gs)
      with (map andNode (g1 :: g2 :: gs)).
    change (andText render g1 :: andText render g2 :: map (andText render) gs)
      with (map (andText render) (g1 :: g2 :: gs)).
    rewrite visitCombinedFilter_unfold, mapM_map.
    rewrite (mapM_rendered _ (andText render) (g1 :: g2 :: gs))
      by (intros g Hg; apply queryPart_visitSubFilter, Hgroup, Hg).
    cbn [bind]. cbv zeta.
    rewrite joined_includes_space by (cbn [map List.length]; lia).
    reflexivity.
Qed.

End MethodProperties.

(* ================================================================== *)
(** * Properties of the search expression builder *)

Section SearchProperties.

Lemma join_snoc (sep : string) (l : list string) (x : string) :
  join sep (l ++ [x])
  = match l with
    | [] => x
    | _ => join sep l ++ sep ++ x
    end.
Proof.
  induction l as [|a l IH]; [reflexivity|].
  destruct l as [|b l].
  - reflexivity.
  - change (join sep ((a :: b :: l) ++ [x]))
      with (a ++ sep ++ join sep ((b :: l) ++ [x])).
    rewrite IH.
    change (join sep (a :: b :: l)) with (a ++ sep ++ join sep (b :: l)).
    rewrite !append_assoc. reflexivity.
Qed.

Lemma toString_snoc (this : Search.SearchExpressionBuilder)
      (part : Search.SearchExpressionPart) :
  Search.toString {| Search.parts := (Search.parts this ++ [part])%list |}
  = lead this ++ Search.stringifyPart part.
Proof.
  unfold Search.toString, lead. cbn [Search.parts].
  rewrite map_app. cbn [map]. rewrite join_snoc.
  unfold Search.toString.
  destruct (Search.parts this) as [|a l]; [reflexivity|].
  cbn [map]. rewrite append_assoc. reflexivity.
Qed.

(** X21.  The text of a search builder grows at its end: [and] and [or]
    add the words AND and OR, [group] adds the text of the inner builder in
    parentheses and [not] the same after the word NOT, each after a space
    unless the builder was empty.  None of them looks at what the builder
    holds: an empty inner builder gives [()] and [(NOT)]. *)
Theorem search_text_grows_at_the_end
        (this inner : Search.SearchExpressionBuilder) :
  Search.toString (Search.and_ this) = lead this ++ "AND"
  /\ Search.toString (Search.or_ this) = lead this ++ "OR"
  /\ Search.toString (Search.group this inner)
     = lead this ++ "(" ++ Search.toString inner ++ ")"
  /\ Search.toString (Search.not_ this inner)
     = lead this ++ "(NOT"
       ++ match Search.parts inner with
          | [] => ""
          | _ => " " ++ Search.toString inner
          end
       ++ ")".
Proof.
  unfold Search.and_, Search.or_, Search.group, Search.not_.
  rewrite !toString_snoc. repeat split.
  cbn [Search.stringifyPart map]. f_equal.
  unfold Search.toString, Search.build.
  destruct (Search.parts inner) as [|a l]; [reflexivity|].
  cbn [map].
  change (join " " ("NOT" :: Search.stringifyPart a :: map Search.stringifyPart l))
    with ("NOT" ++ " " ++ join " " (Search.stringifyPart a
                                     :: map Search.stringifyPart l)).
  reflexivity.
Qed.

Lemma trimStart_blank (s : string) :
  allChars Search.isWhiteSpace s = true -> Search.trimStart s = "".
Proof.
  induction s as [|c s IH]; [reflexivity|]. cbn [allChars Search.trimStart].
  destruct (Search.isWhiteSpace c); [exact IH | discriminate].
Qed.

Lemma trimStart_split (s : string) :
  exists before : string,
    s = before ++ Search.trimStart s
    /\ allChars Search.isWhiteSpace before = true
    /\ match firstChar (Search.trimStart s) with
       | Some c => Search.isWhiteSpace c = false
       | None => allChars Search.isWhiteSpace s = true
       end.
Proof.
  induction s as [|c s IH].
  - exists "". repeat split.
  - cbn [Search.trimStart allChars].
    destruct (Search.isWhiteSpace c) eqn:Ec.
    + destruct IH as (before & Hs & Hb & Hf).
      exists (String c before). cbn [append allChars]. rewrite Ec, <- Hs.
      repeat split; assumption.
    + exists "". repeat split. exact Ec.
Qed.

Lemma lastChar_some (s : string) (c : ascii) : lastChar (String c s) <> None.
Proof.
  revert c. induction s as [|k s IH]; intros c; [discriminate|].
  change (lastChar (String c (String k s))) with (lastChar (String k s)).
  apply IH.
Qed.

Lemma trimEnd_split (s : string) :
  exists after : string,
    s = Search.trimEnd s ++ after
    /\ allChars Search.isWhiteSpace after = true
    /\ match lastChar (Search.trimEnd s) with
       | Some c => Search.isWhiteSpace c = false
       | None => allChars Search.isWhiteSpace s = true
       end
    /\ (match firstChar s with
        | Some c => Search.isWhiteSpace c = false
        | None => False
        end -> firstChar (Search.trimEnd s) = firstChar s).
Proof.
  induction s as [|c s IH].
  - exists "". repeat split.
  - destruct IH as (after & Hs & Ha & Hl & _).
    cbn [Search.trimEnd].
    destruct (Search.trimEnd s) as [|k kept] eqn:Ek.
    + cbn [lastChar] in Hl. cbn [append] in Hs. subst after.
      destruct (Search.isWhiteSpace c) eqn:Ec.
      * exists (String c s). cbn [append allChars lastChar firstChar].
        rewrite Ec, Hl. repeat split. intros H. discriminate H.
      * exists s. cbn [append allChars lastChar firstChar].
        repeat split; assumption.
    + exists after.
      split; [cbn [append] in Hs |- *; f_equal; exact Hs|].
      split; [exact Ha|]. split; [|intros _; reflexivity].
      change (lastChar (String c (String k kept))) with (lastChar (String k kept)).
      destruct (lastChar (String k kept)) eqn:El; [exact Hl|].
      exfalso. exact (lastChar_some _ _ El).
Qed.

(** X22.  [phrase] rejects exactly the texts that are empty or white space
    only; for any other text it adds the phrase without the white space at
    its ends: what is stored is the text between a leading and a trailing
    run of white space, and neither begins nor ends with white space. *)
Theorem phrase_is_trimmed_or_rejected
        (this : Search.SearchExpressionBuilder) (p : string) :
  Search.phrase this p
  = (if allChars Search.isWhiteSpace p
     then Search.Failed Search.PhraseEmpty
     else Search.Built
            {| Search.parts :=
                 (Search.parts this ++ [Search.Phrase (Search.trim p)])%list |})
  /\ exists before after : string,
       p = before ++ Search.trim p ++ after
       /\ allChars Search.isWhiteSpace before = true
       /\ allChars Search.isWhiteSpace after = true
       /\ (allChars Search.isWhiteSpace p = false ->
           exists first last : ascii,
             firstChar (Search.trim p) = Some first
             /\ lastChar (Search.trim p) = Some last
             /\ Search.isWhiteSpace first = false
             /\ Search.isWhiteSpace last = false).
Proof.
  unfold Search.phrase, Search.trim.
  destruct (trimStart_split p) as (before & Hp & Hb & Hfirst).
  destruct (trimEnd_split (Search.trimStart p)) as (after & Ht & Ha & Hlast & Hkeep).
  assert (Hblank : allChars Search.isWhiteSpace p
                   = match Search.trimEnd (Search.trimStart p) with
                     | EmptyString => true
                     | _ => false
                     end).
  { destruct (Search.trimEnd (Search.trimStart p)) as [|k kept] eqn:Ek.
    - cbn [lastChar] in Hlast. cbn [append] in Ht.
      rewrite Hp. clear Hp Hfirst Hkeep Ht.
      induction before as [|c before IH]; [exact Hlast|].
      cbn [allChars append] in Hb |- *.
      apply andb_true_iff in Hb. destruct Hb as [Hc Hb].
      rewrite Hc. exact (IH Hb).
    - destruct (Search.trimStart p) as [|c t] eqn:Et; [discriminate Ek|].
      cbn [firstChar] in Hfirst. rewrite Hp. clear Hp.
      induction before as [|b before IH]; cbn [allChars append].
      + rewrite Hfirst. reflexivity.
      + cbn [allChars] in Hb. apply andb_true_iff in Hb. destruct Hb as [Hc Hb].
        rewrite Hc. exact (IH Hb). }
  split.
  - rewrite Hblank. destruct (Search.trimEnd (Search.trimStart p)); reflexivity.
  - exists before, after. split; [|split; [exact Hb|split; [exact Ha|]]].
    + rewrite <- Ht. exact Hp.
    + intros Hnot. rewrite Hblank in Hnot.
      destruct (Search.trimEnd (Search.trimStart p)) as [|k kept] eqn:Ek;
        [discriminate Hnot|].
      destruct (Search.trimStart p) as [|c t] eqn:Et; [discriminate Ek|].
      cbn [firstChar] in Hfirst, Hkeep. specialize (Hkeep Hfirst).
      destruct (lastChar (String k kept)) as [l|] eqn:El.
      * exists k, l. repeat split; try assumption.
        cbn [firstChar] in Hkeep. injection Hkeep as ->. exact Hfirst.
      * exfalso. exact (lastChar_some _ _ El).
Qed.

End SearchProperties.

(* ================================================================== *)
(** * The exceptions of [visitBasicFilter] *)

Section BasicFilterErrors.
Context {host : JSHost}.

Lemma fold_dateTransforms_throws (transforms : list Transform) :
  forall (start : result JSNumber) (e : error),
    fold_left
      (fun acc transform =>
         a <- acc ;;
         match dateTransforms transform with
         | Some transformFn => Ok (transformFn a)
         | None => Throw (UnsupportedDateTransform (transformName transform))
         end)
      transforms start
    = Throw e ->
    start = Throw e
    \/ exists t, In t transforms /\ dateTransforms t = None
                 /\ e = UnsupportedDateTransform (transformName t).
Proof.
  induction transforms as [|t ts IH]; intros start e H.
  - left. exact H.
  - cbn [fold_left] in H. apply IH in H. destruct H as [H|(t' & Hin & Hd & He)].
    + destruct start as [a|e']; cbn [bind] in H.
      * destruct (dateTransforms t) eqn:Ed; [discriminate H|].
        injection H as <-. right. exists t. repeat split; [left; reflexivity|exact Ed].
      * left. exact H.
    + right. exists t'. repeat split; [right; exact Hin|exact Hd|exact He].
Qed.

Lemma validateOperator_throws (v : Value) (operator : string) (e : error) :
  validateOperator (getValueType v) operator = Throw e ->
  e = InvalidOperator operator (getValueType v).
Proof.
  unfold validateOperator.
  assert (Hown : exists valid, isValidOperator (getValueType v) operator = Ok valid).
  { destruct v as [|s|n|b|d]; cbn [getValueType]; try (eexists; reflexivity).
    destruct (isGuid s); eexists; reflexivity. }
  destruct Hown as [valid ->]. cbn [bind].
  destruct valid; [discriminate|]. intros H. injection H as <-. reflexivity.
Qed.

(** X24.  The exceptions of a comparison.  When [visitBasicFilter] throws,
    it is for one of five reasons: the operator is not in the table for the
    kind of the value; the function descriptor has an argument or a field
    that is [null], a field reference or an invalid Date; the value is a
    Date and one of the transforms is not a date transform; the value is a
    Date and the [transform] property is present with the value undefined;
    the value is an invalid Date compared without transforms, whose ISO
    timestamp [toISOString] refuses with a RangeError. *)
Theorem comparison_exceptions (filter : BasicFilter) (e : error) :
  visitBasicFilter filter = Throw e ->
  e = InvalidOperator (operator filter) (getValueType (value filter))
  \/ (function filter <> None
      /\ (e = UnsupportedValueType "object" \/ e = UnsupportedFieldReference
          \/ e = RangeError "Invalid time value"))
  \/ (exists d t l,
        value filter = VDate d /\ transform filter = Present l /\ In t l
        /\ dateTransforms t = None
        /\ e = UnsupportedDateTransform (transformName t))
  \/ (exists d,
        value filter = VDate d /\ transform filter = Undefined
        /\ e = TypeError "Cannot read properties of undefined (reading 'length')")
  \/ (exists d,
        value filter = VDate d /\ toISOString d = None
        /\ (transform filter = Absent \/ transform filter = Present [])
        /\ e = RangeError "Invalid time value").
Proof.
  unfold visitBasicFilter.
  assert (Hfun : forall (k : string -> result string) fieldName,
            (forall text e', k text <> Throw e') ->
            (leftSide <- match function filter with
                         | Some func => processFunction func fieldName
                         | None => Ok (getTransformedField filter)
                         end ;; k leftSide) = Throw e ->
            function filter <> None
            /\ (e = UnsupportedValueType "object" \/ e = UnsupportedFieldReference
                \/ e = RangeError "Invalid time value")).
  { intros k fieldName Hk H. destruct (function filter) as [func|].
    - split; [discriminate|].
      destruct (processFunction func fieldName) as [text|e'] eqn:Ep; cbn [bind] in H.
      + exfalso. exact (Hk _ _ H).
      + injection H as <-. exact (processFunction_throws _ _ _ Ep).
    - cbn [bind] in H. exfalso. exact (Hk _ _ H). }
  assert (Hiso : forall d,
            value filter = VDate d ->
            transform filter = Absent \/ transform filter = Present [] ->
            (leftSide <- match function filter with
                         | Some func => processFunction func (field filter)
                         | None => Ok (getTransformedField filter)
                         end ;;
             isoDate <- callToISOString d ;;
             Ok (leftSide ++ " " ++ operator filter ++ " " ++ isoDate)) = Throw e ->
            (function filter <> None
             /\ (e = UnsupportedValueType "object" \/ e = UnsupportedFieldReference
                 \/ e = RangeError "Invalid time value"))
            \/ (exists d,
                  value filter = VDate d /\ toISOString d = None
                  /\ (transform filter = Absent \/ transform filter = Present [])
                  /\ e = RangeError "Invalid time value")).
  { intros d Hd Ht H.
    assert (Hdate : forall leftSide,
              (isoDate <- callToISOString d ;;
               Ok (leftSide ++ " " ++ operator filter ++ " " ++ isoDate)) = Throw e ->
              toISOString d = None /\ e = RangeError "Invalid time value").
    { intros leftSide. unfold callToISOString.
      destruct (toISOString d); cbn [bind]; [discriminate|].
      intros H'. injection H' as <-. split; reflexivity. }
    destruct (function filter) as [func|].
    - destruct (processFunction func (field filter)) as [text|e'] eqn:Ep;
        cbn [bind] in H.
      + right. destruct (Hdate _ H) as [Hnone ->].
        exists d. repeat split; assumption.
      + injection H as <-. left. split; [discriminate|].
        exact (processFunction_throws _ _ _ Ep).
    - cbn [bind] in H. right. destruct (Hdate _ H) as [Hnone ->].
      exists d. repeat split; assumption. }
  destruct (value filter) as [|s|n|b|d] eqn:Ev.
  - intros H. right. left. refine (Hfun _ _ _ H); intros; discriminate.
  - clear Hfun Hiso. rewrite getValueType_string_known.
    destruct (validateOperator _ _) eqn:Eo; cbn [bind].
    + intros H. right. left. split.
      * destruct (function filter); [discriminate|discriminate H].
      * destruct (function filter) as [func|]; [|discriminate H].
        destruct (arrayIncludes booleanPredicates (functionType func)).
        -- exact (processFunction_throws _ _ _ H).
        -- destruct (processFunction func _) as [text|e'] eqn:Ep; cbn [bind] in H;
             [discriminate H|].
           injection H as <-. exact (processFunction_throws _ _ _ Ep).
    + intros H. injection H as <-. left.
      apply (validateOperator_throws (VString s)), Eo.
  - cbn [getValueType String.eqb Ascii.eqb Bool.eqb].
    destruct (validateOperator _ _) eqn:Eo; cbn [bind].
    + intros H. right. left. refine (Hfun _ _ _ H); intros; discriminate.
    + intros H. injection H as <-. left.
      apply (validateOperator_throws (VNumber n)), Eo.
  - cbn [getValueType String.eqb Ascii.eqb Bool.eqb].
    destruct (validateOperator _ _) eqn:Eo; cbn [bind].
    + intros H. right. left.
      destruct (function filter) as [func|]; [|discriminate H].
      split; [discriminate|].
      destruct (arrayIncludes booleanPredicates (functionType func));
        [|discriminate H].
      exact (processFunction_throws _ _ _ H).
    + intros H. injection H as <-. left.
      apply (validateOperator_throws (VBoolean b)), Eo.
  - cbn [getValueType String.eqb Ascii.eqb Bool.eqb].
    destruct (validateOperator _ _) eqn:Eo; cbn [bind].
    + destruct (transform filter) as [| |[|t ts]] eqn:Et.
      * intros H. right.
        destruct (Hiso d eq_refl (or_introl eq_refl) H) as [Hc|Hc];
          [left; exact Hc | right; right; right; exact Hc].
      * intros H. injection H as <-. right. right. right. left.
        exists d. repeat split.
      * intros H. right.
        destruct (Hiso d eq_refl (or_intror eq_refl) H) as [Hc|Hc];
          [left; exact Hc | right; right; right; exact Hc].
      * intros H. right. right. left.
        destruct (applyDateTransforms d (t :: ts)) as [num|e'] eqn:Ea; cbn [bind] in H;
          [discriminate H|].
        injection H as <-. unfold applyDateTransforms in Ea.
        apply fold_dateTransforms_throws in Ea.
        destruct Ea as [Ea|(t' & Hin & Hd & He)]; [discriminate Ea|].
        exists d, t', (t :: ts). repeat split; assumption.
    + intros H. injection H as <-. left.
      apply (validateOperator_throws (VDate d)), Eo.
Qed.

End BasicFilterErrors.

(* ================================================================== *)
(** * Further concrete runs on the UTC host *)

(** X10 at a GUID in its canonical form. *)
Lemma guid_is_36_hex_digits_and_hyphens_run :
  getValueType (VString canonicalGuid) = "Guid"
  /\ String.length canonicalGuid = 36
  /\ allChars isGuidChar canonicalGuid = true
  /\ formatInValue (VString canonicalGuid) = Ok canonicalGuid
  /\ forall before after : string,
       before ++ after <> "" ->
       getValueType (VString (before ++ canonicalGuid ++ after)) = "string".
Proof.
  split; [reflexivity|].
  exact (guid_is_36_hex_digits_and_hyphens canonicalGuid eq_refl).
Defined.

(** X13 at [x => x.address.city.tolower().trim().eq('Bonn')]. *)
Lemma proxy_transforms_wrap_in_call_order_run :
  ProxyAccess.readPath FieldProxy.initialContext ["address"; "city"]
  = Some addressCity
  /\ queryPart defaultContext
       (FieldProxy.comparisonOp "eq"
          (fold_left ProxyAccess.transformOperation [Tolower; Trim] addressCity)
          (VString "Bonn"))
     = Ok "trim(tolower(address/city)) eq 'Bonn'".
Proof.
  split; [reflexivity|].
  exact (proxy_transforms_wrap_in_call_order
           defaultContext ["address"; "city"] addressCity [Tolower; Trim] "Bonn"
           eq_refl).
Defined.

(** X15 at [length(name) eq 4] with the transform tolower. *)
Lemma function_hides_the_transforms_run :
  function lengthOfLoweredName = Some LengthFn
  /\ (forall d, value lengthOfLoweredName <> VDate d)
  /\ (forall b, value lengthOfLoweredName = VBoolean b ->
                arrayIncludes booleanPredicates (functionType LengthFn) = true)
  /\ visitBasicFilter lengthOfLoweredName = Ok "length(name) eq 4"
  /\ visitBasicFilter (setTransform lengthOfLoweredName Absent)
     = visitBasicFilter lengthOfLoweredName.
Proof.
  assert (Hd : forall d, value lengthOfLoweredName <> VDate d) by discriminate.
  assert (Hb : forall b, value lengthOfLoweredName = VBoolean b ->
                 arrayIncludes booleanPredicates (functionType LengthFn) = true)
    by discriminate.
  split; [reflexivity|]. split; [exact Hd|]. split; [exact Hb|].
  split; [reflexivity|].
  exact (function_hides_the_transforms lengthOfLoweredName LengthFn Absent
           eq_refl Hd Hb).
Defined.

(** X17 at [s eq <date>], which renders, and at [createdAt eq <invalid
    date>], which [isQueryFilter] accepts as well. *)
Lemma accepted_plain_comparison_renders_run :
  isQueryFilter (Basic elementEqDate) = Ok true
  /\ function elementEqDate = None
  /\ transform elementEqDate <> Undefined
  /\ (exists text : string,
        toFilterQuery [Basic elementEqDate] defaultContext
        = Ok ("$filter=" ++ text))
  /\ isQueryFilter (Basic createdAtEqInvalidDate) = Ok true
  /\ toFilterQuery [Basic createdAtEqInvalidDate] defaultContext
     = Throw (RangeError "Invalid time value").
Proof.
  assert (Ht : transform elementEqDate <> Undefined) by discriminate.
  assert (Ht' : transform createdAtEqInvalidDate <> Undefined) by discriminate.
  split; [reflexivity|]. split; [reflexivity|]. split; [exact Ht|]. split.
  - apply (proj1 (accepted_plain_comparison_renders defaultContext elementEqDate
                    eq_refl eq_refl Ht)).
    intros d Hd _. injection Hd as <-. discriminate.
  - split; [reflexivity|].
    exact (proj2 (accepted_plain_comparison_renders defaultContext
                    createdAtEqInvalidDate eq_refl eq_refl Ht')
                 NaN eq_refl eq_refl (or_introl eq_refl)).
Defined.

(** X18 at [deletedAt gt null]. *)
Lemma null_comparison_is_rejected_by_the_object_syntax_run :
  value deletedAtGtNull = VNull
  /\ function deletedAtGtNull = None
  /\ arrayIncludes ["eq"; "ne"; "has"] (operator deletedAtGtNull) = false
  /\ checkFilterInput (Basic deletedAtGtNull)
     = Some (InvalidOperatorInput "gt" "null")
  /\ toFilterQuery [Basic deletedAtGtNull] defaultContext
     = Ok "$filter=deletedAt gt null".
Proof.
  do 3 (split; [reflexivity|]).
  exact (null_comparison_is_rejected_by_the_object_syntax
           defaultContext deletedAtGtNull eq_refl eq_refl eq_refl).
Defined.

(** X19 at [where(name eq 'John').and(age gt 18)] followed by
    [where(isAdmin eq true)] or by [and(isAdmin eq true)]. *)
Lemma where_after_the_first_condition_is_and_run :
  parts johnAndAdult <> []
  /\ (b <- where_ johnAndAdult (Predicate (Expression isAdminTrue)) ;;
      Ok (build {| parts := (parts b ++ [])%list |}))
     = (b <- and_ johnAndAdult (Predicate (Expression isAdminTrue)) ;;
        Ok (build {| parts := (parts b ++ [])%list |})).
Proof.
  assert (Hne : parts johnAndAdult <> []) by discriminate.
  split; [exact Hne|].
  exact (where_after_the_first_condition_is_and
           johnAndAdult (Predicate (Expression isAdminTrue)) [] Hne).
Defined.

(** X20 at a comparison and three nested quantifiers, in the default and in
    the legacy context. *)
Lemma context_only_matters_for_membership_run :
  existsb hasMembership [nameEqJohn; threeQuantifiers] = false
  /\ toFilterQuery [nameEqJohn; threeQuantifiers] defaultContext
     = toFilterQuery [nameEqJohn; threeQuantifiers] legacyContext.
Proof.
  split; [reflexivity|].
  exact (context_only_matters_for_membership
           defaultContext legacyContext [nameEqJohn; threeQuantifiers] eq_refl).
Defined.

(** X23 at [where(name eq 'John').and(age gt 18).or(isAdmin eq true)]. *)
Lemma built_chain_renders_run :
  (forall part,
      In part [ {| logic := None; filter := nameEqJohn |};
                {| logic := Some And; filter := ageGt18 |};
                {| logic := Some Or; filter := isAdminTrue |} ] ->
      queryPart defaultContext (filter part) = Ok (renderedAlone (filter part)))
  /\ exists (tree : QueryFilter) (groups : list (list QueryFilter)),
       build {| parts := [ {| logic := None; filter := nameEqJohn |};
                           {| logic := Some And; filter := ageGt18 |};
                           {| logic := Some Or; filter := isAdminTrue |} ] |}
       = Some tree
       /\ concat groups = [nameEqJohn; ageGt18; isAdminTrue]
       /\ List.length groups = 2
       /\ queryPart defaultContext tree
          = Ok (orText (map (andText renderedAlone) groups)).
Proof.
  assert (Hparts : forall part,
             In part [ {| logic := None; filter := nameEqJohn |};
                       {| logic := Some And; filter := ageGt18 |};
                       {| logic := Some Or; filter := isAdminTrue |} ] ->
             queryPart defaultContext (filter part)
             = Ok (renderedAlone (filter part))).
  { intros part [<-|[<-|[<-|[]]]]; reflexivity. }
  split; [exact Hparts|].
  exact (built_chain_renders defaultContext renderedAlone
           {| logic := None; filter := nameEqJohn |}
           [ {| logic := Some And; filter := ageGt18 |};
             {| logic := Some Or; filter := isAdminTrue |} ] Hparts).
Defined.

(** X24 at [createdAt eq <invalid date>]. *)
Lemma comparison_exceptions_run :
  visitBasicFilter createdAtEqInvalidDate = Throw (RangeError "Invalid time value")
  /\ (RangeError "Invalid time value"
      = InvalidOperator (operator createdAtEqInvalidDate)
                        (getValueType (value createdAtEqInvalidDate))
      \/ (function createdAtEqInvalidDate <> None
          /\ (RangeError "Invalid time value" = UnsupportedValueType "object"
              \/ RangeError "Invalid time value" = UnsupportedFieldReference
              \/ RangeError "Invalid time value" = RangeError "Invalid time value"))
      \/ (exists d t l,
            value createdAtEqInvalidDate = VDate d
            /\ transform createdAtEqInvalidDate = Present l /\ In t l
            /\ dateTransforms t = None
            /\ RangeError "Invalid time value"
               = UnsupportedDateTransform (transformName t))
      \/ (exists d,
            value createdAtEqInvalidDate = VDate d
            /\ transform createdAtEqInvalidDate = Undefined
            /\ RangeError "Invalid time value"
               = TypeError "Cannot read properties of undefined (reading 'length')")
      \/ (exists d,
            value createdAtEqInvalidDate = VDate d /\ toISOString d = None
            /\ (transform createdAtEqInvalidDate = Absent
                \/ transform createdAtEqInvalidDate = Present [])
            /\ RangeError "Invalid time value" = RangeError "Invalid time value")).
Proof.
  split; [reflexivity|].
  exact (comparison_exceptions createdAtEqInvalidDate
           (RangeError "Invalid time value") eq_refl).
Defined.

(* ================================================================== *)
(** * Properties of [OdataQueryBuilder.toQuery] *)

Section QueryProperties.
Context {host : JSHost}.
Variables SelectField ExpandField OrderByDescriptor : Type.
Variable numberIsTruthy : JSNumber -> bool.
Variable toTopQuery toSkipQuery : JSNumber -> result string.
Variable toSelectQuery : list SelectField -> result string.
Variable toExpandQuery : list ExpandField -> result string.
Variable toOrderByQuery : list OrderByDescriptor -> result string.
Variable createSearchTerm : string -> option string.

Lemma toFilterQuery_shape (filters : list QueryFilter) (context : FilterRenderContext) :
  match toFilterQuery filters context with
  | Ok text => text = "" \/ exists rest, text = "$filter=" ++ rest
  | Throw _ => True
  end.
Proof.
  destruct filters as [|f fs]; [left; reflexivity|].
  unfold toFilterQuery. cbn [fold_left]. cbn [bind Nat.ltb Nat.leb].
  destruct (queryPart context f) as [part|e]; cbn [bind].
  - rewrite reduce_later.
    destruct (mapM (queryPart context) fs) as [texts|e]; cbn [bind]; [|exact I].
    right. eexists. rewrite append_assoc. reflexivity.
  - rewrite reduce_thrown. exact I.
Qed.

(** X25.  The query of a builder that holds a count, filters and a search
    expression (no top, skip, select, expand or orderBy).  The filter text
    and [$search=] with the percent-encoded text of the search builder are
    joined with [&], an empty one left out.  After [count(true)] the query is
    [/$count], followed by [?] and these parts when there are any; after
    [count()] it is [?$count=true] with the parts after it; without a count
    it is [?] and the parts, or empty when there are none.  A search builder
    whose text is empty adds nothing. *)
Theorem query_of_count_filter_and_search
        (legacyInOperator : option bool) (countCall : option bool)
        (filters : option (list QueryFilter))
        (searchBuilder : Search.SearchExpressionBuilder) :
  let fresh :=
    QueryBuilder.Build_OdataQueryBuilder _ _ _
      (QueryBuilder.Build_QueryComponents SelectField ExpandField OrderByDescriptor
         None filters None None None None None None)
      (Build_FilterRenderContext legacyInOperator) in
  let counted :=
    match countCall with
    | Some countEntities => QueryBuilder.count_ _ _ _ fresh countEntities
    | None => fresh
    end in
  match QueryBuilder.search_ _ _ _ createSearchTerm counted
          (QueryBuilder.SearchExpression searchBuilder) with
  | Some this =>
      QueryBuilder.toQuery _ _ _ numberIsTruthy toTopQuery toSkipQuery
        toSelectQuery toExpandQuery toOrderByQuery this
      = (filterText <- match filters with
                       | Some set =>
                           toFilterQuery set
                             (Build_FilterRenderContext legacyInOperator)
                       | None => Ok ""
                       end ;;
         let searchText :=
           match Search.toString searchBuilder with
           | EmptyString => ""
           | text => "$search=" ++ QueryBuilder.encodeURIComponent text
           end in
         let queryParts :=
           List.filter QueryBuilder.nonEmpty [filterText; searchText] in
         Ok (match countCall with
             | Some true => "/$count" ++ questionJoin queryParts
             | Some false => "?" ++ join "&" ("$count=true" :: queryParts)
             | None => questionJoin queryParts
             end))
  | None => False
  end.
Proof.
  cbv zeta. unfold QueryBuilder.search_, QueryBuilder.toQuery.
  assert (Hshape := fun set =>
            toFilterQuery_shape set (Build_FilterRenderContext legacyInOperator)).
  destruct countCall as [[|]|]; cbn [QueryBuilder.count_ QueryBuilder.queryComponents
    QueryBuilder.count QueryBuilder.setCount QueryBuilder.setSearch
    QueryBuilder.filter QueryBuilder.top QueryBuilder.skip QueryBuilder.select
    QueryBuilder.orderBy QueryBuilder.expand QueryBuilder.search
    QueryBuilder.filterContext];
    (destruct filters as [set|];
     [ specialize (Hshape set);
       cbn [QueryBuilder.queryStringPart negb bind];
       destruct (toFilterQuery set _) as [text|e];
       [ destruct Hshape as [->|[rest ->]] | reflexivity ]
     | ]);
    destruct (Search.toString searchBuilder) as [|a t]; reflexivity.
Qed.

End QueryProperties.

(** X25 at [count(true)], the filter [name eq 'John'] and the search
    expression [coffee AND organic]; the generators that are not used return
    the empty text. *)
Lemma query_of_count_filter_and_search_run :
  QueryBuilder.toQuery unit unit unit (fun _ => true)
    (fun _ => Ok "") (fun _ => Ok "") (fun _ => Ok "") (fun _ => Ok "")
    (fun _ => Ok "")
    (QueryBuilder.Build_OdataQueryBuilder _ _ _
       (QueryBuilder.Build_QueryComponents unit unit unit
          (Some "/$count") (Some [nameEqJohn]) None None None None None
          (Some "coffee AND organic"))
       defaultContext)
  = Ok "/$count?$filter=name eq 'John'&$search=coffee%20AND%20organic".
Proof.
  exact (query_of_count_filter_and_search unit unit unit (fun _ => true)
           (fun _ => Ok "") (fun _ => Ok "") (fun _ => Ok "") (fun _ => Ok "")
           (fun _ => Ok "") (fun text => Some text)
           None (Some true) (Some [nameEqJohn]) coffeeAndOrganic).
Defined.
